(** * axstudio: Langflow components for CoE model and tool selection

    A shallow embedding of four host-invoked components,

    - [CoEModelPicker]      (components/agents/coe_model_picker.py),
    - [ToolInvoker]         (components/tools/tool_invoker.py),
    - [ToolPickerRouter]    (components/tools/tool_picker_router.py),
    - [ToolPicker]          (components/tools/tool_picker.py),

    together with the properties their specification states about them
    and further properties of the code: of each component, and of the
    picker's output handed to the invoker.

    Python values are embedded as follows.  A [str] is a [string] whose
    characters are the code points 0..255; a decoded JSON document is a
    [json] tree (numbers are integers: floating point is not embedded); a
    [dict] is an association list kept in insertion order, as Python keeps
    it; an exception is a constructor of [exn]; a method that reads or
    writes the instance, or talks to the network, is a function in the
    monad [M], whose state survives a raised exception as it does in Python. *)

From Stdlib Require Import List String Ascii ZArith Bool Arith Lia.
From Stdlib Require Import Sorting.Sorted Sorting.Permutation.
From Stdlib Require Import Numbers.DecimalString.
Import ListNotations.

Local Open Scope list_scope.
Local Open Scope string_scope.
Local Set Warnings "-register-all".

(* ===================================================================== *)
(** ** Python strings *)
(* ===================================================================== *)

Module PyStr.

(** [str.isspace] on one character, for code points below 256. *)
Definition isspace (c : ascii) : bool :=
  let n := nat_of_ascii c in
  (((9 <=? n) && (n <=? 13)) || ((28 <=? n) && (n <=? 32))
   || (n =? 133) || (n =? 160))%nat.

Fixpoint lstrip_by (p : ascii -> bool) (s : string) : string :=
  match s with
  | EmptyString => EmptyString
  | String c s' => if p c then lstrip_by p s' else s
  end.

Fixpoint rstrip_by (p : ascii -> bool) (s : string) : string :=
  match s with
  | EmptyString => EmptyString
  | String c s' =>
      match rstrip_by p s' with
      | EmptyString => if p c then EmptyString else String c EmptyString
      | r => String c r
      end
  end.

(** [s.strip()] *)
Definition strip (s : string) : string :=
  rstrip_by isspace (lstrip_by isspace s).

(** [s.rstrip(chars)] *)
Definition in_chars (chars : string) (c : ascii) : bool :=
  existsb (Ascii.eqb c) (list_ascii_of_string chars).

Definition rstrip (chars s : string) : string :=
  rstrip_by (in_chars chars) s.

(** [s.lower()] on code points below 256: A-Z and the Latin-1 capitals. *)
Definition lower_char (c : ascii) : ascii :=
  let n := nat_of_ascii c in
  if (((65 <=? n) && (n <=? 90))
      || ((192 <=? n) && (n <=? 222) && negb (n =? 215)))%nat
  then ascii_of_nat (n + 32) else c.

Fixpoint lower (s : string) : string :=
  match s with
  | EmptyString => EmptyString
  | String c s' => String (lower_char c) (lower s')
  end.

(** [s.upper()].  The sharp s becomes two letters; the upper-case forms
    of code points 181 and 255 lie above 255 and those two characters
    are left in place. *)
Definition upper_char (c : ascii) : string :=
  let n := nat_of_ascii c in
  if (((97 <=? n) && (n <=? 122))
      || ((224 <=? n) && (n <=? 254) && negb (n =? 247)))%nat
  then String (ascii_of_nat (n - 32)) EmptyString
  else if (n =? 223)%nat then "SS"
  else String c EmptyString.

Fixpoint upper (s : string) : string :=
  match s with
  | EmptyString => EmptyString
  | String c s' => upper_char c ++ upper s'
  end.

(** [s.startswith(p)] *)
Definition startswith (s p : string) : bool := String.prefix p s.

(** [s.endswith(p)] *)
Fixpoint endswith (s p : string) : bool :=
  String.eqb s p
  || match s with
     | EmptyString => false
     | String _ s' => endswith s' p
     end.

(** [sub in s] *)
Fixpoint contains (sub s : string) : bool :=
  String.prefix sub s
  || match s with
     | EmptyString => false
     | String _ s' => contains sub s'
     end.

(** [s.replace(old, new)] for a non-empty [old]: occurrences are taken
    from the left and do not overlap; [skip] counts the characters of a
    matched occurrence still to be dropped. *)
Fixpoint replace_from (old new : string) (skip : nat) (s : string) : string :=
  match s with
  | EmptyString => EmptyString
  | String c s' =>
      match skip with
      | S k => replace_from old new k s'
      | O =>
          if String.prefix old s
          then new ++ replace_from old new (String.length old - 1) s'
          else String c (replace_from old new 0 s')
      end
  end.

Definition replace (old new s : string) : string := replace_from old new 0 s.

(** [s[:n]] *)
Fixpoint take (n : nat) (s : string) : string :=
  match n, s with
  | S k, String c s' => String c (take k s')
  | _, _ => EmptyString
  end.

(** [s[n:]] *)
Fixpoint drop (n : nat) (s : string) : string :=
  match n, s with
  | S k, String _ s' => drop k s'
  | _, _ => s
  end.

(** [str(n)] for an [int] *)
Definition of_Z (z : Z) : string := NilZero.string_of_int (Z.to_int z).

Definition hex_digit (n : nat) : ascii :=
  if (n <? 10)%nat then ascii_of_nat (48 + n) else ascii_of_nat (87 + n).

Definition hex2 (c : ascii) : string :=
  let n := nat_of_ascii c in
  String (hex_digit (n / 16)) (String (hex_digit (n mod 16)) EmptyString).

Definition dquote : string := String "034"%char EmptyString.
Definition squote : string := String "039"%char EmptyString.
Definition backslash : string := String "092"%char EmptyString.
Definition newline : string := String "010"%char EmptyString.

Fixpoint spaces (n : nat) : string :=
  match n with
  | O => EmptyString
  | S k => String " "%char (spaces k)
  end.

End PyStr.

(* ===================================================================== *)
(** ** Python dictionaries and decoded JSON *)
(* ===================================================================== *)

Module PyDict.

(** A [dict] with [str] keys, in insertion order.  Every key is meant to
    occur once; [set] keeps it so. *)
Definition dict (V : Type) : Type := list (string * V).

Fixpoint get {V} (d : dict V) (k : string) : option V :=
  match d with
  | [] => None
  | (k', v) :: d' => if String.eqb k' k then Some v else get d' k
  end.

(** [k in d] *)
Definition mem {V} (d : dict V) (k : string) : bool :=
  match get d k with Some _ => true | None => false end.

(** [d[k] = v]: an existing key keeps its place, a new one goes last. *)
Fixpoint set {V} (d : dict V) (k : string) (v : V) : dict V :=
  match d with
  | [] => [(k, v)]
  | (k', v') :: d' =>
      if String.eqb k' k then (k', v) :: d' else (k', v') :: set d' k v
  end.

(** [list(d.keys())] *)
Definition keys {V} (d : dict V) : list string := map fst d.

(** [{k: v for k, v in pairs}] *)
Definition of_pairs {V} (pairs : list (string * V)) : dict V :=
  fold_left (fun d kv => set d (fst kv) (snd kv)) pairs [].

End PyDict.

Module Json.
Import PyStr PyDict.

(** What [json.loads] returns: [None], a [bool], an [int], a [str], a
    list, or a dict with [str] keys.  A number with a fraction or an
    exponent would be a [float] and has no counterpart here. *)
Inductive json : Type :=
| JNull
| JBool (b : bool)
| JInt (z : Z)
| JStr (s : string)
| JList (items : list json)
| JDict (fields : list (string * json)).

(** [bool(v)] *)
Definition truthy (v : json) : bool :=
  match v with
  | JNull => false
  | JBool b => b
  | JInt z => negb (z =? 0)%Z
  | JStr s => negb (String.eqb s "")
  | JList l => match l with [] => false | _ => true end
  | JDict d => match d with [] => false | _ => true end
  end.

(** [a or b] *)
Definition or_else (a b : json) : json := if truthy a then a else b.

(** [d.get(k)] on a dict: a missing key reads as [None]. *)
Definition get_or_null (d : dict json) (k : string) : json :=
  match get d k with Some v => v | None => JNull end.

(** [a == b] for a JSON value and a [str]. *)
Definition eq_str (v : json) (s : string) : bool :=
  match v with JStr t => String.eqb t s | _ => false end.

(** [v in names] for a list of [str]. *)
Definition in_strs (v : json) (names : list string) : bool :=
  existsb (eq_str v) names.

(** [type(v).__name__] *)
Definition type_name (v : json) : string :=
  match v with
  | JNull => "NoneType"
  | JBool _ => "bool"
  | JInt _ => "int"
  | JStr _ => "str"
  | JList _ => "list"
  | JDict _ => "dict"
  end.

Fixpoint concat_map (f : ascii -> string) (s : string) : string :=
  match s with
  | EmptyString => EmptyString
  | String c s' => f c ++ concat_map f s'
  end.

(** *** [json.dumps(v, ensure_ascii=False)], with or without [indent] *)

Definition escape_char (c : ascii) : string :=
  let n := nat_of_ascii c in
  if (n =? 34)%nat then backslash ++ dquote
  else if (n =? 92)%nat then backslash ++ backslash
  else if (n =? 10)%nat then backslash ++ "n"
  else if (n =? 13)%nat then backslash ++ "r"
  else if (n =? 9)%nat then backslash ++ "t"
  else if (n =? 8)%nat then backslash ++ "b"
  else if (n =? 12)%nat then backslash ++ "f"
  else if (n <? 32)%nat then backslash ++ "u00" ++ hex2 c
  else String c EmptyString.

Definition encode_str (s : string) : string :=
  dquote ++ concat_map escape_char s ++ dquote.

Fixpoint encode (indent : option nat) (lvl : nat) (v : json) {struct v}
  : string :=
  let nl k :=
    match indent with
    | Some w => newline ++ spaces (w * k)
    | None => EmptyString
    end in
  let sep :=
    match indent with
    | Some _ => "," ++ nl (S lvl)
    | None => ", "
    end in
  match v with
  | JNull => "null"
  | JBool true => "true"
  | JBool false => "false"
  | JInt z => of_Z z
  | JStr s => encode_str s
  | JList [] => "[]"
  | JList (x :: r) =>
      "[" ++ nl (S lvl) ++ encode indent (S lvl) x
      ++ (fix rest (l : list json) : string :=
            match l with
            | [] => EmptyString
            | y :: l' => sep ++ encode indent (S lvl) y ++ rest l'
            end) r
      ++ nl lvl ++ "]"
  | JDict [] => "{}"
  | JDict ((k, x) :: r) =>
      "{" ++ nl (S lvl) ++ encode_str k ++ ": " ++ encode indent (S lvl) x
      ++ (fix rest (l : list (string * json)) : string :=
            match l with
            | [] => EmptyString
            | (k', y) :: l' =>
                sep ++ encode_str k' ++ ": " ++ encode indent (S lvl) y
                ++ rest l'
            end) r
      ++ nl lvl ++ "}"
  end.

Definition dumps (v : json) : string := encode None 0 v.
Definition dumps_indent (w : nat) (v : json) : string := encode (Some w) 0 v.

(** *** [repr(v)] and [str(v)] *)

Definition repr_char (q : ascii) (c : ascii) : string :=
  let n := nat_of_ascii c in
  if (Ascii.eqb c q || (n =? 92)%nat)%bool then backslash ++ String c EmptyString
  else if (n =? 9)%nat then backslash ++ "t"
  else if (n =? 10)%nat then backslash ++ "n"
  else if (n =? 13)%nat then backslash ++ "r"
  else if ((n <? 32) || (n =? 127) || ((128 <=? n) && (n <=? 160))
           || (n =? 173))%nat
       then backslash ++ "x" ++ hex2 c
  else String c EmptyString.

Definition repr_str (s : string) : string :=
  let q := if (contains squote s && negb (contains dquote s))%bool
           then "034"%char else "039"%char in
  String q (concat_map (repr_char q) s) ++ String q EmptyString.

Fixpoint repr (v : json) : string :=
  match v with
  | JNull => "None"
  | JBool true => "True"
  | JBool false => "False"
  | JInt z => of_Z z
  | JStr s => repr_str s
  | JList [] => "[]"
  | JList (x :: r) =>
      "[" ++ repr x
      ++ (fix rest (l : list json) : string :=
            match l with
            | [] => EmptyString
            | y :: l' => ", " ++ repr y ++ rest l'
            end) r
      ++ "]"
  | JDict [] => "{}"
  | JDict ((k, x) :: r) =>
      "{" ++ repr_str k ++ ": " ++ repr x
      ++ (fix rest (l : list (string * json)) : string :=
            match l with
            | [] => EmptyString
            | (k', y) :: l' => ", " ++ repr_str k' ++ ": " ++ repr y ++ rest l'
            end) r
      ++ "}"
  end.

(** [str(v)] *)
Definition py_str (v : json) : string :=
  match v with
  | JStr s => s
  | _ => repr v
  end.

End Json.

(* ===================================================================== *)
(** ** Exceptions and stateful methods *)
(* ===================================================================== *)

Module Py.

(** The exception classes the handlers of the components tell apart.
    [HTTPError] is [urllib.error.HTTPError], which [urlopen] raises for a
    4xx or 5xx status and which derives from [URLError]; [URLError]
    derives from [OSError], and so does [socket.gaierror].  Every other
    class ([AttributeError], [KeyError], [ValueError] with its
    [JSONDecodeError], ...) is [Other] with its name. *)
Inductive exn : Type :=
| URLError
| HTTPError (status : Z)
| OSError
| gaierror
| Other (class_name : string).

Inductive result (A : Type) : Type :=
| Ok (a : A)
| Raise (e : exn).
Arguments Ok {A} a.
Arguments Raise {A} e.

(** A method over a state [S]: the state it leaves behind is kept also
    when it raises. *)
Definition M (S A : Type) : Type := S -> result A * S.

Definition ret {S A} (a : A) : M S A := fun s => (Ok a, s).
Definition raise {S A} (e : exn) : M S A := fun s => (Raise e, s).
Definition lift {S A} (r : result A) : M S A := fun s => (r, s).

Definition bind {S A B} (m : M S A) (k : A -> M S B) : M S B :=
  fun s =>
    match m s with
    | (Ok a, s') => k a s'
    | (Raise e, s') => (Raise e, s')
    end.

(** [try: m  except <classes>: h] *)
Definition try_except {S A} (m : M S A) (classes : exn -> bool)
    (h : exn -> M S A) : M S A :=
  fun s =>
    match m s with
    | (Ok a, s') => (Ok a, s')
    | (Raise e, s') => if classes e then h e s' else (Raise e, s')
    end.

Definition modify {S} (f : S -> S) : M S unit := fun s => (Ok tt, f s).
Definition gets {S A} (f : S -> A) : M S A := fun s => (Ok (f s), s).

(** [except Exception]: every class of [exn] derives from [Exception]. *)
Definition any_Exception (e : exn) : bool := true.

Definition rbind {A B} (r : result A) (k : A -> result B) : result B :=
  match r with
  | Ok a => k a
  | Raise e => Raise e
  end.

End Py.

Declare Scope py_scope.
Delimit Scope py_scope with py.
Notation "x <- m ;; k" := (Py.bind m (fun x => k))
  (at level 61, m at next level, right associativity) : py_scope.
Notation "m ;;; k" := (Py.bind m (fun _ => k))
  (at level 61, right associativity) : py_scope.
Notation "x <~ r ;; k" := (Py.rbind r (fun x => k))
  (at level 61, r at next level, right associativity) : py_scope.

(* ===================================================================== *)
(** ** Operations shared by the components *)
(* ===================================================================== *)

Module PyOps.
Import PyStr PyDict Json Py.

Definition AttributeError : exn := Other "AttributeError".
Definition KeyError : exn := Other "KeyError".
Definition IndexError : exn := Other "IndexError".
Definition TypeError : exn := Other "TypeError".

(** [v.get(k)]: only a dict has the method. *)
Definition py_get (v : json) (k : string) : result json :=
  match v with
  | JDict d => Ok (get_or_null d k)
  | _ => Raise AttributeError
  end.

(** [v[0]] *)
Definition py_index0 (v : json) : result json :=
  match v with
  | JList (x :: _) => Ok x
  | JList [] => Raise IndexError
  | JStr (String c _) => Ok (JStr (String c EmptyString))
  | JStr EmptyString => Raise IndexError
  | JDict _ => Raise KeyError
  | _ => Raise TypeError
  end.

(** The values [for item in v] runs through. *)
Definition py_iter (v : json) : result (list json) :=
  match v with
  | JList l => Ok l
  | JDict d => Ok (map JStr (keys d))
  | JStr s =>
      Ok (map (fun c => JStr (String c EmptyString)) (list_ascii_of_string s))
  | _ => Raise TypeError
  end.

Fixpoint filter_map {A B} (f : A -> option B) (l : list A) : list B :=
  match l with
  | [] => []
  | x :: l' =>
      match f x with
      | Some y => y :: filter_map f l'
      | None => filter_map f l'
      end
  end.

(** [l.sort(key=...)] with [str] keys: the sort is stable, so its result
    is the one of any stable sort; insertion before the first element
    whose key is not smaller is one. *)
Fixpoint insert_by {A} (key : A -> string) (x : A) (l : list A) : list A :=
  match l with
  | [] => [x]
  | y :: l' =>
      if String.leb (key x) (key y) then x :: l else y :: insert_by key x l'
  end.

Fixpoint sort_by {A} (key : A -> string) (l : list A) : list A :=
  match l with
  | [] => []
  | x :: l' => insert_by key x (sort_by key l')
  end.

(** The order the sort establishes: [x] may stand before [y]. *)
Definition key_le {A} (key : A -> string) (x y : A) : Prop :=
  String.leb (key x) (key y) = true.

(** A host configuration object: field name to the field's attributes. *)
Definition build_config : Type := dict (dict json).

(** [build_config.get(f, {}).get(k)] as an optional value. *)
Definition field_attr (bc : build_config) (f k : string) : option json :=
  match get bc f with
  | Some d => get d k
  | None => None
  end.

(** [build_config[f][k] = v] *)
Definition set_attr (bc : build_config) (f k : string) (v : json)
  : result build_config :=
  match get bc f with
  | Some d => Ok (set bc f (set d k v))
  | None => Raise KeyError
  end.

Definition strs (l : list string) : json := JList (map JStr l).

End PyOps.

(* ===================================================================== *)
(** ** coe_model_picker.py *)
(* ===================================================================== *)

Module CoEModelPicker.
Import PyStr PyDict Json Py PyOps.
Local Open Scope py_scope.

Definition ALLOWED_OWNERS : list string := ["openai"; "sktax"].

(** A call handed to [urllib.request.urlopen]. *)
Inductive request : Type :=
| GET (url : string)
| POST (url : string) (payload : json).

(** What the host wires to [chat_input]: nothing, a [str], or a
    [Message] with its [text] and [data]. *)
Inductive chat_value : Type :=
| ChatNone
| ChatStr (s : string)
| ChatMessage (text : string) (data : json).

(** What an output method hands back to the host. *)
Inductive output : Type :=
| Message (text : string).

(** The component instance: its three private attributes, the inputs the
    host has set on it, and [calls], the requests the network layer has
    seen so far (oldest first). *)
Record instance : Type := mk_instance {
  _name_to_id : dict string;
  _last_text : option string;
  _did_initial_fetch : bool;
  chat_input : chat_value;
  prompt : string;
  model_name : string;
  backend_url : string;
  force_https : bool;
  enable_tools : bool;
  tool_choice_auto : bool;
  calls : list request
}.

Definition with_name_to_id (d : dict string) (i : instance) : instance :=
  mk_instance d (_last_text i) (_did_initial_fetch i) (chat_input i)
    (prompt i) (model_name i) (backend_url i) (force_https i)
    (enable_tools i) (tool_choice_auto i) (calls i).

Definition with_last_text (t : option string) (i : instance) : instance :=
  mk_instance (_name_to_id i) t (_did_initial_fetch i) (chat_input i)
    (prompt i) (model_name i) (backend_url i) (force_https i)
    (enable_tools i) (tool_choice_auto i) (calls i).

Definition with_did_initial_fetch (b : bool) (i : instance) : instance :=
  mk_instance (_name_to_id i) (_last_text i) b (chat_input i)
    (prompt i) (model_name i) (backend_url i) (force_https i)
    (enable_tools i) (tool_choice_auto i) (calls i).

Definition with_call (r : request) (i : instance) : instance :=
  mk_instance (_name_to_id i) (_last_text i) (_did_initial_fetch i)
    (chat_input i) (prompt i) (model_name i) (backend_url i)
    (force_https i) (enable_tools i) (tool_choice_auto i)
    (calls i ++ [r])%list.

(** A fresh instance, as the class attributes initialise it. *)
Definition fresh (ci : chat_value) (p m b : string) (fh et tca : bool)
  : instance :=
  mk_instance [] None false ci p m b fh et tca [].

Section Host.

(** The environment variable read at import time. *)
Variable COE_BACKEND_URL : option string.

(** The network: given the requests seen so far and a new one, the
    decoded JSON body, or the exception [urlopen], [read], [decode] or
    [json.loads] raises. *)
Variable urlopen : list request -> request -> result json.

(** What [_build_tools_payload] returns for the tools wired to the
    instance: it asks the host's toolkit, swallows every exception and
    returns a list of OpenAI tool descriptors. *)
Variable _build_tools_payload : list json.

Definition DEFAULT_BACKEND : string :=
  rstrip "/"
    (strip match COE_BACKEND_URL with
           | Some v => v
           | None => "http://host.docker.internal:8000"
           end).

Definition _http_get_json (url : string) : M instance json :=
  fun i => (urlopen (calls i) (GET url), with_call (GET url) i).

Definition _http_post_json (url : string) (payload : json)
  : M instance json :=
  fun i => (urlopen (calls i) (POST url payload),
            with_call (POST url payload) i).

Definition _normalize (base : string) (force_https : bool) : string :=
  let base := strip (if String.eqb base "" then DEFAULT_BACKEND else base) in
  let base :=
    if (force_https && startswith base "http://")%bool
    then "https://" ++ drop (String.length "http://") base
    else base in
  rstrip "/" base.

Definition _linux_fallback (base : string) : string :=
  if contains "host.docker.internal" base
  then replace "host.docker.internal" "172.17.0.1" base
  else base.

Definition _fallback_pairs : list (string * string) :=
  [ ("GPT-4o Mini", "gpt-4o-mini");
    ("GPT-4o", "gpt-4o");
    ("text-embedding-3-small", "text-embedding-3-small");
    ("AX4 Model", "ax4") ].

(** [except (URLError, OSError, socket.gaierror)] *)
Definition transport_classes (e : exn) : bool :=
  match e with
  | URLError | HTTPError _ | OSError | gaierror => true
  | Other _ => false
  end.

(** The owner of a model entry, as the filter reads it. *)
Definition owner_of (d : dict json) : string :=
  lower (strip (py_str (or_else (get_or_null d "owned_by") (JStr "")))).

Definition allowed (owner : string) : bool :=
  existsb (String.eqb owner) ALLOWED_OWNERS.

Definition id_of (d : dict json) : string :=
  strip (py_str (or_else (get_or_null d "id") (JStr ""))).

Definition name_of (d : dict json) : string :=
  strip (py_str (or_else (get_or_null d "name") (JStr (id_of d)))).

(** The body of the loop of [_fetch_models]: the pair an entry adds,
    if any. *)
Definition pair_of_item (item : json) : option (string * string) :=
  match item with
  | JDict d =>
      if negb (allowed (owner_of d)) then None
      else
        let mid := id_of d in
        let name := name_of d in
        if (negb (String.eqb mid "") && negb (String.eqb name ""))%bool
        then Some (name, mid)
        else None
  | _ => None
  end.

Definition sort_key (p : string * string) : string := lower (fst p).

(** [(payload.get("result") or {}).get("data") or payload.get("data") or []] *)
Definition data_of_payload (payload : json) : result json :=
  (r <~ py_get payload "result" ;;
   d1 <~ py_get (or_else r (JDict [])) "data" ;;
   d2 <~ py_get payload "data" ;;
   Ok (or_else (or_else d1 d2) (JList [])))%py.

(** [_fetch_models] from the decoded payload on. *)
Definition pairs_of_payload (payload : json)
  : result (list (string * string)) :=
  (data <~ data_of_payload payload ;;
   items <~ py_iter data ;;
   Ok (sort_by sort_key (filter_map pair_of_item items)))%py.

Definition _fetch_models (base_url : string)
  : M instance (list (string * string)) :=
  let url := base_url ++ "/v1/models" in
  payload <-
    try_except (_http_get_json url) transport_classes
      (fun _ =>
         let fb := _linux_fallback base_url ++ "/v1/models" in
         _http_get_json fb) ;;
  lift (pairs_of_payload payload).

(** *** Dynamic dropdown *)

(** The argument of [_normalize] when it comes from the configuration:
    [(base or DEFAULT_BACKEND).strip()] needs a [str] or a false
    value. *)
Definition normalize_value (v : json) (force_https : bool)
  : result string :=
  match v with
  | JStr s => Ok (_normalize s force_https)
  | _ => if truthy v then Raise AttributeError
         else Ok (_normalize "" force_https)
  end.

Definition or_default (o : option json) (d : json) : json :=
  match o with Some v => v | None => d end.

Definition is_field (field_name : option string) (f : string) : bool :=
  match field_name with Some n => String.eqb n f | None => false end.

Definition current_options (bc : build_config) : json :=
  or_else (or_default (field_attr bc "model_name" "options") JNull)
          (JList []).

Definition current_value (bc : build_config) : json :=
  or_else (or_default (field_attr bc "model_name" "value") JNull)
          (JStr "").

Definition should_refresh (i : instance) (bc : build_config)
    (field_name : option string) : bool :=
  negb (_did_initial_fetch i)
  || (is_field field_name "backend_url"
      || is_field field_name "force_https"
      || is_field field_name "refresh_now")
  || negb (truthy (current_options bc))
  || eq_str (current_value bc) "(click Refresh models now)".

(** The base URL [update_build_config] refreshes from. *)
Definition refresh_base (bc : build_config) (field_value : json)
    (field_name : option string) : result string :=
  let current_base :=
    or_default (field_attr bc "backend_url" "value") (JStr DEFAULT_BACKEND) in
  let current_force_https :=
    truthy (or_default (field_attr bc "force_https" "value") (JBool false)) in
  let current_base :=
    if is_field field_name "backend_url" then field_value else current_base in
  let current_force_https :=
    if is_field field_name "backend_url" then current_force_https
    else if is_field field_name "force_https" then truthy field_value
    else current_force_https in
  normalize_value current_base current_force_https.

(** The four statements each branch of the refresh ends with: store
    the options, reselect when the selection is empty or stale. *)
Definition store_names (bc : build_config) (cur : json)
    (names : list string) : result build_config :=
  (bc1 <~ set_attr bc "model_name" "options" (strs names) ;;
   if (negb (truthy cur) || negb (in_strs cur names))%bool
   then match names with
        | n :: _ => set_attr bc1 "model_name" "value" (JStr n)
        | [] => Raise IndexError
        end
   else Ok bc1)%py.

Definition use_fallback (bc : build_config) (cur : json)
  : M instance build_config :=
  let pairs := _fallback_pairs in
  modify (with_name_to_id (of_pairs pairs)) ;;;
  bc1 <- lift (store_names bc cur (map fst pairs)) ;;
  modify (with_did_initial_fetch true) ;;;
  ret bc1.

(** Within the [try] block the only statement that can raise after
    [_fetch_models] is the first store into [build_config["model_name"]],
    which raises before it changes anything: the handler sees the
    configuration it was given. *)
Definition update_build_config (bc : build_config) (field_value : json)
    (field_name : option string) : M instance build_config :=
  base <- lift (refresh_base bc field_value field_name) ;;
  let cur := current_value bc in
  refresh <- gets (fun i => should_refresh i bc field_name) ;;
  if refresh : bool then
    bc1 <-
      try_except
        (pairs <- _fetch_models base ;;
         match pairs with
         | _ :: _ =>
             modify (with_name_to_id (of_pairs pairs)) ;;;
             names <- gets (fun i => keys (_name_to_id i)) ;;
             bc1 <- lift (store_names bc cur names) ;;
             modify (with_did_initial_fetch true) ;;;
             ret bc1
         | [] => use_fallback bc cur
         end)
        any_Exception
        (fun _ => use_fallback bc cur) ;;
    if mem bc1 "refresh_now"
    then lift (set_attr bc1 "refresh_now" "value" (JBool false))
    else ret bc1
  else ret bc.

(** *** Invocation *)

Definition _collect_inputs (i : instance)
  : json * string * string * string * bool * bool * bool :=
  let chat_text :=
    match chat_input i with
    | ChatNone => JStr ""
    | ChatStr s => JStr s
    | ChatMessage text data =>
        if negb (String.eqb text "") then JStr text
        else match data with
             | JDict d => or_else (get_or_null d "text") (JStr "")
             | _ => JStr ""
             end
    end in
  let backend :=
    if String.eqb (backend_url i) "" then DEFAULT_BACKEND else backend_url i in
  (chat_text, strip (prompt i), strip (model_name i), strip backend,
   force_https i, enable_tools i, tool_choice_auto i).

(** The identifier sent as [model]. *)
Definition resolve_model (d : dict string) (model_name : string) : string :=
  let model_id := match get d model_name with Some v => v | None => "" end in
  let model_id :=
    if String.eqb model_id "" then
      match _fallback_pairs with
      | p :: _ => snd p
      | [] => model_id
      end
    else model_id in
  if String.eqb model_id "" then model_name else model_id.

Definition chat_payload (d : dict string) (chat_input : json)
    (prompt model_name : string) (enable_tools tool_choice_auto : bool)
  : json :=
  let system :=
    if String.eqb prompt "" then []
    else [JDict [("role", JStr "system"); ("content", JStr prompt)]] in
  let user :=
    JDict [("role", JStr "user");
           ("content", JStr (py_str (or_else chat_input (JStr ""))))] in
  let payload : dict json :=
    [("model", JStr (resolve_model d model_name));
     ("messages", JList (system ++ [user])%list)] in
  let payload :=
    if enable_tools then
      match _build_tools_payload with
      | [] => payload
      | _ :: _ =>
          let payload := set payload "tools" (JList _build_tools_payload) in
          if tool_choice_auto
          then set payload "tool_choice" (JStr "auto")
          else payload
      end
    else payload in
  JDict payload.

(** [choices[0].message.content] as the [try] block reads it. *)
Definition content_of (resp : json) : result string :=
  (choices <~ py_get resp "choices" ;;
   choice0 <~ py_index0 (or_else choices (JList [])) ;;
   message <~ py_get choice0 "message" ;;
   content <~ py_get (or_else message (JDict [])) "content" ;;
   Ok (py_str (or_else content (JStr ""))))%py.

Definition text_of_response (resp : json) : string :=
  match content_of resp with
  | Ok t => t
  | Raise _ => take 2000 (dumps resp)
  end.

Definition _call_chat (chat_input : json) (prompt model_name backend_url : string)
    (force_https enable_tools tool_choice_auto : bool) : M instance string :=
  cached <- gets _last_text ;;
  match cached with
  | Some t => ret t
  | None =>
      d <- gets _name_to_id ;;
      let base :=
        _normalize (if String.eqb backend_url "" then DEFAULT_BACKEND
                    else backend_url) force_https in
      let url := base ++ "/v1/chat/completions" in
      let fb := _linux_fallback base in
      let payload :=
        chat_payload d chat_input prompt model_name enable_tools
          tool_choice_auto in
      resp <-
        try_except (_http_post_json url payload) transport_classes
          (fun e =>
             if negb (String.eqb base fb)
             then _http_post_json (fb ++ "/v1/chat/completions") payload
             else raise e) ;;
      let t := text_of_response resp in
      modify (with_last_text (Some t)) ;;;
      ret t
  end.

Definition run_text : M instance string :=
  fun i =>
    let '(chat_text, prompt, model_name, backend_url, force_https,
          enable_tools, tool_choice_auto) := _collect_inputs i in
    _call_chat chat_text prompt model_name backend_url force_https
      enable_tools tool_choice_auto i.

Definition run_message : M instance output :=
  text <- run_text ;;
  ret (Message text).

Definition get_model_id (i : instance) : string :=
  let name := strip (model_name i) in
  match get (_name_to_id i) name with
  | Some v => v
  | None => ""
  end.

End Host.
End CoEModelPicker.

(* ===================================================================== *)
(** ** tool_invoker.py *)
(* ===================================================================== *)

Module ToolInvoker.
Import PyStr PyDict Json Py PyOps.
Local Open Scope py_scope.

(** What the host wires to an input: a [Message] with its [text] and
    [data], or a plain value ([None], [str], [int], [bool], list, dict). *)
Inductive value : Type :=
| VMessage (text data : json)
| VPlain (v : json).

(** A call handed to [requests]: method, URL and the payload [_call]
    was given (sent as the JSON body, or as the query string for GET). *)
Record request : Type := mk_request {
  req_method : string;
  req_url : string;
  req_payload : json
}.

(** A response of [requests]: [json_body] is what [resp.json()] returns
    ([None] when it raises), [error_message] is the text of the
    [HTTPError] that [raise_for_status] raises for an error status. *)
Record response : Type := mk_response {
  status_code : Z;
  json_body : option json;
  text : string;
  error_message : string
}.

(** What [_call] does: a response, or an exception of [requests] other
    than [HTTPError] (connection error, timeout, invalid URL, a query
    string that cannot be built, ...) with its text. *)
Inductive outcome : Type :=
| Responded (r : response)
| Failed (detail : string).

(** The instance: the inputs the host has set, [params_json] and
    [method_override] being the [str] their text fields hold and the
    values of a [Message] being decoded JSON, and [sent], the calls of
    [_call] so far (oldest first). *)
Record instance : Type := mk_instance {
  selection_json : value;
  user_input : value;
  params_json : string;
  method_override : string;
  force_get_query : bool;
  sent : list request
}.

Definition with_sent (r : request) (i : instance) : instance :=
  mk_instance (selection_json i) (user_input i) (params_json i)
    (method_override i) (force_get_query i) (sent i ++ [r])%list.

(** [_join_url] *)
Definition _join_url (base path default_prefix : string) : string :=
  let b := rstrip "/" base in
  let p := strip (if String.eqb path "" then "/" else path) in
  let p := if negb (startswith p "/") then "/" ++ p else p in
  let final_path :=
    if (startswith p "/tools/" || String.eqb p "/tools")%bool then p
    else if negb (startswith p (rstrip "/" default_prefix ++ "/"))
         then rstrip "/" default_prefix ++ p
         else p in
  b ++ final_path.

(** [resp.raise_for_status()] raises exactly for 400..599. *)
Definition is_error_status (s : Z) : bool := ((400 <=? s) && (s <? 600))%Z.

Section Host.

(** [json.loads]: the decoded value, or the text of the exception. *)
Variable json_loads : string -> json + string.

(** The network: given the requests sent so far and a new one. *)
Variable send : list request -> request -> outcome.

Definition _extract_user_text (val : value) : string :=
  match val with
  | VPlain JNull => ""
  | VMessage text data =>
      let txt := or_else text (JStr "") in
      if truthy txt then py_str txt
      else match data with
           | JDict d =>
               let txt := or_else (get_or_null d "text") (JStr "") in
               if truthy txt then py_str txt else ""
           | _ => ""
           end
  | VPlain (JStr s) => s
  | VPlain (JInt z) => py_str (JInt z)
  | VPlain (JBool b) => py_str (JBool b)
  | VPlain v => dumps v
  end.

Definition _parse_json_str (s : string) : dict json + string :=
  match json_loads (if String.eqb s "" then "{}" else s) with
  | inl (JDict d) => inl d
  | inl _ => inr "selection_json must be a JSON object"
  | inr e => inr ("invalid JSON: " ++ e)
  end.

(** The text of a [str] that is not blank, if [v] is one. *)
Definition nonblank_str (v : json) : option string :=
  match v with
  | JStr s => if String.eqb (strip s) "" then None else Some s
  | _ => None
  end.

(** Parse [v] when it is a non-blank [str]; [None] when there is
    nothing to use. *)
Definition parsed_text (v : json) : option (dict json) :=
  match nonblank_str v with
  | Some s => match _parse_json_str s with
              | inl d => Some d
              | inr _ => None
              end
  | None => None
  end.

Definition _extract_selection (raw : value) : dict json + string :=
  match raw with
  | VPlain JNull => inr "selection_json is empty"
  | VMessage text data =>
      match parsed_text (or_else text (JStr "")) with
      | Some d => inl d
      | None =>
          let failed := inr "Message does not contain valid selection JSON" in
          match data with
          | JDict d =>
              if (truthy (get_or_null d "base_url")
                  || truthy (get_or_null d "url_path")
                  || truthy (get_or_null d "name"))%bool
              then inl d
              else match parsed_text (get_or_null d "text") with
                   | Some d' => inl d'
                   | None => failed
                   end
          | _ => failed
          end
      end
  | VPlain (JStr s) => _parse_json_str s
  | VPlain (JDict d) => inl d
  | VPlain _ => inr "selection_json must be Message, JSON string, or object"
  end.

Definition raw_type_name (raw : value) : string :=
  match raw with
  | VMessage _ _ => "Message"
  | VPlain v => type_name v
  end.

Definition _call (method url : string) (payload : json)
  : M instance outcome :=
  fun i =>
    let r := mk_request method url payload in
    (Ok (send (sent i) r), with_sent r i).

(** *** The texts [_invoke_core] returns *)

Definition request_info (method url : string) (tool : json)
    (fallback : bool) : json :=
  JDict ([("method", JStr method); ("url", JStr url); ("tool", tool)]
         ++ (if fallback then [("fallback", JStr "trailing-slash")] else []))%list.

Definition success_text (method url : string) (tool : json)
    (fallback : bool) (r : response) : string :=
  dumps_indent 2
    (JDict [("request", request_info method url tool fallback);
            match json_body r with
            | Some body => ("response", body)
            | None => ("response_text", JStr (text r))
            end]).

Definition http_error_text (method url : string) (tool : json)
    (r : response) : string :=
  dumps_indent 2
    (JDict [("error", JStr "http_error");
            ("status", JInt (status_code r));
            ("request", request_info method url tool false);
            ("detail", JStr (error_message r));
            ("body_preview", JStr (text r))]).

Definition slash_failed_text (method url url2 : string) (status : Z)
    (detail : string) : string :=
  dumps_indent 2
    (JDict [("error", JStr "HTTP 404 and trailing-slash fallback failed");
            ("first_try",
             JDict [("method", JStr method); ("url", JStr url);
                    ("status", JInt status)]);
            ("second_try",
             JDict [("url", JStr url2); ("error", JStr detail)])]).

Definition request_failed_text (method url : string) (tool : json)
    (detail : string) : string :=
  dumps_indent 2
    (JDict [("error", JStr "request_failed");
            ("request", request_info method url tool false);
            ("detail", JStr detail)]).

(** The [try] statement that ends [_invoke_core]: the call, and what
    each handler makes of its failure. *)
Definition call_and_report (method_eff url : string) (payload tool_name : json)
  : M instance string :=
  o <- _call method_eff url payload ;;
  match o with
  | Failed detail => ret (request_failed_text method_eff url tool_name detail)
  | Responded resp =>
      if negb (is_error_status (status_code resp))
      then ret (success_text method_eff url tool_name false resp)
      else
        let status := status_code resp in
        if ((status =? 404)%Z && negb (endswith url "/"))%bool then
          let url2 := url ++ "/" in
          o2 <- _call method_eff url2 payload ;;
          match o2 with
          | Failed detail =>
              ret (slash_failed_text method_eff url url2 status detail)
          | Responded resp2 =>
              if negb (is_error_status (status_code resp2))
              then ret (success_text method_eff url2 tool_name true resp2)
              else ret (slash_failed_text method_eff url url2 status
                          (error_message resp2))
          end
        else ret (http_error_text method_eff url tool_name resp)
  end.

(** [(sel or {}).get(k, "").strip()] *)
Definition stripped_field (sel : dict json) (k : string) : result string :=
  match get sel k with
  | None => Ok ""
  | Some (JStr s) => Ok (strip s)
  | Some _ => Raise AttributeError
  end.

Definition effective_method (i : instance) : string :=
  let m := upper (strip (if String.eqb (method_override i) "" then "POST"
                         else method_override i)) in
  let m := if existsb (String.eqb m) ["GET"; "POST"; "PUT"; "PATCH"; "DELETE"]
           then m else "POST" in
  if force_get_query i then "GET" else m.

Definition _invoke_core : M instance (string * json) :=
  sel_raw <- gets selection_json ;;
  match _extract_selection sel_raw with
  | inr err =>
      ret (dumps (JDict [("error", JStr err);
                         ("raw_type", JStr (raw_type_name sel_raw))]),
           JStr "")
  | inl sel =>
      base_url <- lift (stripped_field sel "base_url") ;;
      url_path <- lift (stripped_field sel "url_path") ;;
      let tool_name :=
        match get sel "name" with Some v => v | None => JStr "" end in
      let tool := or_else tool_name (JStr "") in
      if (String.eqb base_url "" || String.eqb url_path "")%bool then
        ret (dumps (JDict [("error",
                            JStr "missing base_url or url_path in selection_json");
                           ("selection", JDict sel)]),
             tool)
      else
        user_text <- gets (fun i => _extract_user_text (user_input i)) ;;
        let payload : dict json :=
          if String.eqb (strip user_text) "" then []
          else [("input", JStr user_text)] in
        params_raw <- gets (fun i => strip (params_json i)) ;;
        let with_params : option (dict json) :=
          if String.eqb params_raw "" then Some payload
          else match json_loads params_raw with
               | inl v => Some (set payload "params" v)
               | inr _ => None
               end in
        match with_params with
        | None =>
            ret (dumps (JDict [("error", JStr "params_json not valid JSON")]),
                 tool)
        | Some payload =>
            method_eff <- gets effective_method ;;
            let url := _join_url base_url url_path "/tools" in
            text <- call_and_report method_eff url (JDict payload) tool_name ;;
            ret (text, tool)
        end
  end.

Definition run_text : M instance string :=
  r <- _invoke_core ;;
  ret (fst r).

End Host.
End ToolInvoker.

(* ===================================================================== *)
(** ** tool_picker_router.py *)
(* ===================================================================== *)

Module ToolPickerRouter.
Import PyStr PyDict Json Py PyOps.

Definition fallback_keys : list string :=
  ["name"; "url_path"; "description"; "base_url"].

Section Host.

(** [json.loads]: the decoded value, or the text of the exception. *)
Variable json_loads : string -> json + string.

(** The keys a non-blank text yields: those of the object it decodes
    to, ["value"] when it does not decode, and nothing to return
    ([None]) when it decodes to something else. *)
Definition keys_of_text (s : string) : option (list string) :=
  match json_loads s with
  | inl (JDict obj) => Some (keys obj)
  | inl _ => None
  | inr _ => Some ["value"]
  end.

Definition nonblank_str (v : json) : option string :=
  match v with
  | JStr s => if String.eqb (strip s) "" then None else Some s
  | _ => None
  end.

Definition _extract_json_keys_from_candidate (candidate : json)
  : list string :=
  match candidate with
  | JDict c =>
      let txt := get_or_null c "text" in
      let data := get_or_null c "data" in
      let otherwise :=
        match data with
        | JDict d => keys d
        | _ => keys c
        end in
      match nonblank_str txt with
      | Some s =>
          match keys_of_text s with
          | Some ks => ks
          | None => otherwise
          end
      | None => otherwise
      end
  | JStr _ =>
      match nonblank_str candidate with
      | Some s =>
          match keys_of_text s with
          | Some ks => ks
          | None => []
          end
      | None => []
      end
  | _ => []
  end.

(** [try: build_config[f][k] = v  except Exception: pass] *)
Definition try_set_attr (bc : build_config) (f k : string) (v : json)
  : build_config :=
  match set_attr bc f k v with
  | Ok bc' => bc'
  | Raise _ => bc
  end.

(** The candidate value [update_build_config] reads the keys from. *)
Definition candidate_of (bc : build_config) (field_value : json)
    (field_name : option string) : json :=
  let candidate :=
    match field_name with
    | Some n => if String.eqb n "tool_message" then field_value else JNull
    | None => JNull
    end in
  match candidate with
  | JNull =>
      match field_attr bc "tool_message" "value" with
      | Some v => v
      | None => JNull
      end
  | _ => candidate
  end.

(** The options shown: the extracted keys, or the fixed ones when
    there are none. *)
Definition shown_keys (candidate : json) : list string :=
  match _extract_json_keys_from_candidate candidate with
  | [] => fallback_keys
  | ks => ks
  end.

Definition default_value (ks : list string) : string :=
  if existsb (String.eqb "name") ks then "name"
  else match ks with
       | k :: _ => k
       | [] => ""
       end.

Definition update_build_config (bc : build_config) (field_value : json)
    (field_name : option string) : build_config :=
  let ks := shown_keys (candidate_of bc field_value field_name) in
  let bc := try_set_attr bc "key_for_prompt" "options" (strs ks) in
  let current_value :=
    or_else (match field_attr bc "key_for_prompt" "value" with
             | Some v => v
             | None => JNull
             end) (JStr "") in
  if (negb (truthy current_value) || negb (in_strs current_value ks))%bool
  then try_set_attr bc "key_for_prompt" "value" (JStr (default_value ks))
  else bc.

End Host.
End ToolPickerRouter.

(* ===================================================================== *)
(** ** tool_picker.py *)
(* ===================================================================== *)

Module ToolPicker.
Import PyStr PyDict Json Py PyOps.
Local Open Scope py_scope.

(** A call handed to [urllib.request.urlopen]: the component only reads. *)
Inductive request : Type :=
| GET (url : string).

(** An entry of the list [_fetch_tools] builds: a dict with exactly the
    keys [name], [url_path] and [description], each a stripped [str]. *)
Record tool : Type := mk_tool {
  tool_name : string;
  tool_url_path : string;
  tool_description : string
}.

(** The instance: its two private attributes, the inputs the host has
    set, and the requests the network layer has seen (oldest first). *)
Record instance : Type := mk_instance {
  _did_initial_fetch : bool;
  _last_tools : list tool;
  backend_base_url : string;
  selected_tool : string;
  force_https : bool;
  calls : list request
}.

Definition with_did_initial_fetch (b : bool) (i : instance) : instance :=
  mk_instance b (_last_tools i) (backend_base_url i) (selected_tool i)
    (force_https i) (calls i).

Definition with_last_tools (ts : list tool) (i : instance) : instance :=
  mk_instance (_did_initial_fetch i) ts (backend_base_url i) (selected_tool i)
    (force_https i) (calls i).

Definition with_call (r : request) (i : instance) : instance :=
  mk_instance (_did_initial_fetch i) (_last_tools i) (backend_base_url i)
    (selected_tool i) (force_https i) (calls i ++ [r])%list.

Definition _normalize_base (base : string) (force_https : bool) : string :=
  let base := strip base in
  if String.eqb base "" then ""
  else
    let base :=
      if (force_https && startswith base "http://")%bool
      then "https://" ++ drop (String.length "http://") base
      else base in
    rstrip "/" base.

Definition _linux_fallback (base : string) : string :=
  if contains "host.docker.internal" base
  then replace "host.docker.internal" "172.17.0.1" base
  else base.

(** [except (URLError, OSError, socket.gaierror)] *)
Definition transport_classes (e : exn) : bool :=
  match e with
  | URLError | HTTPError _ | OSError | gaierror => true
  | Other _ => false
  end.

(** The list the payload is read as: [{tools: [...]}], a list, or one
    object. *)
Definition tools_of_payload (payload : json) : json :=
  match payload with
  | JDict d =>
      if mem d "tools" then or_else (get_or_null d "tools") (JList [])
      else JList [payload]
  | JList _ => payload
  | _ => JList [payload]
  end.

Definition stripped (d : dict json) (k : string) : string :=
  strip (py_str (or_else (get_or_null d k) (JStr ""))).

(** The body of the loop of [_fetch_tools]. *)
Definition tool_of_item (t : json) : option tool :=
  match t with
  | JDict d =>
      let name := stripped d "name" in
      let url_path := stripped d "url_path" in
      let desc := stripped d "description" in
      if (String.eqb name "" && String.eqb url_path "")%bool then None
      else Some (mk_tool name url_path desc)
  | _ => None
  end.

(** [t["name"] or t["url_path"]] *)
Definition label (t : tool) : string :=
  if String.eqb (tool_name t) "" then tool_url_path t else tool_name t.

(** [(x.get("name") or x.get("url_path") or "").lower()] *)
Definition sort_key (t : tool) : string := lower (label t).

(** [_fetch_tools] from the decoded payload on. *)
Definition norm_of_payload (payload : json) : result (list tool) :=
  (items <~ py_iter (tools_of_payload payload) ;;
   Ok (sort_by sort_key (filter_map tool_of_item items)))%py.

(** [sel == name or sel == url_path or sel_lower == name.lower() or
    sel_lower == url_path.lower()] *)
Definition matches (sel : string) (t : tool) : bool :=
  let name := strip (tool_name t) in
  let url_path := strip (tool_url_path t) in
  (String.eqb sel name || String.eqb sel url_path
   || String.eqb (lower sel) (lower name)
   || String.eqb (lower sel) (lower url_path))%bool.

Definition _pick_match (tools : list tool) (selected : string) : option tool :=
  let sel := strip selected in
  match tools with
  | [] => None
  | first :: _ =>
      if String.eqb sel "" then Some first
      else match find (matches sel) tools with
           | Some t => Some t
           | None => Some first
           end
  end.

Section Host.

(** The network: given the requests seen so far and a new one, the
    decoded JSON body, or the exception raised on the way. *)
Variable urlopen : list request -> request -> result json.

(** [str(e)] *)
Variable exn_text : exn -> string.

Definition _http_get_json (url : string) : M instance json :=
  fun i => (urlopen (calls i) (GET url), with_call (GET url) i).

Definition _fetch_tools (base_url : string) : M instance (list tool) :=
  let url := base_url ++ "/tools" in
  payload <-
    try_except (_http_get_json url) transport_classes
      (fun _ =>
         let fb := _linux_fallback base_url ++ "/tools" in
         _http_get_json fb) ;;
  lift (norm_of_payload payload).

(** *** Dynamic dropdown *)

Definition attr_or_null (bc : build_config) (f k : string) : json :=
  match field_attr bc f k with
  | Some v => v
  | None => JNull
  end.

Definition is_field (field_name : option string) (f : string) : bool :=
  match field_name with Some n => String.eqb n f | None => false end.

Definition current_value (bc : build_config) : json :=
  or_else (attr_or_null bc "selected_tool" "value") (JStr "").

Definition should_refresh (i : instance) (bc : build_config)
    (field_name : option string) : bool :=
  negb (_did_initial_fetch i)
  || (is_field field_name "backend_base_url"
      || is_field field_name "force_https"
      || is_field field_name "refresh_now")
  || negb (truthy (attr_or_null bc "selected_tool" "options"))
  || eq_str (current_value bc) "(click Refresh tools now)".

(** The base [update_build_config] refreshes from: [(base or "").strip()]
    needs a [str] or a false value. *)
Definition refresh_base (bc : build_config) (field_value : json)
    (field_name : option string) : result string :=
  let base := or_else (attr_or_null bc "backend_base_url" "value") (JStr "") in
  let force_https :=
    truthy (match field_attr bc "force_https" "value" with
            | Some v => v
            | None => JBool false
            end) in
  let base :=
    if is_field field_name "backend_base_url"
    then or_else field_value (JStr "") else base in
  let force_https :=
    if is_field field_name "backend_base_url" then force_https
    else if is_field field_name "force_https" then truthy field_value
    else force_https in
  match base with
  | JStr s => Ok (_normalize_base s force_https)
  | _ => Raise AttributeError
  end.

(** The [try] block from the store of the options on. *)
Definition store_names (bc : build_config) (cur : json) (names : list string)
  : result build_config :=
  (bc1 <~ set_attr bc "selected_tool" "options" (strs names) ;;
   if (negb (truthy cur) || negb (in_strs cur names))%bool
   then set_attr bc1 "selected_tool" "value"
          (JStr match names with n :: _ => n | [] => "" end)
   else Ok bc1)%py.

(** The handler: empty the options, and the value when there is one. *)
Definition clear_names (bc : build_config) : result build_config :=
  (bc1 <~ set_attr bc "selected_tool" "options" (strs []) ;;
   match field_attr bc1 "selected_tool" "value" with
   | Some _ => set_attr bc1 "selected_tool" "value" (JStr "")
   | None => Ok bc1
   end)%py.

(** Within the [try] block the stores into [build_config] raise only
    when [selected_tool] is missing, before anything is changed: the
    handler sees the configuration it was given. *)
Definition update_build_config (bc : build_config) (field_value : json)
    (field_name : option string) : M instance build_config :=
  base <- lift (refresh_base bc field_value field_name) ;;
  let cur := current_value bc in
  refresh <- gets (fun i => should_refresh i bc field_name) ;;
  if (refresh && negb (String.eqb base ""))%bool then
    bc1 <-
      try_except
        (tools <- _fetch_tools base ;;
         modify (with_last_tools tools) ;;;
         bc1 <- lift (store_names bc cur (map label tools)) ;;
         modify (with_did_initial_fetch true) ;;;
         ret bc1)
        any_Exception
        (fun _ =>
           bc1 <- lift (clear_names bc) ;;
           modify (with_did_initial_fetch true) ;;;
           ret bc1) ;;
    if mem bc1 "refresh_now"
    then lift (set_attr bc1 "refresh_now" "value" (JBool false))
    else ret bc1
  else ret bc.

(** *** Selection *)

Definition error_text (fields : dict json) : string := dumps (JDict fields).

(** The JSON text handed to the next node. *)
Definition picked_text (base : string) (t : tool) : string :=
  dumps (JDict [("name", JStr (tool_name t));
                ("url_path", JStr (tool_url_path t));
                ("description", JStr (tool_description t));
                ("base_url", JStr (base ++ "/tools"))]).

Definition _run : M instance string :=
  base <- gets (fun i =>
                  _normalize_base (strip (backend_base_url i)) (force_https i)) ;;
  selected <- gets (fun i => strip (selected_tool i)) ;;
  if String.eqb base "" then
    ret (error_text [("error", JStr "base_url is empty")])
  else
    cached <- gets _last_tools ;;
    failure <-
      match cached with
      | [] =>
          try_except
            (tools <- _fetch_tools base ;;
             modify (with_last_tools tools) ;;;
             ret None)
            any_Exception
            (fun e =>
               ret (Some (error_text [("error", JStr "failed to fetch tools");
                                      ("detail", JStr (exn_text e))])))
      | _ :: _ => ret None
      end ;;
    match failure with
    | Some text => ret text
    | None =>
        tools <- gets _last_tools ;;
        match _pick_match tools selected with
        | None =>
            ret (error_text [("error", JStr "tool not found");
                             ("selected", JStr selected)])
        | Some t => ret (picked_text base t)
        end
    end.

Definition run_text : M instance string := _run.

End Host.
End ToolPicker.

(* ===================================================================== *)
(** ** coe_model_picker.py: the tool descriptors *)
(* ===================================================================== *)

Module CoEModelPickerTools.
Import PyStr PyDict Json Py PyOps.

(** A tool the host's toolkit hands over, as [_build_tools_payload]
    reads it: [name] and [description] ([None] and a missing attribute
    read as the empty string), and [args_schema], which may be absent and
    whose [schema()] may raise. *)
Inductive schema_source : Type :=
| NoSchema
| SchemaRaises
| Schema (s : json).

Record lc_tool : Type := mk_lc_tool {
  lc_name : string;
  lc_description : string;
  lc_args_schema : schema_source
}.

Definition empty_schema : json :=
  JDict [("type", JStr "object"); ("properties", JDict [])].

Definition schema_of (t : lc_tool) : json :=
  match lc_args_schema t with
  | Schema s => s
  | SchemaRaises | NoSchema => empty_schema
  end.

(** The body of the loop: the descriptor a tool adds, if any. *)
Definition descriptor (t : lc_tool) : option json :=
  if String.eqb (lc_name t) "" then None
  else Some (JDict [("type", JStr "function");
                    ("function",
                     JDict [("name", JStr (lc_name t));
                            ("description", JStr (lc_description t));
                            ("parameters", schema_of t)])]).

(** [_build_tools_payload], given what the toolkit call returned or
    raised. *)
Definition _build_tools_payload (toolkit : result (list lc_tool)) : list json :=
  match toolkit with
  | Raise _ => []
  | Ok tools => filter_map descriptor tools
  end.

End CoEModelPickerTools.

(* ===================================================================== *)
(** ** tool_picker_router.py: the outputs *)
(* ===================================================================== *)

Module ToolPickerRouterOutputs.
Import PyStr PyDict Json Py PyOps ToolPickerRouter.

(** What the host wires to [tool_message]: a [Message] with its [text]
    and [data], or a plain value. *)
Inductive wired : Type :=
| WMessage (text data : json)
| WPlain (v : json).

Record instance : Type := mk_instance {
  tool_message : wired;
  key_for_prompt : string
}.

Section Host.

(** [json.loads]: the decoded value, or the text of the exception. *)
Variable json_loads : string -> json + string.

(** [json.loads(txt)], and [{"value": txt}] when it raises. *)
Definition loads_or_wrap (txt : string) : json :=
  match json_loads txt with
  | inl v => v
  | inr _ => JDict [("value", JStr txt)]
  end.

(** [_coerce_to_dict]: what it returns is a dict except when a text
    decodes to something else. *)
Definition _coerce_to_dict (msg : wired) : json :=
  match msg with
  | WMessage text data =>
      match nonblank_str (or_else text (JStr "")) with
      | Some txt => loads_or_wrap txt
      | None =>
          match data with
          | JDict d => JDict d
          | _ => JDict []
          end
      end
  | WPlain (JDict d) => JDict d
  | WPlain v =>
      match nonblank_str v with
      | Some txt => loads_or_wrap txt
      | None => JDict []
      end
  end.

(** [_field_str] *)
Definition _field_str (i : instance) (key : string) : result string :=
  match _coerce_to_dict (tool_message i) with
  | JDict d =>
      match get d key with
      | None => Ok ""
      | Some (JDict v) => Ok (dumps (JDict v))
      | Some (JList v) => Ok (dumps (JList v))
      | Some JNull => Ok ""
      | Some v => Ok (py_str v)
      end
  | _ => Raise AttributeError
  end.

(** [list(self._coerce_to_dict().keys())] *)
Definition coerced_keys (i : instance) : result (list string) :=
  match _coerce_to_dict (tool_message i) with
  | JDict d => Ok (keys d)
  | _ => Raise AttributeError
  end.

(** [get_prompt_value_message], as the text of the message it makes. *)
Definition get_prompt_value_message (i : instance) : result string :=
  let key := strip (key_for_prompt i) in
  if String.eqb key "" then
    rbind (coerced_keys i) (fun ks => _field_str i (default_value ks))
  else _field_str i key.

End Host.
End ToolPickerRouterOutputs.

(* ===================================================================== *)
(** ** tool_invoker.py: the identifier output *)
(* ===================================================================== *)

Module ToolInvokerOutputs.
Import PyStr PyDict Json Py PyOps ToolInvoker.

(** [run_model_id]: the [name] of the selection as a [str], and the
    empty string when there is no usable selection. *)
Definition run_model_id (json_loads : string -> json + string)
    (i : instance) : string :=
  match _extract_selection json_loads (selection_json i) with
  | inr _ => ""
  | inl sel =>
      py_str (or_else (match get sel "name" with
                       | Some v => v
                       | None => JStr ""
                       end) (JStr ""))
  end.

End ToolInvokerOutputs.

(* ===================================================================== *)
(** * Properties *)
(* ===================================================================== *)

(** ** Vocabulary and scenarios of the statements below *)

Module Scenarios.
Import PyStr PyDict Json Py PyOps CoEModelPicker.
Local Open Scope py_scope.

(** *** Vocabulary *)

(** An entry of the model list is eligible, with the pair it yields. *)
Definition eligible (item : json) (name mid : string) : Prop :=
  exists d,
    item = JDict d /\ allowed (owner_of d) = true
    /\ mid = id_of d /\ name = name_of d /\ mid <> "" /\ name <> "".

(** The base URL and the two targets of [_call_chat]. *)
Definition chat_base (COE_BACKEND_URL : option string) (backend_url : string)
    (force_https : bool) : string :=
  _normalize COE_BACKEND_URL
    (if String.eqb backend_url "" then DEFAULT_BACKEND COE_BACKEND_URL
     else backend_url) force_https.

Definition chat_url (COE_BACKEND_URL : option string) (backend_url : string)
    (force_https : bool) : string :=
  chat_base COE_BACKEND_URL backend_url force_https ++ "/v1/chat/completions".

Definition chat_retry_url (COE_BACKEND_URL : option string)
    (backend_url : string) (force_https : bool) : string :=
  _linux_fallback (chat_base COE_BACKEND_URL backend_url force_https)
  ++ "/v1/chat/completions".

Definition url_of_request (r : request) : string :=
  match r with
  | GET url => url
  | POST url _ => url
  end.

Definition is_post (r : request) : bool :=
  match r with
  | POST _ _ => true
  | GET _ => false
  end.

(** The [model] field of a request body. *)
Definition model_field (r : request) : option json :=
  match r with
  | POST _ (JDict body) => get body "model"
  | _ => None
  end.

(** Every identifier of a name-to-id map is a non-empty string. *)
Definition ids_nonempty (d : dict string) : Prop :=
  forall k v, get d k = Some v -> v <> "".

(** A host that reads an output [n] times in a row. *)
Fixpoint reads (run : M instance string) (n : nat) : M instance (list string) :=
  match n with
  | O => ret []
  | S k => t <- run ;; ts <- reads run k ;; ret (t :: ts)
  end.

(** The pairs and the names a refresh settles on, by what [_fetch_models]
    gave. *)
Definition chosen_pairs (r : result (list (string * string)))
  : list (string * string) :=
  match r with
  | Ok (p :: ps) => p :: ps
  | _ => _fallback_pairs
  end.

Definition chosen_names (r : result (list (string * string))) : list string :=
  match r with
  | Ok (p :: ps) => keys (of_pairs (p :: ps))
  | _ => map fst _fallback_pairs
  end.

(** The response has a first choice to read [content] from: [resp] is an
    object whose [choices] is a list starting with an object, and
    [content] is what that object's [message] holds, a missing or false
    [message] holding nothing. *)
Definition extracts (resp content : json) : Prop :=
  exists d c0 rest,
    resp = JDict d
    /\ get_or_null d "choices" = JList (JDict c0 :: rest)
    /\ ((truthy (get_or_null c0 "message") = false /\ content = JNull)
        \/ exists m, get_or_null c0 "message" = JDict m
                     /\ content = get_or_null m "content").

(** *** Payloads and responses *)

Definition model (mid name owner : string) : json :=
  JDict [("id", JStr mid); ("name", JStr name); ("owned_by", JStr owner)].

(** Two eligible entries of one name. *)
Definition twin_payload : json :=
  JDict [("data", JList [model "m1" "Alpha" "openai";
                         model "m2" "Alpha" "sktax"])].

(** Eligible and other entries, out of order. *)
Definition mixed_payload : json :=
  JDict [("data", JList [model "b-1" "beta" "OpenAI ";
                         model "x-9" "Zeta" "other";
                         model "a-1" "Alpha" "sktax";
                         JStr "noise"])].

(** A chat completion that says hello. *)
Definition hello : json :=
  JDict [("choices",
          JList [JDict [("message", JDict [("role", JStr "assistant");
                                          ("content", JStr "hello")])]])].

(** A chat completion whose first choice has no [message]. *)
Definition no_message : json :=
  JDict [("choices", JList [JDict [("finish_reason", JStr "stop")]])].

(** An answer without [choices]. *)
Definition no_choices : json :=
  JDict [("error", JStr "overloaded")].

(** *** Networks *)

(** A network that answers every request with [resp]. *)
Definition answering (resp : json) (_ : list request) (_ : request)
  : result json :=
  Ok resp.

(** A network whose first answer is [first] and every later one [later]. *)
Definition first_then (first later : result json)
    (seen : list request) (_ : request) : result json :=
  match seen with
  | [] => first
  | _ :: _ => later
  end.

(** A network that fails once at the socket and then answers. *)
Definition flaky : list request -> request -> result json :=
  first_then (Raise OSError) (Ok hello).

(** A network that answers once and is unreachable afterwards. *)
Definition once : list request -> request -> result json :=
  first_then (Ok hello) (Raise URLError).

(** A network that is unreachable. *)
Definition down (_ : list request) (_ : request) : result json :=
  Raise URLError.

(** A server that answers the first request with status 503. *)
Definition unavailable : list request -> request -> result json :=
  first_then (Raise (HTTPError 503)) (Ok hello).

(** A server whose first answer cannot be decoded and which answers
    properly afterwards. *)
Definition garbled_once : list request -> request -> result json :=
  first_then (Raise (Other "JSONDecodeError")) (Ok hello).

(** *** Instances and configurations *)

Definition docker : string := "http://host.docker.internal:8000".

Definition idle : instance :=
  fresh ChatNone "" "" docker false false false.

Definition asking (name : string) : instance :=
  fresh (ChatStr "hi") "" name docker false false false.

(** An instance whose map knows the one label [Alpha]. *)
Definition knowing_alpha (name : string) : instance :=
  with_name_to_id [("Alpha", "a-1")] (asking name).

(** A configuration with the model dropdown and the refresh toggle. *)
Definition empty_config : build_config :=
  [("model_name", [("options", JList []); ("value", JStr "")]);
   ("backend_url", [("value", JStr "http://h/")]);
   ("refresh_now", [("value", JBool true)])].

End Scenarios.

Module InvokerScenarios.
Import PyStr PyDict Json Py PyOps ToolInvoker.

(** The path [_join_url] works on: trimmed, with a leading slash. *)
Definition normal_path (path : string) : string :=
  let p := strip (if String.eqb path "" then "/" else path) in
  if negb (startswith p "/") then "/" ++ p else p.

(** The path starts with the mount segment. *)
Definition mounted (p : string) : bool :=
  (startswith p "/tools/" || String.eqb p "/tools")%bool.

(** A selection as the Tool Picker hands it over, wired as a dict. *)
Definition selection (base_url url_path : string) : value :=
  VPlain (JDict [("name", JStr "sub"); ("url_path", JStr url_path);
                 ("description", JStr ""); ("base_url", JStr base_url)]).

Definition invoking (base_url url_path : string) : instance :=
  mk_instance (selection base_url url_path) (VPlain (JStr "ping")) "" "POST"
    false [].

(** Stands in for [json.loads] where no text is decoded: the selection is
    a dict and [params_json] is empty. *)
Definition nothing_to_decode (_ : string) : json + string :=
  inr "Expecting value".

Definition not_found : response :=
  mk_response 404 None "Not Found" "404 Client Error: Not Found".

Definition pong : response :=
  mk_response 200 (Some (JDict [("pong", JBool true)])) "" "".

(** A server that knows only the URLs ending in a slash. *)
Definition slash_only (_ : list request) (r : request) : outcome :=
  if endswith (req_url r) "/" then Responded pong else Responded not_found.

Definition always_not_found (_ : list request) (_ : request) : outcome :=
  Responded not_found.

End InvokerScenarios.

Module RouterScenarios.
Import PyStr PyDict Json Py PyOps ToolPickerRouter.

(** The selection the dropdown holds before the update. *)
Definition previous (bc : build_config) : json :=
  or_else (match field_attr bc "key_for_prompt" "value" with
           | Some v => v
           | None => JNull
           end) (JStr "").

(** A configuration with the key dropdown, holding [selected]. *)
Definition router_config (selected : string) : build_config :=
  [("tool_message", [("value", JNull)]);
   ("key_for_prompt", [("options", JList []); ("value", JStr selected)])].

Definition name_and_path : json :=
  JDict [("name", JStr "a"); ("url_path", JStr "b")].

Definition path_only : json :=
  JDict [("url_path", JStr "b")].

(** The two objects as texts, [{"name":"a","url_path":"b"}] and
    [{"url_path":"b"}]. *)
Definition quoted (s : string) : string := dquote ++ s ++ dquote.

Definition name_and_path_text : string :=
  "{" ++ quoted "name" ++ ":" ++ quoted "a" ++ ","
  ++ quoted "url_path" ++ ":" ++ quoted "b" ++ "}".

Definition path_only_text : string :=
  "{" ++ quoted "url_path" ++ ":" ++ quoted "b" ++ "}".

(** [json.loads] on the texts of the scenarios: the two above and the
    empty object; they decode no other text. *)
Definition scenario_loads (s : string) : json + string :=
  if String.eqb s name_and_path_text then inl name_and_path
  else if String.eqb s path_only_text then inl path_only
  else if String.eqb s "{}" then inl (JDict [])
  else inr "Expecting value".

(** A [Message] serialized by the host, carrying [text]. *)
Definition message_of (text : string) : json :=
  JDict [("text", JStr text); ("sender", JStr "Machine")].

(** The configuration after [candidate] arrives while [selected] is the
    selection. *)
Definition routed (candidate : json) (selected : string) : build_config :=
  update_build_config scenario_loads (router_config selected) candidate
    (Some "tool_message").

End RouterScenarios.

(** ** Further vocabulary and scenarios *)

Module MoreScenarios.
Import PyStr PyDict Json Py PyOps CoEModelPicker Scenarios.

(** The three fields whose change triggers a refresh of the models. *)
Definition is_trigger (field_name : option string) : bool :=
  (is_field field_name "backend_url"
   || is_field field_name "force_https"
   || is_field field_name "refresh_now")%bool.

(** A descriptor in the format of the chat API, for a named function. *)
Definition function_descriptor (x : json) : Prop :=
  exists name description parameters,
    name <> ""
    /\ x = JDict [("type", JStr "function");
                  ("function",
                   JDict [("name", JStr name);
                          ("description", JStr description);
                          ("parameters", parameters)])].

End MoreScenarios.

Module MoreInvokerScenarios.
Import PyStr PyDict Json Py PyOps ToolInvoker InvokerScenarios.

(** The five methods the invoker can send. *)
Definition methods : list string := ["GET"; "POST"; "PUT"; "PATCH"; "DELETE"].

(** The [name] of a selection, as it is put into the request record. *)
Definition tool_of (sel : dict json) : json :=
  match get sel "name" with Some v => v | None => JStr "" end.

(** The inputs of [i] let [_invoke_core] reach its call: the selection
    is an object [sel] with non-blank [str] fields [base_url] and
    [url_path] (stripped: [base_url] and [url_path]), and [params_json]
    is blank or decodes. *)
Definition ready (json_loads : string -> json + string) (i : instance)
    (sel : dict json) (base_url url_path : string) : Prop :=
  _extract_selection json_loads (selection_json i) = inl sel
  /\ stripped_field sel "base_url" = Ok base_url
  /\ stripped_field sel "url_path" = Ok url_path
  /\ base_url <> "" /\ url_path <> ""
  /\ (strip (params_json i) = ""
      \/ exists v, json_loads (strip (params_json i)) = inl v).

(** The field [k] of a selection holds something that is not a [str]. *)
Definition not_a_str (sel : dict json) (k : string) : bool :=
  match get sel k with
  | Some (JStr _) | None => false
  | Some _ => true
  end.

(** A selection whose [base_url] is a number. *)
Definition numeric_base : instance :=
  mk_instance (VPlain (JDict [("name", JStr "sub"); ("url_path", JStr "/sub");
                              ("base_url", JInt 8000)]))
    (VPlain (JStr "ping")) "" "POST" false [].

(** The text [_invoke_core] works with as the user's. *)
Definition user_text (i : instance) : string :=
  _extract_user_text (user_input i).

End MoreInvokerScenarios.

Module MoreRouterScenarios.
Import PyStr PyDict Json Py PyOps ToolPickerRouter ToolPickerRouterOutputs
  RouterScenarios.

(** [json.loads] on the texts of the scenarios, and on a text that
    holds a list. *)
Definition list_loads (s : string) : json + string :=
  if String.eqb s "[1, 2]" then inl (JList [JInt 1; JInt 2])
  else scenario_loads s.

(** The text the router tries to decode, if the wired value has one. *)
Definition text_to_decode (msg : wired) : option string :=
  match msg with
  | WMessage text _ => nonblank_str (or_else text (JStr ""))
  | WPlain v => nonblank_str v
  end.

(** The router with a [Message] of text [text] wired in and [key]
    selected. *)
Definition wired_text (text key : string) : instance :=
  mk_instance (WMessage (JStr text) JNull) key.

End MoreRouterScenarios.

Module PickerScenarios.
Import PyStr PyDict Json Py PyOps ToolPicker.

(** An entry of the tool list as the backend serves it. *)
Definition tool_item (name url_path description : string) : json :=
  JDict [("name", JStr name); ("url_path", JStr url_path);
         ("description", JStr description)].

(** Three entries out of order, one of them without a name, and two
    that are dropped. *)
Definition tools_payload : json :=
  JDict [("tools", JList [tool_item "search" "/search" "web search";
                          tool_item "" "" "nameless";
                          tool_item " Calc " "/calc" "";
                          JStr "noise";
                          tool_item "" "/echo" "echo"])].

(** A backend that answers every request with [payload]. *)
Definition serving (payload : json) (_ : list request) (_ : request)
  : result json :=
  Ok payload.

(** A backend that cannot be reached. *)
Definition offline (_ : list request) (_ : request) : result json :=
  Raise URLError.

(** A fresh picker with its two text inputs. *)
Definition picker (base selected : string) : instance :=
  mk_instance false [] base selected false [].

(** A picker that has [tools] in its cache. *)
Definition caching (tools : list tool) (base selected : string) : instance :=
  mk_instance true tools base selected false [].

(** A configuration with the tool dropdown and the refresh toggle. *)
Definition picker_config (selected : string) : build_config :=
  [("selected_tool", [("options", JList []); ("value", JStr selected)]);
   ("backend_base_url", [("value", JStr "http://h/")]);
   ("refresh_now", [("value", JBool true)])].

(** The base [_run] works with. *)
Definition run_base (i : instance) : string :=
  _normalize_base (strip (backend_base_url i)) (force_https i).

(** The selected value of the tool dropdown. *)
Definition selected_value (bc : build_config) : option json :=
  field_attr bc "selected_tool" "value".

Definition shown_options (bc : build_config) : option json :=
  field_attr bc "selected_tool" "options".

End PickerScenarios.

Module PipelineScenarios.
Import PyStr PyDict Json Py PyOps InvokerScenarios.





End PipelineScenarios.

(** ** Dictionaries, configurations and sorting *)

Module PyFacts.
Import PyStr PyDict Json Py PyOps.

Lemma get_set_same {V} (d : dict V) k v : get (set d k v) k = Some v.
Proof.
  induction d as [|[k' v'] d IH]; simpl.
  - now rewrite String.eqb_refl.
  - destruct (String.eqb k' k) eqn:E; simpl; rewrite E; auto.
Qed.

Lemma get_set_other {V} (d : dict V) k k' v :
  k <> k' -> get (set d k v) k' = get d k'.
Proof.
  intros Hne. induction d as [|[k0 v0] d IH]; simpl.
  - destruct (String.eqb k k') eqn:E; auto.
    apply String.eqb_eq in E. contradiction.
  - destruct (String.eqb k0 k) eqn:E; simpl.
    + apply String.eqb_eq in E. subst k0.
      destruct (String.eqb k k') eqn:E'; auto.
      apply String.eqb_eq in E'. contradiction.
    + now rewrite IH.
Qed.

Lemma mem_set {V} (d : dict V) k k' v :
  mem d k' = true -> mem (set d k v) k' = true.
Proof.
  unfold mem. destruct (string_dec k k') as [->|Hne].
  - now rewrite get_set_same.
  - now rewrite get_set_other.
Qed.

Lemma keys_set_nonempty {V} (d : dict V) k v : keys (set d k v) <> [].
Proof.
  destruct d as [|[k' v'] d]; simpl; [discriminate|].
  destruct (String.eqb k' k); discriminate.
Qed.

(** Every value of a dict built by [set] was put there. *)
Lemma get_set_inv {V} (d : dict V) k v k' v' :
  get (set d k v) k' = Some v' -> v' = v \/ get d k' = Some v'.
Proof.
  destruct (string_dec k k') as [->|Hne].
  - rewrite get_set_same. intros [= ->]. now left.
  - rewrite get_set_other by assumption. now right.
Qed.

Lemma of_pairs_acc_values {V} (P : V -> Prop) (pairs : list (string * V)) :
  forall acc : dict V,
    (forall k v, get acc k = Some v -> P v) ->
    Forall (fun kv => P (snd kv)) pairs ->
    forall k v,
      get (fold_left (fun d kv => set d (fst kv) (snd kv)) pairs acc) k = Some v ->
      P v.
Proof.
  induction pairs as [|[k0 v0] pairs IH]; simpl; intros acc Hacc Hall k v Hget.
  - eauto.
  - inversion Hall as [|? ? Hv0 Hrest]; subst.
    eapply IH; [| exact Hrest | exact Hget].
    intros k1 v1 H1. apply get_set_inv in H1 as [->|H1]; eauto.
Qed.

Lemma of_pairs_values {V} (P : V -> Prop) (pairs : list (string * V)) k v :
  Forall (fun kv => P (snd kv)) pairs ->
  get (of_pairs pairs) k = Some v -> P v.
Proof.
  intros Hall. unfold of_pairs.
  apply of_pairs_acc_values with (P := P); auto.
  intros ? ? H; discriminate H.
Qed.

Lemma of_pairs_acc_nonempty {V} (pairs : list (string * V)) :
  forall acc : dict V,
    acc <> [] \/ pairs <> [] ->
    keys (fold_left (fun d kv => set d (fst kv) (snd kv)) pairs acc) <> [].
Proof.
  induction pairs as [|[k0 v0] pairs IH]; simpl; intros acc H.
  - destruct H as [H|H]; [|congruence].
    destruct acc; [congruence | discriminate].
  - apply IH. left. intros E.
    apply (keys_set_nonempty acc k0 v0). now rewrite E.
Qed.

Lemma of_pairs_nonempty {V} (pairs : list (string * V)) :
  pairs <> [] -> keys (of_pairs pairs) <> [].
Proof. intros H. apply of_pairs_acc_nonempty. now right. Qed.

(** *** The stable sort *)

Section Sorting.
Context {A : Type} (key : A -> string).

Local Abbreviation key_le := (key_le key).

Lemma insert_by_perm x l : Permutation (x :: l) (insert_by key x l).
Proof.
  induction l as [|y l IH]; simpl; auto.
  destruct (String.leb (key x) (key y)); auto.
  eapply perm_trans; [apply perm_swap|]. now constructor.
Qed.

Lemma sort_by_perm l : Permutation l (sort_by key l).
Proof.
  induction l as [|x l IH]; simpl; auto.
  eapply perm_trans; [|apply insert_by_perm]. now constructor.
Qed.

Lemma insert_by_sorted x l :
  Sorted key_le l -> Sorted key_le (insert_by key x l).
Proof.
  induction l as [|y l IH]; simpl; intros Hs.
  - repeat constructor.
  - destruct (String.leb (key x) (key y)) eqn:E.
    + constructor; auto.
    + inversion Hs as [|? ? Hs' Hhd]; subst.
      constructor; auto.
      assert (Hyx : key_le y x).
      { unfold key_le. destruct (String.leb_total (key x) (key y)); congruence. }
      destruct l as [|z l]; simpl; [now constructor|].
      destruct (String.leb (key x) (key z)); constructor; auto.
      now inversion Hhd.
Qed.

Lemma sort_by_sorted l : Sorted key_le (sort_by key l).
Proof.
  induction l as [|x l IH]; simpl; [constructor|].
  now apply insert_by_sorted.
Qed.

(** Stability: elements with one key keep their order. *)
Lemma insert_by_stable k x l :
  filter (fun y => String.eqb (key y) k) (insert_by key x l)
  = filter (fun y => String.eqb (key y) k) (x :: l).
Proof.
  induction l as [|y l IH]; simpl; auto.
  destruct (String.leb (key x) (key y)) eqn:E; simpl; auto.
  simpl in IH. rewrite IH.
  destruct (String.eqb (key x) k) eqn:Ex, (String.eqb (key y) k) eqn:Ey; auto.
  apply String.eqb_eq in Ex, Ey. subst k.
  rewrite <- Ey in E.
  destruct (String.leb_total (key y) (key y)); congruence.
Qed.

Lemma sort_by_stable k l :
  filter (fun y => String.eqb (key y) k) (sort_by key l)
  = filter (fun y => String.eqb (key y) k) l.
Proof.
  induction l as [|x l IH]; simpl; auto.
  rewrite insert_by_stable. simpl. now rewrite IH.
Qed.

End Sorting.

Lemma filter_map_In {A B} (f : A -> option B) l y :
  In y (filter_map f l) <-> exists x, In x l /\ f x = Some y.
Proof.
  induction l as [|x l IH]; simpl.
  - split; [contradiction | intros (? & [] & _)].
  - destruct (f x) eqn:E; simpl; rewrite IH; split.
    + intros [->|(x' & Hin & Hf)]; eauto.
    + intros (x' & [->|Hin] & Hf); [left; congruence | eauto].
    + intros (x' & Hin & Hf); eauto.
    + intros (x' & [->|Hin] & Hf); [congruence | eauto].
Qed.

Lemma take_length n s : String.length (take n s) <= n.
Proof.
  revert s. induction n as [|n IH]; intros [|c s]; simpl; try lia.
  specialize (IH s). lia.
Qed.

(** *** Configuration objects *)

Lemma set_attr_ok (bc : build_config) f k v :
  mem bc f = true -> exists bc', set_attr bc f k v = Ok bc'.
Proof.
  unfold mem, set_attr. destruct (get bc f); [eauto | discriminate].
Qed.

Lemma field_attr_set_same (bc bc' : build_config) f k v :
  set_attr bc f k v = Ok bc' -> field_attr bc' f k = Some v.
Proof.
  unfold set_attr, field_attr. destruct (get bc f) as [d|]; [|discriminate].
  intros [= <-]. rewrite get_set_same. apply get_set_same.
Qed.

Lemma field_attr_set_other (bc bc' : build_config) f k v f' k' :
  set_attr bc f k v = Ok bc' -> f <> f' \/ k <> k' ->
  field_attr bc' f' k' = field_attr bc f' k'.
Proof.
  unfold set_attr, field_attr. destruct (get bc f) as [d|] eqn:E; [|discriminate].
  intros [= <-] Hne. destruct (string_dec f f') as [<-|Hf].
  - rewrite get_set_same, E. destruct Hne as [Hne|Hne]; [congruence|].
    now apply get_set_other.
  - now rewrite get_set_other.
Qed.

Lemma mem_set_attr (bc bc' : build_config) f k v f' :
  set_attr bc f k v = Ok bc' -> mem bc f' = true -> mem bc' f' = true.
Proof.
  unfold set_attr. destruct (get bc f); [|discriminate].
  intros [= <-]. apply mem_set.
Qed.

(** *** The order on keys and the keys of a built dict *)

Lemma compare_not_gt_trans s1 :
  forall s2 s3,
    String.compare s1 s2 <> Gt -> String.compare s2 s3 <> Gt ->
    String.compare s1 s3 <> Gt.
Proof.
  induction s1 as [|a s1 IH]; intros [|b s2] [|c s3]; simpl;
    try congruence.
  unfold Ascii.compare.
  destruct (N.compare_spec (N_of_ascii a) (N_of_ascii b)) as [Hab|Hab|Hab];
    destruct (N.compare_spec (N_of_ascii b) (N_of_ascii c)) as [Hbc|Hbc|Hbc];
    destruct (N.compare_spec (N_of_ascii a) (N_of_ascii c)) as [Hac|Hac|Hac];
    try congruence; try lia.
  apply IH.
Qed.

Lemma leb_trans s1 s2 s3 :
  String.leb s1 s2 = true -> String.leb s2 s3 = true -> String.leb s1 s3 = true.
Proof.
  unfold String.leb. intros H12 H23.
  pose proof (compare_not_gt_trans s1 s2 s3) as H.
  destruct (String.compare s1 s2), (String.compare s2 s3),
    (String.compare s1 s3); try reflexivity; try discriminate;
    exfalso; apply H; congruence.
Qed.

Lemma sort_by_strongly_sorted {A} (key : A -> string) l :
  StronglySorted (key_le key) (sort_by key l).
Proof.
  apply Sorted_StronglySorted; [|apply sort_by_sorted].
  intros x y z. unfold key_le. apply leb_trans.
Qed.

Lemma keys_set {V} (d : dict V) k v :
  keys (set d k v) = if mem d k then keys d else (keys d ++ [k])%list.
Proof.
  unfold mem. induction d as [|[k' v'] d IH]; simpl; [reflexivity|].
  destruct (String.eqb k' k) eqn:E; simpl; [reflexivity|].
  rewrite IH. now destruct (get d k).
Qed.

Lemma mem_In_keys {V} (d : dict V) k : mem d k = true <-> In k (keys d).
Proof.
  unfold mem. induction d as [|[k' v'] d IH]; simpl.
  - split; [discriminate | contradiction].
  - destruct (String.eqb_spec k' k) as [->|Hne].
    + split; auto.
    + rewrite IH. split; [auto | intros [H|H]; [contradiction | exact H]].
Qed.

Lemma keys_set_NoDup {V} (d : dict V) k v :
  NoDup (keys d) -> NoDup (keys (set d k v)).
Proof.
  intros Hd. rewrite keys_set. destruct (mem d k) eqn:E; [exact Hd|].
  apply NoDup_app; [exact Hd | repeat constructor; intros [] |].
  intros x Hx [<-|[]].
  apply mem_In_keys in Hx. congruence.
Qed.

Lemma keys_of_pairs_NoDup {V} (pairs : list (string * V)) :
  NoDup (keys (of_pairs pairs)).
Proof.
  unfold of_pairs.
  assert (H : forall acc : dict V,
             NoDup (keys acc) ->
             NoDup (keys (fold_left (fun d kv => set d (fst kv) (snd kv))
                            pairs acc))).
  { induction pairs as [|[k v] pairs IH]; simpl; intros acc Hacc; [exact Hacc|].
    apply IH. now apply keys_set_NoDup. }
  apply H. constructor.
Qed.

End PyFacts.

(** ** The model picker *)

Module CoEModelPickerSpec.
Import PyStr PyDict Json Py PyOps PyFacts CoEModelPicker Scenarios.
Local Open Scope py_scope.

Lemma pair_of_item_eligible item name mid :
  pair_of_item item = Some (name, mid) <-> eligible item name mid.
Proof.
  unfold eligible, pair_of_item. split.
  - destruct item as [| | | | |d]; try discriminate.
    destruct (allowed (owner_of d)) eqn:Ha; simpl; [|discriminate].
    destruct (String.eqb (id_of d) "") eqn:Ei; simpl; [discriminate|].
    destruct (String.eqb (name_of d) "") eqn:En; simpl; [discriminate|].
    intros [= <- <-]. exists d.
    apply String.eqb_neq in Ei, En. auto 10.
  - intros (d & -> & Ha & -> & -> & Hi & Hn).
    rewrite Ha. simpl.
    apply String.eqb_neq in Hi, Hn. now rewrite Hi, Hn.
Qed.

Section Host.
Variable urlopen : list request -> request -> result json.

(** How [_fetch_models] runs, by the outcome of the first GET. *)
Lemma fetch_models_run base i :
  _fetch_models urlopen base i =
  let url := base ++ "/v1/models" in
  let fb := _linux_fallback base ++ "/v1/models" in
  match urlopen (calls i) (GET url) with
  | Ok payload => (pairs_of_payload payload, with_call (GET url) i)
  | Raise e =>
      if transport_classes e then
        (rbind (urlopen (calls i ++ [GET url])%list (GET fb)) pairs_of_payload,
         with_call (GET fb) (with_call (GET url) i))
      else (Raise e, with_call (GET url) i)
  end.
Proof.
  unfold _fetch_models, bind, try_except, _http_get_json, lift. simpl.
  destruct (urlopen (calls i) (GET (base ++ "/v1/models"))) as [payload|e].
  - reflexivity.
  - destruct (transport_classes e); [|reflexivity].
    simpl.
    destruct (urlopen _ (GET (_linux_fallback base ++ "/v1/models")));
      reflexivity.
Qed.

(** The payload [_fetch_models] got its result from: the answer to the
    last request it made. *)
Lemma fetch_models_payload base i pairs i' :
  _fetch_models urlopen base i = (Ok pairs, i') ->
  exists seen url payload,
    calls i' = (seen ++ [GET url])%list
    /\ urlopen seen (GET url) = Ok payload
    /\ pairs_of_payload payload = Ok pairs.
Proof.
  rewrite fetch_models_run. cbv zeta.
  destruct (urlopen (calls i) (GET (base ++ "/v1/models"))) as [payload|e] eqn:E1.
  - intros [= H <-].
    exists (calls i), (base ++ "/v1/models"), payload. auto.
  - destruct (transport_classes e); [|discriminate].
    destruct (urlopen (calls i ++ [GET (base ++ "/v1/models")])%list
                (GET (_linux_fallback base ++ "/v1/models")))
      as [payload|e2] eqn:E2; simpl; [|discriminate].
    intros [= H <-].
    exists (calls i ++ [GET (base ++ "/v1/models")])%list,
      (_linux_fallback base ++ "/v1/models"), payload. auto.
Qed.

End Host.

Lemma pairs_of_payload_inv payload pairs :
  pairs_of_payload payload = Ok pairs ->
  exists data items,
    data_of_payload payload = Ok data /\ py_iter data = Ok items
    /\ pairs = sort_by sort_key (filter_map pair_of_item items).
Proof.
  unfold pairs_of_payload.
  destruct (data_of_payload payload) as [data|]; simpl; [|discriminate].
  destruct (py_iter data) as [items|] eqn:Hi; simpl; [|discriminate].
  intros [= <-]. exists data, items. auto.
Qed.

(** C1, as the code has it: [_fetch_models] returns the pairs of the
    eligible entries of the payload's model list (objects whose
    [owned_by], trimmed and lower-cased, is [openai] or [sktax], and whose
    [id] and name are not empty), one pair per entry, in ascending order
    of the lower-cased name, entries of one name in the order of the
    payload.  Names may repeat in the list returned; they are distinct
    only among the keys of the name-to-id map the caller builds from it. *)
Theorem fetch_models_filtered_sorted :
  forall urlopen base i pairs i',
    _fetch_models urlopen base i = (Ok pairs, i') ->
    exists seen url payload data items,
      calls i' = (seen ++ [GET url])%list
      /\ urlopen seen (GET url) = Ok payload
      /\ data_of_payload payload = Ok data
      /\ py_iter data = Ok items
      /\ Permutation (filter_map pair_of_item items) pairs
      /\ (forall name mid,
            In (name, mid) pairs <->
            exists item, In item items /\ eligible item name mid)
      /\ StronglySorted (key_le sort_key) pairs
      /\ (forall k,
            filter (fun p => String.eqb (sort_key p) k) pairs
            = filter (fun p => String.eqb (sort_key p) k)
                (filter_map pair_of_item items))
      /\ NoDup (keys (of_pairs pairs)).
Proof.
  intros urlopen base i pairs i' Hrun.
  apply fetch_models_payload in Hrun as (seen & url & payload & Hlog & Hnet & Hp).
  apply pairs_of_payload_inv in Hp as (data & items & Hd & Hi & ->).
  exists seen, url, payload, data, items.
  repeat split; auto.
  - apply sort_by_perm.
  - intros Hin.
    apply (Permutation_in _ (Permutation_sym (sort_by_perm sort_key _))) in Hin.
    apply filter_map_In in Hin as (item & Hin & Hf).
    exists item. split; auto. now apply pair_of_item_eligible.
  - intros (item & Hin & He).
    apply (Permutation_in _ (sort_by_perm sort_key _)).
    apply filter_map_In. exists item. split; auto.
    now apply pair_of_item_eligible.
  - apply sort_by_strongly_sorted.
  - intros k. apply sort_by_stable.
  - apply keys_of_pairs_NoDup.
Qed.

Lemma fetch_models_filtered_sorted_witness :
  _fetch_models (answering mixed_payload) "http://h" idle
  = (Ok [("Alpha", "a-1"); ("beta", "b-1")],
     with_call (GET "http://h/v1/models") idle)
  /\ exists seen url payload data items,
      calls (with_call (GET "http://h/v1/models") idle) = (seen ++ [GET url])%list
      /\ answering mixed_payload seen (GET url) = Ok payload
      /\ data_of_payload payload = Ok data
      /\ py_iter data = Ok items
      /\ Permutation (filter_map pair_of_item items)
           [("Alpha", "a-1"); ("beta", "b-1")]
      /\ (forall name mid,
            In (name, mid) [("Alpha", "a-1"); ("beta", "b-1")] <->
            exists item, In item items /\ eligible item name mid)
      /\ StronglySorted (key_le sort_key) [("Alpha", "a-1"); ("beta", "b-1")]
      /\ (forall k,
            filter (fun p => String.eqb (sort_key p) k)
              [("Alpha", "a-1"); ("beta", "b-1")]
            = filter (fun p => String.eqb (sort_key p) k)
                (filter_map pair_of_item items))
      /\ NoDup (keys (of_pairs [("Alpha", "a-1"); ("beta", "b-1")])).
Proof.
  split; [reflexivity|].
  apply (fetch_models_filtered_sorted (answering mixed_payload) "http://h" idle
           [("Alpha", "a-1"); ("beta", "b-1")]
           (with_call (GET "http://h/v1/models") idle)).
  reflexivity.
Defined.

(** C1 as stated fails: two eligible entries of one name both appear. *)
Lemma fetch_models_repeats_names :
  fst (_fetch_models (answering twin_payload) "http://h" idle)
  = Ok [("Alpha", "m1"); ("Alpha", "m2")]
  /\ ~ NoDup (map fst [("Alpha", "m1"); ("Alpha", "m2")]).
Proof.
  split; [reflexivity|].
  simpl. intros H. inversion H as [|? ? Hnin _]; subst.
  apply Hnin. now left.
Qed.

(** ** Retry and cache of the invocation *)

Section Invocation.
Variable COE_BACKEND_URL : option string.
Variable urlopen : list request -> request -> result json.
Variable _build_tools_payload : list json.

Local Abbreviation call_chat :=
  (_call_chat COE_BACKEND_URL urlopen _build_tools_payload).
Local Abbreviation base_of := (chat_base COE_BACKEND_URL).
Local Abbreviation url_of := (chat_url COE_BACKEND_URL).
Local Abbreviation retry_url_of := (chat_retry_url COE_BACKEND_URL).
Local Abbreviation payload_of := (chat_payload _build_tools_payload).

(** How [_call_chat] runs when nothing is cached, by the outcome of the
    first POST. *)
Lemma call_chat_run chat prompt name backend fh et tca i :
  _last_text i = None ->
  call_chat chat prompt name backend fh et tca i =
  let base := base_of backend fh in
  let payload := payload_of (_name_to_id i) chat prompt name et tca in
  let first := POST (url_of backend fh) payload in
  let second := POST (retry_url_of backend fh) payload in
  match urlopen (calls i) first with
  | Ok resp =>
      (Ok (text_of_response resp),
       with_last_text (Some (text_of_response resp)) (with_call first i))
  | Raise e =>
      if (transport_classes e
          && negb (String.eqb base (_linux_fallback base)))%bool
      then
        match urlopen (calls i ++ [first])%list second with
        | Ok resp =>
            (Ok (text_of_response resp),
             with_last_text (Some (text_of_response resp))
               (with_call second (with_call first i)))
        | Raise e2 => (Raise e2, with_call second (with_call first i))
        end
      else (Raise e, with_call first i)
  end.
Proof.
  intros Hnone.
  unfold _call_chat, bind, gets, try_except, _http_post_json, modify, ret, raise.
  rewrite Hnone. cbv zeta.
  fold (base_of backend fh).
  unfold chat_url, chat_retry_url.
  destruct (urlopen (calls i) _) as [resp|e]; [reflexivity|].
  destruct (transport_classes e); simpl; [|reflexivity].
  destruct (String.eqb (base_of backend fh) (_linux_fallback (base_of backend fh)));
    simpl; [reflexivity|].
  destruct (urlopen _ _); reflexivity.
Qed.

Lemma call_chat_cached chat prompt name backend fh et tca i t :
  _last_text i = Some t ->
  call_chat chat prompt name backend fh et tca i = (Ok t, i).
Proof.
  intros H. unfold _call_chat, bind, gets, ret. now rewrite H.
Qed.

Lemma run_text_cached i t :
  _last_text i = Some t ->
  run_text COE_BACKEND_URL urlopen _build_tools_payload i = (Ok t, i).
Proof.
  intros H. unfold run_text.
  destruct (_collect_inputs COE_BACKEND_URL i) as [[[[[[c p] m] b] f] e] a].
  now apply call_chat_cached.
Qed.

End Invocation.

(** C2, as the code has it: the discovery GET is retried exactly once,
    against the host-substituted URL, whenever the first attempt raises
    [URLError], [OSError] or [socket.gaierror]; an HTTP error status comes
    as [HTTPError], which is a [URLError], and is retried like the others.
    The invocation POST is retried under the same classes, but only when
    the substitution changes the base; otherwise the exception is raised
    again at once.  An exception of another class is not retried, a first
    attempt that succeeds is not repeated, and whatever the retry raises
    reaches the caller. *)
Theorem retry_once_on_caught_classes :
  forall (COE_BACKEND_URL : option string)
         (urlopen : list request -> request -> result json)
         (tools : list json),
    (forall status, transport_classes (HTTPError status) = true)
    /\ (forall base i,
          let first := GET (base ++ "/v1/models") in
          let second := GET (_linux_fallback base ++ "/v1/models") in
          let run := _fetch_models urlopen base i in
          (forall payload,
              urlopen (calls i) first = Ok payload ->
              calls (snd run) = (calls i ++ [first])%list)
          /\ (forall e,
                urlopen (calls i) first = Raise e ->
                transport_classes e = true ->
                calls (snd run) = (calls i ++ [first; second])%list
                /\ forall e2,
                    urlopen (calls i ++ [first])%list second = Raise e2 ->
                    fst run = Raise e2)
          /\ (forall e,
                urlopen (calls i) first = Raise e ->
                transport_classes e = false ->
                calls (snd run) = (calls i ++ [first])%list
                /\ fst run = Raise e))
    /\ (forall chat prompt name backend fh et tca i,
          _last_text i = None ->
          let base := chat_base COE_BACKEND_URL backend fh in
          let payload :=
            chat_payload tools (_name_to_id i) chat prompt name et tca in
          let first := POST (chat_url COE_BACKEND_URL backend fh) payload in
          let second := POST (chat_retry_url COE_BACKEND_URL backend fh) payload in
          let run :=
            _call_chat COE_BACKEND_URL urlopen tools chat prompt name backend
              fh et tca i in
          (forall resp,
              urlopen (calls i) first = Ok resp ->
              calls (snd run) = (calls i ++ [first])%list)
          /\ (forall e,
                urlopen (calls i) first = Raise e ->
                transport_classes e = true ->
                _linux_fallback base <> base ->
                calls (snd run) = (calls i ++ [first; second])%list
                /\ forall e2,
                    urlopen (calls i ++ [first])%list second = Raise e2 ->
                    fst run = Raise e2)
          /\ (forall e,
                urlopen (calls i) first = Raise e ->
                transport_classes e = false \/ _linux_fallback base = base ->
                calls (snd run) = (calls i ++ [first])%list
                /\ fst run = Raise e)).
Proof.
  intros COE urlopen tools. split; [reflexivity|]. split.
  - intros base i first second run. subst run.
    rewrite fetch_models_run. cbv zeta. fold first second.
    split; [|split].
    + intros payload ->. reflexivity.
    + intros e -> ->. simpl. split.
      * now rewrite <- app_assoc.
      * now intros e2 ->.
    + intros e -> ->. split; reflexivity.
  - intros chat prompt name backend fh et tca i Hnone base payload first second run.
    subst run. rewrite call_chat_run by assumption. cbv zeta.
    fold base payload first second.
    split; [|split].
    + intros resp ->. reflexivity.
    + intros e -> -> Hfb.
      destruct (String.eqb_spec base (_linux_fallback base)) as [E|E];
        [congruence|]. simpl. split.
      * destruct (urlopen _ second); simpl; now rewrite <- app_assoc.
      * now intros e2 ->.
    + intros e -> [-> | E]; [split; reflexivity|].
      rewrite E, String.eqb_refl, Bool.andb_false_r. split; reflexivity.
Qed.

Lemma retry_once_on_caught_classes_witness :
  (calls (snd (_fetch_models flaky docker idle))
   = [GET "http://host.docker.internal:8000/v1/models";
      GET "http://172.17.0.1:8000/v1/models"])
  /\ map url_of_request
       (calls (snd (_call_chat None flaky [] (JStr "hi") "" "GPT-4o" docker
                      false false false idle)))
     = ["http://host.docker.internal:8000/v1/chat/completions";
        "http://172.17.0.1:8000/v1/chat/completions"].
Proof.
  pose proof (retry_once_on_caught_classes None flaky []) as (_ & Hget & Hpost).
  split.
  - destruct (Hget docker idle) as (_ & Hretry & _).
    destruct (Hretry OSError eq_refl eq_refl) as [Hcalls _].
    exact Hcalls.
  - destruct (Hpost (JStr "hi") "" "GPT-4o" docker false false false idle eq_refl)
      as (_ & Hretry & _).
    assert (Hne : _linux_fallback (chat_base None docker false)
                  <> chat_base None docker false) by (vm_compute; discriminate).
    destruct (Hretry OSError eq_refl eq_refl Hne) as [Hcalls _].
    rewrite Hcalls. reflexivity.
Defined.

(** C2 as stated fails: a 503 on the first attempt is answered by a
    retry against the substituted host, for the GET and for the POST. *)
Lemma http_error_status_is_retried :
  unavailable [] (GET "http://host.docker.internal:8000/v1/models")
  = Raise (HTTPError 503)
  /\ calls (snd (_fetch_models unavailable docker idle))
     = [GET "http://host.docker.internal:8000/v1/models";
        GET "http://172.17.0.1:8000/v1/models"]
  /\ map url_of_request
       (calls (snd (run_text None unavailable [] (asking "GPT-4o"))))
     = ["http://host.docker.internal:8000/v1/chat/completions";
        "http://172.17.0.1:8000/v1/chat/completions"]
  /\ fst (run_text None unavailable [] (asking "GPT-4o")) = Ok "hello".
Proof.
  repeat split; reflexivity.
Qed.

Lemma reads_cached (run : M instance string) i t :
  run i = (Ok t, i) ->
  forall n, reads run n i = (Ok (repeat t n), i).
Proof.
  intros Hrun. induction n as [|n IH]; simpl; [reflexivity|].
  unfold bind. rewrite Hrun, IH. reflexivity.
Qed.

(** A call that raises caches nothing. *)
Lemma call_chat_raise_keeps_cache_empty
    COE urlopen tools chat prompt name backend fh et tca i e i1 :
  _last_text i = None ->
  _call_chat COE urlopen tools chat prompt name backend fh et tca i
  = (Raise e, i1) ->
  _last_text i1 = None.
Proof.
  intros Hnone Hrun.
  rewrite call_chat_run in Hrun by assumption. cbv zeta in Hrun.
  destruct (urlopen (calls i) _) as [resp|e1]; [discriminate|].
  destruct (_ && _)%bool.
  - destruct (urlopen (calls i ++ _)%list _); [discriminate|].
    injection Hrun as _ <-. exact Hnone.
  - injection Hrun as _ <-. exact Hnone.
Qed.

(** What a call that returned leaves behind: the text is cached, and the
    network has seen one POST, or two when the first attempt raised one
    of the caught classes and the retry went to the substituted host. *)
Lemma returned_text_is_cached :
  forall (COE_BACKEND_URL : option string)
         (urlopen : list request -> request -> result json)
         (tools : list json)
         chat prompt name backend fh et tca i t i1,
    _last_text i = None ->
    _call_chat COE_BACKEND_URL urlopen tools chat prompt name backend fh et tca i
    = (Ok t, i1) ->
    let base := chat_base COE_BACKEND_URL backend fh in
    let payload := chat_payload tools (_name_to_id i) chat prompt name et tca in
    let first := POST (chat_url COE_BACKEND_URL backend fh) payload in
    let second := POST (chat_retry_url COE_BACKEND_URL backend fh) payload in
    (calls i1 = (calls i ++ [first])%list
     \/ (calls i1 = (calls i ++ [first; second])%list
         /\ _linux_fallback base <> base
         /\ exists e, urlopen (calls i) first = Raise e
                      /\ transport_classes e = true))
    /\ (forall chat' prompt' name' backend' fh' et' tca',
          _call_chat COE_BACKEND_URL urlopen tools chat' prompt' name' backend'
            fh' et' tca' i1 = (Ok t, i1))
    /\ run_text COE_BACKEND_URL urlopen tools i1 = (Ok t, i1)
    /\ run_message COE_BACKEND_URL urlopen tools i1 = (Ok (Message t), i1)
    /\ forall n,
        reads (run_text COE_BACKEND_URL urlopen tools) n i1
        = (Ok (repeat t n), i1).
Proof.
  intros COE urlopen tools chat prompt name backend fh et tca i t i1 Hnone Hrun
    base payload first second.
  rewrite call_chat_run in Hrun by assumption. cbv zeta in Hrun.
  fold base payload first second in Hrun.
  assert (Hcalls :
    calls i1 = (calls i ++ [first])%list
    \/ (calls i1 = (calls i ++ [first; second])%list
        /\ _linux_fallback base <> base
        /\ exists e, urlopen (calls i) first = Raise e
                     /\ transport_classes e = true)).
  { destruct (urlopen (calls i) first) as [resp|e] eqn:E1.
    - injection Hrun as _ <-. now left.
    - destruct (transport_classes e) eqn:Et; simpl in Hrun; [|discriminate].
      destruct (String.eqb_spec base (_linux_fallback base)) as [E|E];
        simpl in Hrun; [discriminate|].
      destruct (urlopen _ second); [|discriminate].
      injection Hrun as _ <-. right. split; [|split; [congruence | eauto]].
      simpl. now rewrite <- app_assoc. }
  assert (Hlast : _last_text i1 = Some t).
  { destruct (urlopen (calls i) first) as [resp|e].
    - injection Hrun as <- <-. reflexivity.
    - destruct (_ && _)%bool; [|discriminate].
      destruct (urlopen _ second); [|discriminate].
      injection Hrun as <- <-. reflexivity. }
  pose proof (run_text_cached COE urlopen tools i1 t Hlast) as Htext.
  split; [exact Hcalls|]. split; [|split; [exact Htext|split]].
  - intros. now apply call_chat_cached.
  - unfold run_message, bind, ret. now rewrite Htext.
  - now apply reads_cached.
Qed.

(** ** What the invocation sends *)

Lemma chat_payload_model tools d chat prompt name et tca :
  exists body,
    chat_payload tools d chat prompt name et tca = JDict body
    /\ get body "model" = Some (JStr (resolve_model d name)).
Proof.
  unfold chat_payload.
  destruct et; [destruct tools as [|tool tools]; [|destruct tca]|];
    eexists; split; reflexivity.
Qed.

Lemma resolve_model_mapped d name :
  ids_nonempty d ->
  resolve_model d name
  = match get d name with
    | Some mid => mid
    | None => "gpt-4o-mini"
    end.
Proof.
  intros Hd. unfold resolve_model.
  destruct (get d name) as [mid|] eqn:E; [|reflexivity].
  apply Hd in E. apply String.eqb_neq in E. now rewrite E, E.
Qed.

Lemma call_chat_requests COE urlopen tools chat prompt name backend fh et tca i :
  _last_text i = None ->
  exists new,
    calls (snd (_call_chat COE urlopen tools chat prompt name backend fh et
                  tca i)) = (calls i ++ new)%list
    /\ new <> []
    /\ Forall (fun r => exists url,
                 r = POST url (chat_payload tools (_name_to_id i) chat prompt
                                 name et tca)) new.
Proof.
  intros Hnone. rewrite call_chat_run by assumption. cbv zeta.
  destruct (urlopen (calls i) _) as [resp|e].
  - eexists [_]. simpl. repeat split; [discriminate|]. repeat constructor. eauto.
  - destruct (_ && _)%bool.
    + eexists [_; _].
      destruct (urlopen _ _); simpl; rewrite <- app_assoc;
        (repeat split; [discriminate|]); repeat constructor; eauto.
    + eexists [_]. simpl. repeat split; [discriminate|]. repeat constructor. eauto.
Qed.

Lemma call_chat_model_field COE urlopen tools chat prompt name backend fh et tca i :
  _last_text i = None ->
  exists new,
    calls (snd (_call_chat COE urlopen tools chat prompt name backend fh et
                  tca i)) = (calls i ++ new)%list
    /\ new <> []
    /\ Forall (fun r =>
                 is_post r = true
                 /\ model_field r
                    = Some (JStr (resolve_model (_name_to_id i) name))) new.
Proof.
  intros Hnone.
  destruct (call_chat_requests COE urlopen tools chat prompt name backend fh et
              tca i Hnone) as (new & Hcalls & Hne & Hall).
  exists new. repeat split; auto.
  eapply Forall_impl; [|exact Hall].
  intros r (url & ->).
  destruct (chat_payload_model tools (_name_to_id i) chat prompt name et tca)
    as (body & -> & Hm).
  split; [reflexivity | exact Hm].
Qed.

(** C3, as the code has it: the text is cached when a call returns, not
    when it is made.  Once [_call_chat] has returned a text, every later
    call, whatever its arguments and whichever output method makes it,
    returns that text and leaves the instance, the log of requests
    included, as it was; the network has seen the one POST of that call,
    or two when its first attempt raised one of the caught classes and the
    retry went to the substituted host.  A call that raises leaves the
    cache empty, and the call after it posts again. *)
Theorem chat_result_cached_once_returned :
  forall (COE_BACKEND_URL : option string)
         (urlopen : list request -> request -> result json)
         (tools : list json)
         chat prompt name backend fh et tca i,
    _last_text i = None ->
    let base := chat_base COE_BACKEND_URL backend fh in
    let payload := chat_payload tools (_name_to_id i) chat prompt name et tca in
    let first := POST (chat_url COE_BACKEND_URL backend fh) payload in
    let second := POST (chat_retry_url COE_BACKEND_URL backend fh) payload in
    let run :=
      _call_chat COE_BACKEND_URL urlopen tools chat prompt name backend fh et
        tca i in
    let i1 := snd run in
    (forall t,
        fst run = Ok t ->
        (calls i1 = (calls i ++ [first])%list
         \/ (calls i1 = (calls i ++ [first; second])%list
             /\ _linux_fallback base <> base
             /\ exists e, urlopen (calls i) first = Raise e
                          /\ transport_classes e = true))
        /\ (forall chat' prompt' name' backend' fh' et' tca',
              _call_chat COE_BACKEND_URL urlopen tools chat' prompt' name'
                backend' fh' et' tca' i1 = (Ok t, i1))
        /\ run_text COE_BACKEND_URL urlopen tools i1 = (Ok t, i1)
        /\ run_message COE_BACKEND_URL urlopen tools i1 = (Ok (Message t), i1)
        /\ forall n,
            reads (run_text COE_BACKEND_URL urlopen tools) n i1
            = (Ok (repeat t n), i1))
    /\ (forall e,
          fst run = Raise e ->
          _last_text i1 = None
          /\ (calls i1 = (calls i ++ [first])%list
              \/ calls i1 = (calls i ++ [first; second])%list)
          /\ forall chat' prompt' name' backend' fh' et' tca',
              exists new,
                calls (snd (_call_chat COE_BACKEND_URL urlopen tools chat'
                              prompt' name' backend' fh' et' tca' i1))
                = (calls i1 ++ new)%list
                /\ new <> []
                /\ Forall (fun r => is_post r = true) new).
Proof.
  intros COE urlopen tools chat prompt name backend fh et tca i Hnone
    base payload first second run i1.
  assert (Hpair : _call_chat COE urlopen tools chat prompt name backend fh et
                    tca i = (fst run, i1)) by apply surjective_pairing.
  split.
  - intros t Ht. rewrite Ht in Hpair.
    exact (returned_text_is_cached COE urlopen tools chat prompt name backend
             fh et tca i t i1 Hnone Hpair).
  - intros e He. rewrite He in Hpair.
    assert (Hempty : _last_text i1 = None)
      by (eapply call_chat_raise_keeps_cache_empty; eauto).
    split; [exact Hempty|]. split.
    + rewrite call_chat_run in Hpair by assumption. cbv zeta in Hpair.
      fold base payload first second in Hpair.
      destruct (urlopen (calls i) first) as [resp|e1]; [discriminate|].
      destruct (_ && _)%bool.
      * destruct (urlopen _ second); [discriminate|].
        injection Hpair as _ <-. right. simpl. now rewrite <- app_assoc.
      * injection Hpair as _ <-. now left.
    + intros chat' prompt' name' backend' fh' et' tca'.
      destruct (call_chat_model_field COE urlopen tools chat' prompt' name'
                  backend' fh' et' tca' i1 Hempty)
        as (new & Hcalls & Hne & Hall).
      exists new. repeat split; auto.
      eapply Forall_impl; [|exact Hall]. now intros r [Hpost _].
Qed.

Lemma chat_result_cached_once_returned_witness :
  fst (run_text None once [] (asking "GPT-4o")) = Ok "hello"
  /\ map url_of_request (calls (snd (run_text None once [] (asking "GPT-4o"))))
     = ["http://host.docker.internal:8000/v1/chat/completions"]
  /\ reads (run_text None once []) 3
       (snd (run_text None once [] (asking "GPT-4o")))
     = (Ok ["hello"; "hello"; "hello"],
        snd (run_text None once [] (asking "GPT-4o")))
  /\ _last_text (snd (run_text None down [] (asking "GPT-4o"))) = None.
Proof.
  pose proof (chat_result_cached_once_returned None once [] (JStr "hi") ""
                "GPT-4o" docker false false false (asking "GPT-4o") eq_refl)
    as [Hreturned _].
  destruct (Hreturned "hello" eq_refl) as (_ & _ & _ & _ & Hreads).
  pose proof (chat_result_cached_once_returned None down [] (JStr "hi") ""
                "GPT-4o" docker false false false (asking "GPT-4o") eq_refl)
    as [_ Hraised].
  destruct (Hraised URLError eq_refl) as (Hempty & _).
  split; [reflexivity|]. split; [reflexivity|].
  split; [exact (Hreads 3) | exact Hempty].
Defined.

(** C3 as stated fails: a first call that raises caches nothing.  When
    the first answer cannot be decoded, the second read posts again, to
    the same URL, and the network has seen two POSTs without any
    substitution of the host; with the network down, two reads make four
    POSTs. *)
Lemma raised_call_is_computed_again :
  fst (run_text None garbled_once [] (asking "GPT-4o"))
  = Raise (Other "JSONDecodeError")
  /\ fst (run_text None garbled_once []
            (snd (run_text None garbled_once [] (asking "GPT-4o"))))
     = Ok "hello"
  /\ map url_of_request
       (calls (snd (run_text None garbled_once []
                      (snd (run_text None garbled_once [] (asking "GPT-4o"))))))
     = ["http://host.docker.internal:8000/v1/chat/completions";
        "http://host.docker.internal:8000/v1/chat/completions"]
  /\ fst (reads (run_text None down []) 1 (asking "GPT-4o")) = Raise URLError
  /\ List.length
       (calls (snd (run_text None down []
                      (snd (run_text None down [] (asking "GPT-4o"))))))
     = 4.
Proof. repeat split; reflexivity. Qed.

(** C5: every request [_call_chat] sends for a selected label carries, as
    [model], the identifier the cached map gives the label, and the first
    identifier of the hardcoded list, [gpt-4o-mini], when the map has no
    entry for it.  The map is one the component builds: its identifiers
    are non-empty. *)
Theorem invocation_model_field :
  forall (COE_BACKEND_URL : option string)
         (urlopen : list request -> request -> result json)
         (tools : list json)
         chat prompt label backend fh et tca i,
    _last_text i = None ->
    ids_nonempty (_name_to_id i) ->
    hd_error (map snd _fallback_pairs) = Some "gpt-4o-mini"
    /\ exists new,
        calls (snd (_call_chat COE_BACKEND_URL urlopen tools chat prompt label
                      backend fh et tca i)) = (calls i ++ new)%list
        /\ new <> []
        /\ Forall (fun r =>
                     is_post r = true
                     /\ model_field r
                        = Some (JStr match get (_name_to_id i) label with
                                     | Some mid => mid
                                     | None => "gpt-4o-mini"
                                     end)) new.
Proof.
  intros COE urlopen tools chat prompt label backend fh et tca i Hnone Hids.
  split; [reflexivity|].
  rewrite <- (resolve_model_mapped _ label Hids).
  now apply call_chat_model_field.
Qed.

Lemma invocation_model_field_witness :
  (exists new,
      calls (snd (_call_chat None once [] (JStr "hi") "" "Alpha" docker false
                    false false (knowing_alpha "Alpha")))
      = (calls (knowing_alpha "Alpha") ++ new)%list
      /\ new <> []
      /\ Forall (fun r => is_post r = true
                          /\ model_field r = Some (JStr "a-1")) new)
  /\ (exists new,
        calls (snd (_call_chat None once [] (JStr "hi") "" "Omega" docker false
                      false false (knowing_alpha "Omega")))
        = (calls (knowing_alpha "Omega") ++ new)%list
        /\ new <> []
        /\ Forall (fun r => is_post r = true
                            /\ model_field r = Some (JStr "gpt-4o-mini")) new).
Proof.
  assert (Hids : forall name, ids_nonempty (_name_to_id (knowing_alpha name))).
  { intros name k v Hget.
    change (get [("Alpha", "a-1")] k = Some v) in Hget. unfold get in Hget.
    destruct (String.eqb "Alpha" k); [|discriminate Hget].
    injection Hget as <-. discriminate. }
  split.
  - exact (proj2 (invocation_model_field None once [] (JStr "hi") "" "Alpha"
                    docker false false false (knowing_alpha "Alpha") eq_refl
                    (Hids "Alpha"))).
  - exact (proj2 (invocation_model_field None once [] (JStr "hi") "" "Omega"
                    docker false false false (knowing_alpha "Omega") eq_refl
                    (Hids "Omega"))).
Defined.

(** ** The dropdown refresh *)

Section Refresh.
Variable COE_BACKEND_URL : option string.
Variable urlopen : list request -> request -> result json.

Lemma fetch_models_ids base i pairs i' :
  _fetch_models urlopen base i = (Ok pairs, i') ->
  Forall (fun p => snd p <> "") pairs.
Proof.
  intros Hrun.
  apply fetch_models_payload in Hrun as (seen & url & payload & _ & _ & Hp).
  apply pairs_of_payload_inv in Hp as (data & items & _ & _ & ->).
  apply Forall_forall. intros [name mid] Hin.
  apply (Permutation_in _ (Permutation_sym (sort_by_perm sort_key _))) in Hin.
  apply filter_map_In in Hin as (item & _ & Hf).
  apply pair_of_item_eligible in Hf as (d & _ & _ & _ & _ & Hmid & _).
  exact Hmid.
Qed.

Lemma store_names_ok bc cur names :
  mem bc "model_name" = true -> names <> [] ->
  exists bc1,
    store_names bc cur names = Ok bc1
    /\ field_attr bc1 "model_name" "options" = Some (strs names)
    /\ forall f, mem bc f = true -> mem bc1 f = true.
Proof.
  intros Hmem Hne. unfold store_names.
  destruct (set_attr_ok bc "model_name" "options" (strs names) Hmem) as [bc1 H1].
  rewrite H1. simpl.
  destruct (negb (truthy cur) || negb (in_strs cur names))%bool.
  - destruct names as [|n names]; [congruence|].
    assert (Hmem1 : mem bc1 "model_name" = true) by (eapply mem_set_attr; eauto).
    destruct (set_attr_ok bc1 "model_name" "value" (JStr n) Hmem1) as [bc2 H2].
    exists bc2. rewrite H2. repeat split.
    + rewrite (field_attr_set_other _ _ _ _ _ "model_name" "options" H2)
        by (right; discriminate).
      eapply field_attr_set_same; eauto.
    + intros f Hf. eapply mem_set_attr; [exact H2|].
      eapply mem_set_attr; eauto.
  - exists bc1. repeat split.
    + eapply field_attr_set_same; eauto.
    + intros f Hf. eapply mem_set_attr; eauto.
Qed.

Lemma lower_toggle_ok (bc1 : build_config) :
  exists bc',
    (if mem bc1 "refresh_now"
     then set_attr bc1 "refresh_now" "value" (JBool false)
     else Ok bc1) = Ok bc'
    /\ field_attr bc' "model_name" "options"
       = field_attr bc1 "model_name" "options".
Proof.
  destruct (mem bc1 "refresh_now") eqn:Hm.
  - destruct (set_attr_ok bc1 "refresh_now" "value" (JBool false) Hm) as [bc' H].
    exists bc'. split; [exact H|].
    eapply field_attr_set_other; [exact H|]. left. discriminate.
  - eauto.
Qed.

Lemma chosen_names_nonempty r : chosen_names r <> [].
Proof.
  destruct r as [[|p ps]|e]; try discriminate.
  apply of_pairs_nonempty. discriminate.
Qed.

(** What a refresh does when the dropdown exists. *)
Lemma update_build_config_refresh bc fv fn i base :
  refresh_base COE_BACKEND_URL bc fv fn = Ok base ->
  should_refresh i bc fn = true ->
  mem bc "model_name" = true ->
  let r := _fetch_models urlopen base i in
  exists bc',
    update_build_config COE_BACKEND_URL urlopen bc fv fn i
    = (Ok bc',
       with_did_initial_fetch true
         (with_name_to_id (of_pairs (chosen_pairs (fst r))) (snd r)))
    /\ field_attr bc' "model_name" "options"
       = Some (strs (chosen_names (fst r))).
Proof.
  intros Hbase Hrefresh Hmem r.
  destruct (store_names_ok bc (current_value bc) (chosen_names (fst r)) Hmem
              (chosen_names_nonempty _)) as (bc1 & Hstore & Hopts & _).
  destruct (lower_toggle_ok bc1) as (bc' & Htoggle & Hsame).
  exists bc'. split; [|now rewrite Hsame].
  unfold update_build_config, bind, lift, gets. rewrite Hbase, Hrefresh.
  unfold try_except, bind. subst r.
  destruct (_fetch_models urlopen base i) as [[[|p ps]|e] i1]; simpl in *;
    unfold use_fallback, bind, modify, lift, gets, ret; simpl;
    rewrite Hstore; simpl; unfold ret, lift;
    destruct (mem bc1 "refresh_now"); rewrite Htoggle; reflexivity.
Qed.

End Refresh.

(** C4: a refresh of the model dropdown always ends with a non-empty
    option list, and when the discovery call raises or yields no eligible
    entry, the options are exactly the labels of the hardcoded default
    list, which has four entries. *)
Theorem refresh_falls_back_to_defaults :
  forall (COE_BACKEND_URL : option string)
         (urlopen : list request -> request -> result json)
         bc field_value field_name i base,
    refresh_base COE_BACKEND_URL bc field_value field_name = Ok base ->
    should_refresh i bc field_name = true ->
    mem bc "model_name" = true ->
    map fst _fallback_pairs
    = ["GPT-4o Mini"; "GPT-4o"; "text-embedding-3-small"; "AX4 Model"]
    /\ exists bc' i' names,
        update_build_config COE_BACKEND_URL urlopen bc field_value field_name i
        = (Ok bc', i')
        /\ field_attr bc' "model_name" "options" = Some (strs names)
        /\ names <> []
        /\ ((fst (_fetch_models urlopen base i) = Ok []
             \/ exists e, fst (_fetch_models urlopen base i) = Raise e) ->
            names = map fst _fallback_pairs).
Proof.
  intros COE urlopen bc fv fn i base Hbase Hrefresh Hmem.
  split; [reflexivity|].
  destruct (update_build_config_refresh COE urlopen bc fv fn i base Hbase
              Hrefresh Hmem) as (bc' & Hrun & Hopts).
  eexists bc', _, (chosen_names (fst (_fetch_models urlopen base i))).
  split; [exact Hrun|]. split; [exact Hopts|].
  split; [apply chosen_names_nonempty|].
  intros [-> | [e ->]]; reflexivity.
Qed.

Lemma refresh_falls_back_to_defaults_witness :
  exists bc',
    fst (update_build_config None down empty_config (JBool true)
           (Some "refresh_now") idle) = Ok bc'
    /\ field_attr bc' "model_name" "options"
       = Some (strs ["GPT-4o Mini"; "GPT-4o"; "text-embedding-3-small";
                     "AX4 Model"]).
Proof.
  destruct (refresh_falls_back_to_defaults None down empty_config (JBool true)
              (Some "refresh_now") idle "http://h" eq_refl eq_refl eq_refl)
    as (_ & bc' & i' & names & Hrun & Hopts & _ & Hfallback).
  exists bc'. split.
  - now rewrite Hrun.
  - rewrite Hopts, Hfallback; [reflexivity|].
    right. exists URLError. reflexivity.
Defined.

Lemma of_pairs_ids_nonempty pairs :
  Forall (fun p : string * string => snd p <> "") pairs ->
  ids_nonempty (of_pairs pairs).
Proof.
  intros Hall k v Hget.
  exact (of_pairs_values (fun v => v <> "") pairs k v Hall Hget).
Qed.

Lemma fallback_ids_nonempty : ids_nonempty (of_pairs _fallback_pairs).
Proof.
  apply of_pairs_ids_nonempty. repeat constructor; discriminate.
Qed.

(** One case split on the way through the stores of a refresh. *)
Ltac refresh_step :=
  match goal with
  | |- context [store_names ?a ?b ?c] => destruct (store_names a b c)
  | |- context [mem ?a "refresh_now"] => destruct (mem a "refresh_now")
  | |- context [set_attr ?a ?b ?c ?d] => destruct (set_attr a b c d)
  end; simpl.

(** The maps the component builds keep their identifiers non-empty:
    [update_build_config] is the only method that assigns [_name_to_id]. *)
Lemma update_build_config_ids_nonempty COE urlopen bc fv fn i :
  ids_nonempty (_name_to_id i) ->
  ids_nonempty
    (_name_to_id (snd (update_build_config COE urlopen bc fv fn i))).
Proof.
  intros Hi.
  unfold update_build_config, bind, lift, gets.
  destruct (refresh_base COE bc fv fn) as [base|e0]; simpl; [|exact Hi].
  destruct (should_refresh i bc fn); simpl; [|exact Hi].
  unfold try_except, bind.
  destruct (_fetch_models urlopen base i) as [[[|p ps]|e] i1] eqn:Hf; simpl.
  - unfold use_fallback, bind, modify, lift, ret. simpl.
    repeat refresh_step; apply fallback_ids_nonempty.
  - pose proof (fetch_models_ids urlopen base i _ _ Hf) as Hids.
    apply of_pairs_ids_nonempty in Hids.
    unfold use_fallback, bind, modify, gets, lift, ret. simpl.
    repeat refresh_step; first [exact Hids | apply fallback_ids_nonempty].
  - unfold use_fallback, bind, modify, lift, ret. simpl.
    repeat refresh_step; apply fallback_ids_nonempty.
Qed.

Lemma fresh_ids_nonempty ci p m b fh et tca :
  ids_nonempty (_name_to_id (fresh ci p m b fh et tca)).
Proof. intros k v H. discriminate H. Qed.


(** The invocation reads the map and never assigns it. *)
Lemma call_chat_keeps_name_to_id
    COE urlopen tools chat prompt name backend fh et tca i :
  _name_to_id (snd (_call_chat COE urlopen tools chat prompt name backend fh
                      et tca i))
  = _name_to_id i.
Proof.
  destruct (_last_text i) as [t|] eqn:Hlast.
  - now rewrite (call_chat_cached COE urlopen tools _ _ _ _ _ _ _ i t Hlast).
  - rewrite call_chat_run by assumption. cbv zeta.
    destruct (urlopen (calls i) _) as [resp|e]; [reflexivity|].
    destruct (_ && _)%bool; [|reflexivity].
    destruct (urlopen (calls i ++ _)%list _); reflexivity.
Qed.
(** ** The identifier output *)

Lemma resolve_model_unknown d name :
  get d name = None -> resolve_model d name = "gpt-4o-mini".
Proof. intros H. unfold resolve_model. now rewrite H. Qed.

Lemma run_text_model_field COE urlopen tools i :
  _last_text i = None ->
  exists new,
    calls (snd (run_text COE urlopen tools i)) = (calls i ++ new)%list
    /\ new <> []
    /\ Forall (fun r =>
                 is_post r = true
                 /\ model_field r
                    = Some (JStr (resolve_model (_name_to_id i)
                                    (strip (model_name i))))) new.
Proof.
  intros Hnone. unfold run_text, _collect_inputs. cbv zeta.
  now apply call_chat_model_field.
Qed.

(** C10: [get_model_id] returns the identifier the cached map gives the
    trimmed model name and the empty string when the map has none; it does
    not fall back to the default list, so for an unknown name the
    [model_id] output is empty while every request of the invocation
    carries [gpt-4o-mini] as [model]. *)
Theorem get_model_id_without_fallback :
  forall (COE_BACKEND_URL : option string)
         (urlopen : list request -> request -> result json)
         (tools : list json) i,
    get_model_id i
    = match get (_name_to_id i) (strip (model_name i)) with
      | Some mid => mid
      | None => ""
      end
    /\ (get (_name_to_id i) (strip (model_name i)) = None ->
        _last_text i = None ->
        get_model_id i = ""
        /\ exists new,
            calls (snd (run_text COE_BACKEND_URL urlopen tools i))
            = (calls i ++ new)%list
            /\ new <> []
            /\ Forall (fun r =>
                         is_post r = true
                         /\ model_field r = Some (JStr "gpt-4o-mini")
                         /\ model_field r <> Some (JStr (get_model_id i)))
                 new).
Proof.
  intros COE urlopen tools i. split; [reflexivity|].
  intros Hnone Hlast.
  assert (Hid : get_model_id i = "") by (unfold get_model_id; now rewrite Hnone).
  split; [exact Hid|].
  destruct (run_text_model_field COE urlopen tools i Hlast)
    as (new & Hcalls & Hne & Hall).
  exists new. repeat split; auto.
  eapply Forall_impl; [|exact Hall].
  intros r [Hpost Hm].
  rewrite (resolve_model_unknown _ _ Hnone) in Hm.
  repeat split; auto.
  rewrite Hm, Hid. discriminate.
Qed.

Lemma get_model_id_without_fallback_witness :
  get_model_id (knowing_alpha " Omega ") = ""
  /\ get_model_id (knowing_alpha " Alpha ") = "a-1"
  /\ exists new,
      calls (snd (run_text None once [] (knowing_alpha " Omega ")))
      = (calls (knowing_alpha " Omega ") ++ new)%list
      /\ new <> []
      /\ Forall (fun r =>
                   is_post r = true
                   /\ model_field r = Some (JStr "gpt-4o-mini")
                   /\ model_field r
                      <> Some (JStr (get_model_id (knowing_alpha " Omega "))))
           new.
Proof.
  destruct (get_model_id_without_fallback None once [] (knowing_alpha " Omega "))
    as [_ Hunknown].
  destruct (Hunknown eq_refl eq_refl) as [Hid Hsent].
  split; [exact Hid|]. split; [reflexivity | exact Hsent].
Defined.

(** ** Reading the response *)

Lemma content_of_extracts resp :
  (exists content,
      extracts resp content
      /\ content_of resp = Ok (py_str (or_else content (JStr ""))))
  \/ ((forall content, ~ extracts resp content)
      /\ exists e, content_of resp = Raise e).
Proof.
  assert (Hno : forall d,
            resp = JDict d ->
            (forall c0 rest, get_or_null d "choices" <> JList (JDict c0 :: rest)) ->
            forall content, ~ extracts resp content).
  { intros d -> Hch content (d' & c0 & rest & [= <-] & Hc & _).
    exact (Hch _ _ Hc). }
  destruct resp as [| | | | |d];
    try (right; split;
         [intros content (d & c0 & rest & Hr & _); discriminate Hr
         | eexists; reflexivity]).
  unfold content_of. simpl.
  destruct (get_or_null d "choices") as [|b|z|s|l|dc] eqn:Hch.
  - right. split; [eapply Hno; [reflexivity|congruence] | eexists; reflexivity].
  - right. split; [eapply Hno; [reflexivity|congruence]|].
    destruct b; eexists; reflexivity.
  - right. split; [eapply Hno; [reflexivity|congruence]|].
    unfold or_else. simpl. destruct (z =? 0)%Z; eexists; reflexivity.
  - right. split; [eapply Hno; [reflexivity|congruence]|].
    destruct s; eexists; reflexivity.
  - destruct l as [|x rest].
    + right. split; [eapply Hno; [reflexivity|congruence] | eexists; reflexivity].
    + destruct x as [| | | | |c0];
        try (right; split;
             [eapply Hno; [reflexivity|congruence] | eexists; reflexivity]).
      unfold or_else at 1. simpl.
      destruct (truthy (get_or_null c0 "message")) eqn:Ht.
      * destruct (get_or_null c0 "message") as [| | | | |m] eqn:Hm;
          try (right; split;
               [intros content (d' & c0' & rest' & [= <-] & Hc & Hcase);
                rewrite Hch in Hc; injection Hc as <- <-;
                rewrite Hm in Hcase;
                destruct Hcase as [[Hf _]|(m' & Hm' & _)];
                [simpl in *; congruence | discriminate Hm']
               | unfold or_else; rewrite Ht; eexists; reflexivity]).
        left. exists (get_or_null m "content"). split.
        -- exists d, c0, rest. repeat split; auto. right. eauto.
        -- unfold or_else at 1. rewrite Ht. reflexivity.
      * left. exists JNull. split.
        -- exists d, c0, rest. repeat split; auto.
        -- unfold or_else at 1. rewrite Ht. reflexivity.
  - right. split; [eapply Hno; [reflexivity|congruence]|].
    destruct dc; eexists; reflexivity.
Qed.

Lemma text_of_response_cases resp :
  (exists content,
      extracts resp content
      /\ text_of_response resp = py_str (or_else content (JStr "")))
  \/ ((forall content, ~ extracts resp content)
      /\ text_of_response resp = take 2000 (dumps resp)
      /\ String.length (text_of_response resp) <= 2000).
Proof.
  unfold text_of_response.
  destruct (content_of_extracts resp) as [(content & He & ->) | (Hno & e & ->)].
  - left. eauto.
  - right. repeat split; auto. apply take_length.
Qed.

(** Where the outcome of [_call_chat] comes from when nothing is cached:
    the answer to the last request it made. *)
Lemma call_chat_outcome COE urlopen tools chat prompt name backend fh et tca i :
  _last_text i = None ->
  let run := _call_chat COE urlopen tools chat prompt name backend fh et tca i in
  exists seen req,
    calls (snd run) = (seen ++ [req])%list
    /\ match fst run with
       | Ok t => exists resp,
           urlopen seen req = Ok resp /\ t = text_of_response resp
       | Raise e => urlopen seen req = Raise e
       end.
Proof.
  intros Hnone run. subst run.
  rewrite call_chat_run by assumption. cbv zeta.
  destruct (urlopen (calls i) _) as [resp|e] eqn:E1; simpl.
  - eexists _, _. split; [reflexivity|]. eauto.
  - destruct (_ && _)%bool; simpl.
    + destruct (urlopen (calls i ++ _)%list _) as [resp|e2] eqn:E2; simpl;
        eexists _, _; (split; [reflexivity|]); eauto.
    + eexists _, _. split; [reflexivity|]. eauto.
Qed.

(** C6, as the code has it: when the response is an object whose
    [choices] is a list that starts with an object, the text returned is
    [str] of the [content] of that object's [message], where a missing or
    false [message] or [content] reads as the empty string; in every other
    case it is the response serialized to JSON and cut to at most 2000
    characters.  With a response in hand [_call_chat] always returns a
    string: whatever it raises was raised by the network. *)
Theorem response_text_or_truncated_dump :
  forall (COE_BACKEND_URL : option string)
         (urlopen : list request -> request -> result json)
         (tools : list json)
         chat prompt name backend fh et tca i,
    _last_text i = None ->
    let run :=
      _call_chat COE_BACKEND_URL urlopen tools chat prompt name backend fh et
        tca i in
    exists seen req,
      calls (snd run) = (seen ++ [req])%list
      /\ (forall e, fst run = Raise e -> urlopen seen req = Raise e)
      /\ (forall t,
            fst run = Ok t ->
            exists resp,
              urlopen seen req = Ok resp
              /\ ((exists content,
                      extracts resp content
                      /\ t = py_str (or_else content (JStr "")))
                  \/ ((forall content, ~ extracts resp content)
                      /\ t = take 2000 (dumps resp)
                      /\ String.length t <= 2000))).
Proof.
  intros COE urlopen tools chat prompt name backend fh et tca i Hnone run.
  destruct (call_chat_outcome COE urlopen tools chat prompt name backend fh
              et tca i Hnone) as (seen & req & Hlog & Hout).
  fold run in Hlog, Hout.
  exists seen, req. split; [exact Hlog|]. split.
  - intros e He. now rewrite He in Hout.
  - intros t Ht. rewrite Ht in Hout.
    destruct Hout as (resp & Hnet & ->).
    exists resp. split; [exact Hnet|].
    destruct (text_of_response_cases resp) as [(c & He & Hc) | (Hno & Hd & Hl)].
    + left. eauto.
    + right. auto.
Qed.

Lemma response_text_or_truncated_dump_witness :
  fst (_call_chat None (answering no_choices) [] (JStr "hi") "" "GPT-4o" docker
         false false false idle)
  = Ok (take 2000 (dumps no_choices))
  /\ exists resp,
      answering no_choices []
        (POST "http://host.docker.internal:8000/v1/chat/completions"
           (chat_payload [] [] (JStr "hi") "" "GPT-4o" false false))
      = Ok resp
      /\ ((exists content,
              extracts resp content
              /\ take 2000 (dumps no_choices)
                 = py_str (or_else content (JStr "")))
          \/ ((forall content, ~ extracts resp content)
              /\ take 2000 (dumps no_choices) = take 2000 (dumps resp)
              /\ String.length (take 2000 (dumps no_choices)) <= 2000)).
Proof.
  split; [reflexivity|].
  destruct (response_text_or_truncated_dump None (answering no_choices) []
              (JStr "hi") "" "GPT-4o" docker false false false idle eq_refl)
    as (seen & req & Hlog & _ & Htext).
  apply app_inj_tail in Hlog as [<- <-].
  exact (Htext (take 2000 (dumps no_choices)) eq_refl).
Defined.

(** C6 as stated fails: a first choice without [message] yields the empty
    string, not the serialized response. *)
Lemma missing_message_gives_empty_text :
  py_get no_message "choices"
  = Ok (JList [JDict [("finish_reason", JStr "stop")]])
  /\ get [("finish_reason", JStr "stop")] "message" = None
  /\ fst (run_text None (answering no_message) [] (asking "GPT-4o")) = Ok ""
  /\ String.length (take 2000 (dumps no_message)) = 40.
Proof.
  repeat split; reflexivity.
Qed.

End CoEModelPickerSpec.

(** ** The tool invoker *)

Module ToolInvokerSpec.
Import PyStr PyDict Json Py PyOps PyFacts ToolInvoker InvokerScenarios.
Local Open Scope py_scope.

Lemma normal_path_slash path : exists rest, normal_path path = String "/" rest.
Proof.
  unfold normal_path, startswith. cbv zeta.
  destruct (strip (if String.eqb path "" then "/" else path)) as [|c rest].
  - cbn. eauto.
  - destruct (String.prefix "/" (String c rest)) eqn:Hp; cbn [negb].
    + apply prefix_correct in Hp. cbn in Hp. injection Hp as -> _. eauto.
    + cbn. eauto.
Qed.

Lemma join_url_by_path base path :
  _join_url base path "/tools"
  = rstrip "/" base
    ++ (if mounted (normal_path path) then normal_path path
        else "/tools" ++ normal_path path).
Proof.
  unfold _join_url, mounted. fold (normal_path path).
  change (rstrip "/" "/tools") with "/tools".
  change ("/tools" ++ "/") with "/tools/".
  destruct (startswith (normal_path path) "/tools/"); simpl; [reflexivity|].
  destruct (String.eqb (normal_path path) "/tools"); reflexivity.
Qed.

(** C8, as the code has it: the two joins of the specification hold, and
    for every base and path the part appended to the right-stripped base
    starts with the mount segment [/tools], which is put in front of the
    trimmed, slash-led path exactly when that path does not start with it
    already.  The base is not looked at. *)
Theorem join_url_prefixes_unmounted_paths :
  _join_url "http://h/" "/sub" "/tools" = "http://h/tools/sub"
  /\ _join_url "http://h" "/tools/sub" "/tools" = "http://h/tools/sub"
  /\ forall base path,
      let p := normal_path path in
      exists final,
        _join_url base path "/tools" = rstrip "/" base ++ final
        /\ mounted final = true
        /\ (mounted p = true -> final = p)
        /\ (mounted p = false ->
            final = "/tools" ++ p /\ mounted (drop 6 final) = false).
Proof.
  split; [reflexivity|]. split; [reflexivity|].
  intros base path p. rewrite join_url_by_path. fold p.
  destruct (mounted p) eqn:Hm.
  - exists p. repeat split; auto; discriminate.
  - destruct (normal_path_slash path) as [rest Hp]. fold p in Hp.
    exists ("/tools" ++ p). split; [reflexivity|]. split.
    + rewrite Hp. destruct rest; reflexivity.
    + split; [discriminate|]. intros _. split; [reflexivity | exact Hm].
Qed.

Lemma join_url_prefixes_unmounted_paths_witness :
  (exists final,
      _join_url "http://h//" " sub " "/tools" = rstrip "/" "http://h//" ++ final
      /\ mounted final = true
      /\ final = "/tools" ++ normal_path " sub "
      /\ mounted (drop 6 final) = false)
  /\ exists final,
      _join_url "http://h" "/tools/sub" "/tools" = rstrip "/" "http://h" ++ final
      /\ mounted final = true
      /\ final = normal_path "/tools/sub".
Proof.
  destruct join_url_prefixes_unmounted_paths as (_ & _ & Hall).
  split.
  - destruct (Hall "http://h//" " sub ") as (final & Hj & Hm & _ & Hun).
    destruct (Hun eq_refl) as [Hf Hd].
    exists final. auto.
  - destruct (Hall "http://h" "/tools/sub") as (final & Hj & Hm & Hmo & _).
    exists final. auto.
Defined.

(** C8 as stated fails: a base that ends in the mount segment, as the
    one the Tool Picker hands over does, gets the segment twice; so does
    a path that already has it twice. *)
Lemma join_url_doubles_mount_segment :
  _join_url "http://h/tools" "/sub" "/tools" = "http://h/tools/tools/sub"
  /\ _join_url "http://h" "/tools/tools/x" "/tools" = "http://h/tools/tools/x".
Proof. split; reflexivity. Qed.


Section Calls.
Variable send : list request -> request -> outcome.

(** How the closing [try] statement of [_invoke_core] runs. *)
Lemma call_and_report_run method url payload tool i :
  call_and_report send method url payload tool i =
  let first := mk_request method url payload in
  let second := mk_request method (url ++ "/") payload in
  match send (sent i) first with
  | Failed detail =>
      (Ok (request_failed_text method url tool detail), with_sent first i)
  | Responded r =>
      if negb (is_error_status (status_code r)) then
        (Ok (success_text method url tool false r), with_sent first i)
      else if ((status_code r =? 404)%Z && negb (endswith url "/"))%bool then
        (Ok match send (sent i ++ [first])%list second with
            | Failed detail =>
                slash_failed_text method url (url ++ "/") (status_code r) detail
            | Responded r2 =>
                if negb (is_error_status (status_code r2))
                then success_text method (url ++ "/") tool true r2
                else slash_failed_text method url (url ++ "/") (status_code r)
                       (error_message r2)
            end,
         with_sent second (with_sent first i))
      else (Ok (http_error_text method url tool r), with_sent first i)
  end.
Proof.
  unfold call_and_report, bind, _call, ret. cbv zeta. simpl.
  destruct (send (sent i) _) as [r|detail]; [|reflexivity].
  destruct (is_error_status (status_code r)); simpl; [|reflexivity].
  destruct ((status_code r =? 404)%Z && negb (endswith url "/"))%bool;
    [|reflexivity].
  destruct (send _ _) as [r2|detail2]; [|reflexivity].
  destruct (is_error_status (status_code r2)); reflexivity.
Qed.

End Calls.


(** With a usable selection and no [params_json], [_invoke_core] is the
    closing [try] statement run on the joined URL. *)
Lemma invoke_core_calls json_loads send i sel base_url url_path :
  _extract_selection json_loads (selection_json i) = inl sel ->
  stripped_field sel "base_url" = Ok base_url ->
  stripped_field sel "url_path" = Ok url_path ->
  base_url <> "" -> url_path <> "" ->
  strip (params_json i) = "" ->
  let tool_name := match get sel "name" with Some v => v | None => JStr "" end in
  let user_text := _extract_user_text (user_input i) in
  let payload : dict json :=
    if String.eqb (strip user_text) "" then [] else [("input", JStr user_text)] in
  let run :=
    call_and_report send (effective_method i)
      (_join_url base_url url_path "/tools") (JDict payload) tool_name i in
  _invoke_core json_loads send i
  = (match fst run with
     | Ok text => Ok (text, or_else tool_name (JStr ""))
     | Raise e => Raise e
     end, snd run).
Proof.
  intros Hsel Hbase Hpath Hb Hp Hparams tool_name user_text payload run.
  apply String.eqb_neq in Hb, Hp.
  unfold _invoke_core, bind, gets, lift, ret. cbv beta.
  rewrite Hsel. cbv beta iota. rewrite Hbase, Hpath. cbv beta iota.
  rewrite Hb, Hp. cbn [orb]. cbv beta iota.
  rewrite Hparams, String.eqb_refl. cbv beta iota.
  fold user_text. fold payload. fold tool_name. fold run.
  destruct run as [[text|e] i']; reflexivity.
Qed.
(** C7, as the code has it: an HTTP 404 on a URL that does not end in a
    slash is followed by exactly one retry with the slash appended, and
    the text returned is made of the outcome of that retry alone, its
    body when it succeeds and the description of its failure otherwise;
    a 404 on a URL that already ends in a slash, like every other error
    status, is returned as the structured error text without a retry. *)
Theorem not_found_retried_with_slash_once :
  forall (send : list request -> request -> outcome)
         method url payload tool i r,
    send (sent i) (mk_request method url payload) = Responded r ->
    is_error_status (status_code r) = true ->
    let first := mk_request method url payload in
    let second := mk_request method (url ++ "/") payload in
    let run := call_and_report send method url payload tool i in
    (status_code r = 404%Z -> endswith url "/" = false ->
     sent (snd run) = (sent i ++ [first; second])%list
     /\ fst run
        = Ok match send (sent i ++ [first])%list second with
             | Responded r2 =>
                 if is_error_status (status_code r2)
                 then slash_failed_text method url (url ++ "/") 404
                        (error_message r2)
                 else success_text method (url ++ "/") tool true r2
             | Failed detail =>
                 slash_failed_text method url (url ++ "/") 404 detail
             end)
    /\ (status_code r <> 404%Z \/ endswith url "/" = true ->
        sent (snd run) = (sent i ++ [first])%list
        /\ fst run = Ok (http_error_text method url tool r)).
Proof.
  intros send method url payload tool i r Hsend Herr first second run.
  subst run first second. rewrite call_and_report_run. cbv zeta.
  rewrite Hsend, Herr. simpl. split.
  - intros H404 Hslash. rewrite H404, Hslash. simpl. split.
    + now rewrite <- app_assoc.
    + match goal with
      | |- context [send (sent i ++ ?l)%list ?q] =>
          destruct (send (sent i ++ l)%list q) as [r2|detail]
      end; [|reflexivity].
      now destruct (is_error_status (status_code r2)).
  - intros [Hne | Hslash].
    + apply Z.eqb_neq in Hne. rewrite Hne. simpl. auto.
    + rewrite Hslash, Bool.andb_false_r. auto.
Qed.

Lemma not_found_retried_with_slash_once_witness :
  map req_url
    (sent (snd (call_and_report slash_only "POST" "http://h/tools/sub"
                  (JDict [("input", JStr "ping")]) (JStr "sub")
                  (invoking "http://h" "/sub"))))
  = ["http://h/tools/sub"; "http://h/tools/sub/"]
  /\ fst (call_and_report slash_only "POST" "http://h/tools/sub"
            (JDict [("input", JStr "ping")]) (JStr "sub")
            (invoking "http://h" "/sub"))
     = Ok (success_text "POST" "http://h/tools/sub/" (JStr "sub") true pong)
  /\ fst (_invoke_core nothing_to_decode slash_only (invoking "http://h" "/sub"))
     = Ok (success_text "POST" "http://h/tools/sub/" (JStr "sub") true pong,
           JStr "sub").
Proof.
  destruct (not_found_retried_with_slash_once slash_only "POST"
              "http://h/tools/sub" (JDict [("input", JStr "ping")]) (JStr "sub")
              (invoking "http://h" "/sub") not_found eq_refl eq_refl)
    as [Hretry _].
  destruct (Hretry eq_refl eq_refl) as [Hsent Htext].
  split; [|split].
  - rewrite Hsent. reflexivity.
  - exact Htext.
  - reflexivity.
Defined.

(** C7 as stated fails: when the URL already ends in a slash, the 404 is
    not retried. *)
Lemma not_found_on_slash_url_not_retried :
  map req_url
    (sent (snd (_invoke_core nothing_to_decode always_not_found
                  (invoking "http://h" "/sub/"))))
  = ["http://h/tools/sub/"]
  /\ fst (_invoke_core nothing_to_decode always_not_found
            (invoking "http://h" "/sub/"))
     = Ok (http_error_text "POST" "http://h/tools/sub/" (JStr "sub") not_found,
           JStr "sub").
Proof. split; reflexivity. Qed.

End ToolInvokerSpec.

(** ** The router *)

Module ToolPickerRouterSpec.
Import PyStr PyDict Json Py PyOps PyFacts ToolPickerRouter RouterScenarios.

Lemma try_set_attr_same (bc : build_config) f k v :
  mem bc f = true -> field_attr (try_set_attr bc f k v) f k = Some v.
Proof.
  intros Hmem. unfold try_set_attr.
  destruct (set_attr_ok bc f k v Hmem) as [bc' H]. rewrite H.
  eapply field_attr_set_same; eauto.
Qed.

Lemma try_set_attr_other (bc : build_config) f k v f' k' :
  f <> f' \/ k <> k' ->
  field_attr (try_set_attr bc f k v) f' k' = field_attr bc f' k'.
Proof.
  intros Hne. unfold try_set_attr.
  destruct (set_attr bc f k v) as [bc'|e] eqn:H; [|reflexivity].
  eapply field_attr_set_other; eauto.
Qed.

Lemma try_set_attr_mem (bc : build_config) f k v f' :
  mem bc f' = true -> mem (try_set_attr bc f k v) f' = true.
Proof.
  intros Hmem. unfold try_set_attr.
  destruct (set_attr bc f k v) as [bc'|e] eqn:H; [|exact Hmem].
  eapply mem_set_attr; eauto.
Qed.

Lemma default_value_name ks :
  In "name" ks -> default_value ks = "name".
Proof.
  intros Hin. unfold default_value.
  destruct (existsb (String.eqb "name") ks) eqn:E; [reflexivity|].
  assert (Hex : existsb (String.eqb "name") ks = true).
  { apply existsb_exists. exists "name". split; [exact Hin | apply String.eqb_refl]. }
  congruence.
Qed.

Lemma default_value_first ks :
  ~ In "name" ks -> ks <> [] -> hd_error ks = Some (default_value ks).
Proof.
  intros Hnin Hne. unfold default_value.
  destruct (existsb (String.eqb "name") ks) eqn:E.
  - apply existsb_exists in E as (k & Hin & Hk).
    apply String.eqb_eq in Hk. subst k. contradiction.
  - destruct ks; [congruence | reflexivity].
Qed.

Lemma shown_keys_nonempty json_loads candidate :
  shown_keys json_loads candidate <> [].
Proof.
  unfold shown_keys.
  destruct (_extract_json_keys_from_candidate json_loads candidate);
    discriminate.
Qed.

(** C9, as the code has it: the dropdown shows the keys of the extracted
    object when it has any, and the four fixed keys [name], [url_path],
    [description], [base_url] when it has none; the default is [name]
    when it is among the keys shown and the first of them otherwise; a
    previous selection that is empty or not among the keys shown is
    replaced by the default, any other is kept.  The two objects of the
    specification get [name] and [url_path]. *)
Theorem router_keys_and_default :
  forall (json_loads : string -> json + string) bc field_value field_name,
    mem bc "key_for_prompt" = true ->
    let ks :=
      _extract_json_keys_from_candidate json_loads
        (candidate_of bc field_value field_name) in
    let shown := match ks with [] => fallback_keys | _ :: _ => ks end in
    let bc' := update_build_config json_loads bc field_value field_name in
    field_attr bc' "key_for_prompt" "options" = Some (strs shown)
    /\ (In "name" shown -> default_value shown = "name")
    /\ (~ In "name" shown -> hd_error shown = Some (default_value shown))
    /\ (truthy (previous bc) = false \/ in_strs (previous bc) shown = false ->
        field_attr bc' "key_for_prompt" "value"
        = Some (JStr (default_value shown)))
    /\ (truthy (previous bc) = true /\ in_strs (previous bc) shown = true ->
        field_attr bc' "key_for_prompt" "value"
        = field_attr bc "key_for_prompt" "value")
    /\ default_value (_extract_json_keys_from_candidate json_loads name_and_path)
       = "name"
    /\ default_value (_extract_json_keys_from_candidate json_loads path_only)
       = "url_path".
Proof.
  intros json_loads bc fv fn Hmem ks shown bc'.
  assert (Hshown : shown = shown_keys json_loads (candidate_of bc fv fn)).
  { unfold shown, shown_keys. fold ks. now destruct ks. }
  assert (Hprev :
    previous (try_set_attr bc "key_for_prompt" "options" (strs shown))
    = previous bc).
  { unfold previous. rewrite try_set_attr_other; [reflexivity|].
    right. discriminate. }
  assert (Hmem1 :
    mem (try_set_attr bc "key_for_prompt" "options" (strs shown))
      "key_for_prompt" = true) by now apply try_set_attr_mem.
  assert (Hrun :
    bc' =
    let bc1 := try_set_attr bc "key_for_prompt" "options" (strs shown) in
    if (negb (truthy (previous bc)) || negb (in_strs (previous bc) shown))%bool
    then try_set_attr bc1 "key_for_prompt" "value" (JStr (default_value shown))
    else bc1).
  { unfold bc', update_build_config. cbv zeta. rewrite <- Hshown.
    fold (previous (try_set_attr bc "key_for_prompt" "options" (strs shown))).
    now rewrite Hprev. }
  cbv zeta in Hrun.
  repeat split.
  - rewrite Hrun.
    destruct (negb (truthy (previous bc)) || negb (in_strs (previous bc) shown))%bool.
    + rewrite try_set_attr_other by (right; discriminate).
      now apply try_set_attr_same.
    + now apply try_set_attr_same.
  - apply default_value_name.
  - intros Hnin. apply default_value_first; [exact Hnin|].
    rewrite Hshown. apply shown_keys_nonempty.
  - intros Hcase. rewrite Hrun.
    assert (Hc : (negb (truthy (previous bc))
                  || negb (in_strs (previous bc) shown))%bool = true).
    { destruct Hcase as [-> | ->]; [reflexivity | apply Bool.orb_true_r]. }
    rewrite Hc. now apply try_set_attr_same.
  - intros [Ht Hin]. rewrite Hrun, Ht, Hin. simpl.
    apply try_set_attr_other. right. discriminate.
Qed.

Lemma router_keys_and_default_witness :
  field_attr (routed name_and_path "") "key_for_prompt" "options"
  = Some (strs ["name"; "url_path"])
  /\ field_attr (routed name_and_path "") "key_for_prompt" "value"
     = Some (JStr "name")
  /\ field_attr (routed (message_of path_only_text) "name") "key_for_prompt"
       "value" = Some (JStr "url_path")
  /\ field_attr (routed (message_of name_and_path_text) "url_path")
       "key_for_prompt" "value" = Some (JStr "url_path").
Proof.
  pose proof (router_keys_and_default scenario_loads (router_config "")
                name_and_path (Some "tool_message") eq_refl)
    as (Hopts & _ & _ & Hreset & _).
  pose proof (router_keys_and_default scenario_loads (router_config "name")
                (message_of path_only_text) (Some "tool_message") eq_refl)
    as (_ & _ & _ & Hstale & _).
  pose proof (router_keys_and_default scenario_loads (router_config "url_path")
                (message_of name_and_path_text) (Some "tool_message") eq_refl)
    as (_ & _ & _ & _ & Hkeep & _).
  split; [exact Hopts|].
  split; [exact (Hreset (or_introl eq_refl))|].
  split; [exact (Hstale (or_intror eq_refl))|].
  exact (Hkeep (conj eq_refl eq_refl)).
Defined.

(** C9 as stated fails: for the empty object the dropdown does not show
    that object's keys, of which there are none, but the four fixed
    ones, and [name] is selected. *)
Lemma empty_object_shows_fixed_keys :
  _extract_json_keys_from_candidate scenario_loads (JDict []) = []
  /\ _extract_json_keys_from_candidate scenario_loads (JStr "{}") = []
  /\ field_attr (routed (JDict []) "") "key_for_prompt" "options"
     = Some (strs ["name"; "url_path"; "description"; "base_url"])
  /\ field_attr (routed (JDict []) "") "key_for_prompt" "value"
     = Some (JStr "name").
Proof. repeat split; reflexivity. Qed.

End ToolPickerRouterSpec.

(** ** Strings *)

Module StrFacts.
Import PyStr.

Lemma prefix_refl s : String.prefix s s = true.
Proof.
  induction s as [|c s IH]; simpl; [reflexivity|].
  destruct (Ascii.ascii_dec c c); [exact IH | congruence].
Qed.

Lemma prefix_nil s : String.prefix "" s = true.
Proof. now destruct s. Qed.

Lemma prefix_trans a : forall b c,
  String.prefix a b = true -> String.prefix b c = true ->
  String.prefix a c = true.
Proof.
  induction a as [|x a IH]; intros b c Hab Hbc; [apply prefix_nil|].
  destruct b as [|y b]; [discriminate Hab|].
  destruct c as [|z c]; [discriminate Hbc|].
  simpl in *.
  destruct (Ascii.ascii_dec x y) as [->|]; [|discriminate].
  destruct (Ascii.ascii_dec y z) as [->|]; [|discriminate].
  eauto.
Qed.

Lemma prefix_app a b : String.prefix a (a ++ b) = true.
Proof.
  induction a as [|x a IH]; simpl; [apply prefix_nil|].
  destruct (Ascii.ascii_dec x x); [exact IH | congruence].
Qed.

(** What [rstrip] leaves is the start of what it was given. *)
Lemma rstrip_by_prefix p s : String.prefix (rstrip_by p s) s = true.
Proof.
  induction s as [|c s IH]; simpl; [reflexivity|].
  destruct (rstrip_by p s) as [|a r] eqn:E.
  - destruct (p c); simpl; [reflexivity|].
    destruct (Ascii.ascii_dec c c); [apply prefix_nil | congruence].
  - cbn [String.prefix].
    destruct (Ascii.ascii_dec c c); [exact IH | congruence].
Qed.

(** What [rstrip("/")] leaves does not end in a slash. *)
Lemma rstrip_slash_endswith s : endswith (rstrip "/" s) "/" = false.
Proof.
  unfold rstrip. induction s as [|c s IH]; simpl; [reflexivity|].
  destruct (rstrip_by (in_chars "/") s) as [|a r] eqn:E.
  - destruct (in_chars "/" c) eqn:Hc; [reflexivity|].
    unfold in_chars in Hc. simpl in Hc. rewrite Bool.orb_false_r in Hc.
    cbn [endswith]. rewrite Bool.orb_false_r.
    cbn [String.eqb]. rewrite Hc. reflexivity.
  - change (endswith (String c (String a r)) "/")
      with (String.eqb (String c (String a r)) "/"
            || endswith (String a r) "/")%bool.
    rewrite IH, Bool.orb_false_r.
    cbn [String.eqb]. destruct (Ascii.eqb c "/"); reflexivity.
Qed.

Lemma lstrip_by_idem p s : lstrip_by p (lstrip_by p s) = lstrip_by p s.
Proof.
  induction s as [|c s IH]; simpl; [reflexivity|].
  destruct (p c) eqn:E; [exact IH|]. simpl. now rewrite E.
Qed.

Lemma rstrip_by_idem p s : rstrip_by p (rstrip_by p s) = rstrip_by p s.
Proof.
  induction s as [|c s IH]; simpl; [reflexivity|].
  destruct (rstrip_by p s) as [|a r] eqn:E.
  - destruct (p c) eqn:Hc; simpl; [reflexivity|]. now rewrite Hc.
  - change (rstrip_by p (String c (String a r)))
      with (match rstrip_by p (String a r) with
            | EmptyString => if p c then EmptyString else String c EmptyString
            | r' => String c r'
            end).
    now rewrite IH.
Qed.

(** A string that does not start with a character to strip keeps its
    start through [rstrip]. *)
Lemma lstrip_rstrip_by p s :
  lstrip_by p s = s -> lstrip_by p (rstrip_by p s) = rstrip_by p s.
Proof.
  destruct s as [|c s]; [reflexivity|].
  intros Hs. cbn [lstrip_by] in Hs.
  destruct (p c) eqn:Hc.
  - exfalso.
    assert (Hlen : forall t, String.length (lstrip_by p t) <= String.length t).
    { induction t as [|x t IHt]; simpl; [lia|].
      destruct (p x); simpl; lia. }
    specialize (Hlen s). rewrite Hs in Hlen. simpl in Hlen. lia.
  - cbn [rstrip_by]. destruct (rstrip_by p s); simpl; rewrite ?Hc;
      simpl; rewrite ?Hc; reflexivity.
Qed.

(** [s.strip().strip() == s.strip()] *)
Lemma strip_idem s : strip (strip s) = strip s.
Proof.
  unfold strip.
  rewrite (lstrip_rstrip_by isspace (lstrip_by isspace s))
    by apply lstrip_by_idem.
  apply rstrip_by_idem.
Qed.

Lemma strip_empty : strip "" = "".
Proof. reflexivity. Qed.


(** *** Replacement of the container host name *)

Lemma drop_length k : forall s, String.length (drop k s) <= String.length s.
Proof.
  induction k as [|k IH]; intros [|c s]; simpl; try lia.
  specialize (IH s). lia.
Qed.

Lemma replace_from_drop old new k :
  forall s, replace_from old new k s = replace old new (drop k s).
Proof.
  unfold replace. induction k as [|k IH]; intros [|c s]; try reflexivity.
  simpl. apply IH.
Qed.

(** A word without the first character of [new] that shows at the head
    of the result was at the head of the argument. *)
Lemma prefix_replace_inv old n new w :
  forallb (fun a => negb (Ascii.eqb a n)) (list_ascii_of_string w) = true ->
  forall s,
    String.prefix w (replace old (String n new) s) = true ->
    String.prefix w s = true.
Proof.
  unfold replace. induction w as [|a w IH]; intros Hw s H.
  - destruct s; reflexivity.
  - simpl in Hw. apply andb_true_iff in Hw as [Ha Hw].
    destruct s as [|c s]; [discriminate H|].
    cbn [replace_from] in H.
    destruct (String.prefix old (String c s)).
    + simpl in H. rewrite Ascii.eqb_sym in Ha.
      destruct (Ascii.eqb_spec a n) as [->|Hne].
      * rewrite Ascii.eqb_refl in Ha. discriminate.
      * destruct (ascii_dec a n); [contradiction | discriminate].
    + simpl in H |- *. destruct (ascii_dec a c); [|discriminate].
      now apply IH.
Qed.

Lemma replace_host_gone s :
  contains "host.docker.internal"
    (replace "host.docker.internal" "172.17.0.1" s) = false.
Proof.
  remember (String.length s) as n eqn:Hn.
  revert s Hn. induction n as [n IH] using lt_wf_ind. intros s Hn.
  destruct s as [|c s]; [reflexivity|].
  unfold replace. cbn [replace_from].
  destruct (String.prefix "host.docker.internal" (String c s)) eqn:Hp.
  - rewrite replace_from_drop.
    change (contains "host.docker.internal"
              ("172.17.0.1"
               ++ replace "host.docker.internal" "172.17.0.1"
                    (drop 19 s)))
      with (contains "host.docker.internal"
              (replace "host.docker.internal" "172.17.0.1" (drop 19 s))).
    eapply IH; [|reflexivity].
    subst n. pose proof (drop_length 19 s).
    change (String.length (drop 19 s) < S (String.length s)). lia.
  - change (replace_from "host.docker.internal" "172.17.0.1" 0 s)
      with (replace "host.docker.internal" "172.17.0.1" s).
    cbn [contains]. rewrite (IH (String.length s)); [| subst n; simpl; lia
                                                     | reflexivity].
    rewrite orb_false_r.
    destruct (String.prefix "host.docker.internal"
                (String c (replace "host.docker.internal" "172.17.0.1" s)))
      eqn:Hq; [|reflexivity].
    exfalso.
    change (String.prefix "host.docker.internal" (String c ?x))
      with (if ascii_dec "h" c then String.prefix "ost.docker.internal" x
            else false) in *.
    destruct (ascii_dec "h" c); [|discriminate].
    apply (prefix_replace_inv "host.docker.internal" "1" "72.17.0.1") in Hq;
      [congruence | reflexivity].
Qed.

Lemma contains_refl_prefix sub s :
  String.prefix sub s = true -> contains sub s = true.
Proof. intros H. destruct s; simpl in *; rewrite H; reflexivity. Qed.

(** *** Heads and tails that stripping keeps *)







End StrFacts.

(** ** The model picker, further *)

Module CoEModelPickerMore.
Import PyStr PyDict Json Py PyOps PyFacts StrFacts CoEModelPicker Scenarios
  MoreScenarios CoEModelPickerSpec.
Local Open Scope py_scope.

(** X1: whatever the base, the flag and the environment, the URL
    [_normalize] returns does not end in a slash, and with [force_https]
    set it does not start with [http://]. *)
Theorem normalize_no_trailing_slash :
  forall (COE_BACKEND_URL : option string) base force_https,
    endswith (_normalize COE_BACKEND_URL base force_https) "/" = false
    /\ startswith (_normalize COE_BACKEND_URL base true) "http://" = false.
Proof.
  intros COE base fh. split; [apply rstrip_slash_endswith|].
  unfold _normalize, startswith. cbv zeta.
  set (b := strip (if String.eqb base "" then DEFAULT_BACKEND COE else base)).
  destruct (String.prefix "http://" _) eqn:Hp; [|reflexivity].
  pose proof (prefix_trans _ _ _ Hp (rstrip_by_prefix _ _)) as Hb.
  simpl andb in Hb. unfold startswith in Hb.
  destruct (String.prefix "http://" b) eqn:E; [|congruence].
  discriminate Hb.
Qed.


(** *** The refresh, in full *)

Lemma in_strs_In v names :
  in_strs v names = true -> exists s, v = JStr s /\ In s names.
Proof.
  unfold in_strs. intros H. apply existsb_exists in H as (s & Hin & Heq).
  destruct v; try discriminate Heq. simpl in Heq.
  apply String.eqb_eq in Heq. subst. eauto.
Qed.

Lemma current_value_kept bc :
  truthy (current_value bc) = true ->
  field_attr bc "model_name" "value" = Some (current_value bc).
Proof.
  unfold current_value, or_else, or_default.
  destruct (field_attr bc "model_name" "value") as [v|]; simpl.
  - destruct (truthy v) eqn:E; [reflexivity | discriminate].
  - discriminate.
Qed.

Lemma store_names_value bc names bc1 :
  names <> [] ->
  store_names bc (current_value bc) names = Ok bc1 ->
  exists selected,
    field_attr bc1 "model_name" "value" = Some (JStr selected)
    /\ In selected names.
Proof.
  intros Hne. unfold store_names.
  destruct (set_attr bc "model_name" "options" (strs names)) as [bc0|] eqn:H0;
    simpl; [|discriminate].
  destruct (truthy (current_value bc)) eqn:Ht; simpl.
  - destruct (in_strs (current_value bc) names) eqn:Hin; simpl.
    + intros [= <-].
      apply in_strs_In in Hin as (s & Hs & Hin).
      exists s. split; [|exact Hin].
      rewrite (field_attr_set_other _ _ _ _ _ "model_name" "value" H0)
        by (right; discriminate).
      rewrite current_value_kept by assumption. now rewrite Hs.
    + destruct names as [|n names]; [congruence|]. intros H1.
      exists n. split; [|now left]. eapply field_attr_set_same; eauto.
  - destruct names as [|n names]; [congruence|]. intros H1.
    exists n. split; [|now left]. eapply field_attr_set_same; eauto.
Qed.

Lemma chosen_names_keys r : chosen_names r = keys (of_pairs (chosen_pairs r)).
Proof. destruct r as [[|p ps]|e]; reflexivity. Qed.

Lemma lower_toggle_value (bc1 bc' : build_config) :
  (if mem bc1 "refresh_now"
   then set_attr bc1 "refresh_now" "value" (JBool false)
   else Ok bc1) = Ok bc' ->
  field_attr bc' "model_name" "value" = field_attr bc1 "model_name" "value"
  /\ (mem bc1 "refresh_now" = true ->
      field_attr bc' "refresh_now" "value" = Some (JBool false)).
Proof.
  destruct (mem bc1 "refresh_now") eqn:Hm; intros H.
  - split.
    + eapply field_attr_set_other; [exact H|]. left. discriminate.
    + intros _. eapply field_attr_set_same; eauto.
  - injection H as <-. split; [reflexivity | discriminate].
Qed.

Section Refresh.
Variable COE_BACKEND_URL : option string.
Variable urlopen : list request -> request -> result json.

(** A refresh, stage by stage. *)
Lemma update_build_config_stages bc fv fn i base :
  refresh_base COE_BACKEND_URL bc fv fn = Ok base ->
  should_refresh i bc fn = true ->
  mem bc "model_name" = true ->
  let r := _fetch_models urlopen base i in
  exists bc1 bc',
    store_names bc (current_value bc) (chosen_names (fst r)) = Ok bc1
    /\ (if mem bc1 "refresh_now"
        then set_attr bc1 "refresh_now" "value" (JBool false)
        else Ok bc1) = Ok bc'
    /\ (forall f, mem bc f = true -> mem bc1 f = true)
    /\ update_build_config COE_BACKEND_URL urlopen bc fv fn i
       = (Ok bc',
          with_did_initial_fetch true
            (with_name_to_id (of_pairs (chosen_pairs (fst r))) (snd r))).
Proof.
  intros Hbase Hrefresh Hmem r.
  destruct (store_names_ok bc (current_value bc) (chosen_names (fst r)) Hmem
              (chosen_names_nonempty _)) as (bc1 & Hstore & _ & Hmems).
  destruct (lower_toggle_ok bc1) as (bc' & Htoggle & _).
  exists bc1, bc'. repeat split; auto.
  unfold update_build_config, bind, lift, gets. rewrite Hbase, Hrefresh.
  unfold try_except, bind. subst r.
  destruct (_fetch_models urlopen base i) as [[[|p ps]|e] i1]; simpl in *;
    unfold use_fallback, bind, modify, lift, gets, ret; simpl;
    rewrite Hstore; simpl; unfold ret, lift;
    destruct (mem bc1 "refresh_now"); rewrite Htoggle; reflexivity.
Qed.

Lemma chosen_pairs_ids base i :
  Forall (fun p => snd p <> "")
    (chosen_pairs (fst (_fetch_models urlopen base i))).
Proof.
  destruct (_fetch_models urlopen base i) as [[[|p ps]|e] i1] eqn:Hf; simpl;
    try (repeat constructor; discriminate).
  exact (fetch_models_ids urlopen base i _ _ Hf).
Qed.

End Refresh.

(** X2: after a refresh of the model dropdown, whether discovery
    succeeded or not, the options are exactly the keys of the cached
    name-to-id map, no option occurs twice, every option has a non-empty
    identifier there, the
    selected value is one of the options, the instance is marked as
    fetched, and the refresh toggle, when the configuration has one, is
    lowered. *)
Theorem refresh_leaves_consistent_dropdown :
  forall (COE_BACKEND_URL : option string)
         (urlopen : list request -> request -> result json)
         bc field_value field_name i base,
    refresh_base COE_BACKEND_URL bc field_value field_name = Ok base ->
    should_refresh i bc field_name = true ->
    mem bc "model_name" = true ->
    exists bc' i' names selected,
      update_build_config COE_BACKEND_URL urlopen bc field_value field_name i
      = (Ok bc', i')
      /\ field_attr bc' "model_name" "options" = Some (strs names)
      /\ keys (_name_to_id i') = names
      /\ NoDup names
      /\ (forall n, In n names ->
            exists mid, get (_name_to_id i') n = Some mid /\ mid <> "")
      /\ field_attr bc' "model_name" "value" = Some (JStr selected)
      /\ In selected names
      /\ _did_initial_fetch i' = true
      /\ (mem bc "refresh_now" = true ->
          field_attr bc' "refresh_now" "value" = Some (JBool false)).
Proof.
  intros COE urlopen bc fv fn i base Hbase Hrefresh Hmem.
  destruct (update_build_config_stages COE urlopen bc fv fn i base Hbase
              Hrefresh Hmem) as (bc1 & bc' & Hstore & Htoggle & Hmems & Hrun).
  set (r := _fetch_models urlopen base i) in *.
  destruct (store_names_value bc _ bc1 (chosen_names_nonempty _) Hstore)
    as (selected & Hval & Hin).
  destruct (lower_toggle_value bc1 bc' Htoggle) as [Hsame Hlow].
  destruct (store_names_ok bc (current_value bc) (chosen_names (fst r)) Hmem
              (chosen_names_nonempty _)) as (bc1' & Hstore' & Hopts & _).
  rewrite Hstore in Hstore'. injection Hstore' as <-.
  destruct (lower_toggle_ok bc1) as (bc'' & Htoggle' & Hsame').
  rewrite Htoggle in Htoggle'. injection Htoggle' as <-.
  eexists bc', _, (chosen_names (fst r)), selected.
  split; [exact Hrun|]. split; [now rewrite Hsame'|].
  split; [symmetry; apply chosen_names_keys|].
  split; [rewrite chosen_names_keys; apply keys_of_pairs_NoDup|]. split.
  { intros n Hn. simpl. rewrite chosen_names_keys in Hn.
    apply mem_In_keys in Hn. unfold mem in Hn.
    destruct (get (of_pairs (chosen_pairs (fst r))) n) as [mid|] eqn:Hg;
      [|discriminate].
    exists mid. split; [reflexivity|].
    eapply (of_pairs_values (fun v => v <> "")); [|exact Hg].
    apply chosen_pairs_ids. }
  split; [now rewrite Hsame|]. split; [exact Hin|]. split; [reflexivity|].
  intros Hm. apply Hlow. now apply Hmems.
Qed.

Lemma refresh_leaves_consistent_dropdown_witness :
  exists bc' i',
    update_build_config None (answering mixed_payload) empty_config
      (JBool true) (Some "refresh_now") idle = (Ok bc', i')
    /\ field_attr bc' "model_name" "options" = Some (strs ["Alpha"; "beta"])
    /\ keys (_name_to_id i') = ["Alpha"; "beta"]
    /\ field_attr bc' "model_name" "value" = Some (JStr "Alpha")
    /\ field_attr bc' "refresh_now" "value" = Some (JBool false).
Proof.
  destruct (refresh_leaves_consistent_dropdown None (answering mixed_payload)
              empty_config (JBool true) (Some "refresh_now") idle "http://h"
              eq_refl eq_refl eq_refl)
    as (bc' & i' & names & selected & Hrun & Hopts & Hkeys & _ & _ & Hval & _
        & _ & Hlow).
  exists bc', i'. split; [exact Hrun|].
  assert (Hc : update_build_config None (answering mixed_payload) empty_config
                 (JBool true) (Some "refresh_now") idle
               = (Ok (fst (bc', i')), snd (bc', i'))) by exact Hrun.
  vm_compute in Hc. injection Hc as Hbc Hi.
  rewrite <- Hbc, <- Hi. repeat split; reflexivity.
Defined.

(** X3: once a refresh has gone through, a later update for a field that
    is not one of the three triggers neither contacts the backend nor
    touches the configuration or the instance, provided the selection is
    not the placeholder label that asks for a refresh. *)
Theorem settled_dropdown_not_refetched :
  forall (COE_BACKEND_URL : option string)
         (urlopen : list request -> request -> result json)
         bc field_value field_name i base bc' i',
    refresh_base COE_BACKEND_URL bc field_value field_name = Ok base ->
    should_refresh i bc field_name = true ->
    mem bc "model_name" = true ->
    update_build_config COE_BACKEND_URL urlopen bc field_value field_name i
    = (Ok bc', i') ->
    forall later_value later_name later_base,
      is_trigger later_name = false ->
      refresh_base COE_BACKEND_URL bc' later_value later_name
      = Ok later_base ->
      eq_str (current_value bc') "(click Refresh models now)" = false ->
      update_build_config COE_BACKEND_URL urlopen bc' later_value later_name i'
      = (Ok bc', i')
      /\ calls i' = calls (snd (_fetch_models urlopen base i)).
Proof.
  intros COE urlopen bc fv fn i base bc' i' Hbase Hrefresh Hmem Hrun
    fv2 fn2 base2 Htrig Hbase2 Hplace.
  destruct (update_build_config_stages COE urlopen bc fv fn i base Hbase
              Hrefresh Hmem) as (bc1 & bc'' & Hstore & Htoggle & _ & Hrun').
  rewrite Hrun in Hrun'. injection Hrun' as -> ->.
  set (r := _fetch_models urlopen base i) in *.
  destruct (store_names_ok bc (current_value bc) (chosen_names (fst r)) Hmem
              (chosen_names_nonempty _)) as (bc1' & Hstore' & Hopts & _).
  rewrite Hstore in Hstore'. injection Hstore' as <-.
  destruct (lower_toggle_ok bc1) as (bc3 & Htoggle' & Hsame).
  rewrite Htoggle in Htoggle'. injection Htoggle' as <-.
  split; [|reflexivity].
  assert (Hno : should_refresh
                  (with_did_initial_fetch true
                     (with_name_to_id (of_pairs (chosen_pairs (fst r))) (snd r)))
                  bc'' fn2 = false).
  { unfold should_refresh, current_options. unfold is_trigger in Htrig.
    rewrite Htrig, Hplace, Hsame, Hopts. simpl.
    pose proof (chosen_names_nonempty (fst r)) as Hne.
    destruct (chosen_names (fst r)); [congruence | reflexivity]. }
  unfold update_build_config, bind, lift, gets. rewrite Hbase2, Hno.
  reflexivity.
Qed.

Lemma settled_dropdown_not_refetched_witness :
  exists bc' i',
    update_build_config None (answering mixed_payload) empty_config
      (JBool true) (Some "refresh_now") idle = (Ok bc', i')
    /\ update_build_config None (answering mixed_payload) bc'
         (JStr "be brief") (Some "prompt") i' = (Ok bc', i')
    /\ calls i' = [GET "http://h/v1/models"].
Proof.
  eexists _, _. split; [vm_compute; reflexivity|].
  refine (settled_dropdown_not_refetched None (answering mixed_payload)
            empty_config (JBool true) (Some "refresh_now") idle "http://h"
            _ _ eq_refl eq_refl eq_refl eq_refl
            (JStr "be brief") (Some "prompt") "http://h"
            eq_refl eq_refl eq_refl).
Defined.

(** *** The identifier output and the identifier sent *)

Lemma resolve_model_agrees d name :
  resolve_model d name = match get d name with Some v => v | None => "" end
  <-> match get d name with Some v => v | None => "" end <> "".
Proof.
  unfold resolve_model. cbn [_fallback_pairs snd].
  destruct (String.eqb_spec
              (match get d name with Some v => v | None => "" end) "")
    as [E|E].
  - rewrite E. cbn. split; [discriminate | congruence].
  - destruct (String.eqb_spec
                (match get d name with Some v => v | None => "" end) "");
      [contradiction|]. split; auto.
Qed.

(** X4: the identifier [get_model_id] hands out and the [model] field of
    the requests [run_text] posts are the same exactly when
    [get_model_id] is not the empty string: for a label the map resolves
    both are its identifier, otherwise the request carries
    the first fallback identifier and the output stays empty. *)
Theorem model_id_output_matches_request_iff_resolved :
  forall (COE_BACKEND_URL : option string)
         (urlopen : list request -> request -> result json)
         (tools : list json) i,
    _last_text i = None ->
    exists new,
      calls (snd (run_text COE_BACKEND_URL urlopen tools i))
      = (calls i ++ new)%list
      /\ new <> []
      /\ Forall (fun r =>
                   is_post r = true
                   /\ (model_field r = Some (JStr (get_model_id i))
                       <-> get_model_id i <> "")) new.
Proof.
  intros COE urlopen tools i Hfresh.
  destruct (run_text_model_field COE urlopen tools i Hfresh)
    as (new & Hcalls & Hne & Hall).
  exists new. repeat split; auto.
  eapply Forall_impl; [|exact Hall].
  intros r [Hpost Hmodel]. split; [exact Hpost|].
  rewrite Hmodel. unfold get_model_id.
  rewrite <- resolve_model_agrees. split; congruence.
Qed.

Lemma model_id_output_matches_request_iff_resolved_witness :
  get_model_id (knowing_alpha " Alpha ") = "a-1"
  /\ exists new,
      calls (snd (run_text None (answering hello) [] (knowing_alpha " Alpha ")))
      = new
      /\ Forall (fun r => model_field r = Some (JStr "a-1")) new.
Proof.
  split; [reflexivity|].
  destruct (model_id_output_matches_request_iff_resolved None (answering hello)
              [] (knowing_alpha " Alpha ") eq_refl)
    as (new & Hcalls & _ & Hall).
  exists new. split; [exact Hcalls|].
  eapply Forall_impl; [|exact Hall].
  intros r [_ H]. apply H. discriminate.
Defined.

(** *** The tool descriptors *)

Section Descriptors.
Import CoEModelPickerTools.

Lemma descriptor_named t x :
  descriptor t = Some x -> lc_name t <> "" /\ function_descriptor x.
Proof.
  unfold descriptor. destruct (String.eqb_spec (lc_name t) ""); [discriminate|].
  intros [= <-]. split; [assumption|].
  exists (lc_name t), (lc_description t), (schema_of t). auto.
Qed.

Lemma build_tools_payload_nonempty toolkit :
  _build_tools_payload toolkit <> []
  <-> exists ts t, toolkit = Ok ts /\ In t ts /\ lc_name t <> "".
Proof.
  destruct toolkit as [ts|e]; simpl.
  - split.
    + intros Hne. destruct (filter_map descriptor ts) as [|x l] eqn:E;
        [congruence|].
      assert (Hin : In x (filter_map descriptor ts)) by (rewrite E; now left).
      apply filter_map_In in Hin as (t & Hin & Hd).
      apply descriptor_named in Hd as [Hn _]. eauto.
    + intros (ts' & t & [= <-] & Hin & Hn) E.
      assert (Hd : descriptor t
                   = Some (JDict [("type", JStr "function");
                                  ("function",
                                   JDict [("name", JStr (lc_name t));
                                          ("description", JStr (lc_description t));
                                          ("parameters", schema_of t)])])).
      { unfold descriptor. destruct (String.eqb_spec (lc_name t) "");
          [contradiction | reflexivity]. }
      assert (Hx : In _ (filter_map descriptor ts))
        by (apply filter_map_In; eauto).
      rewrite E in Hx. destruct Hx.
  - split; [congruence | intros (? & ? & [=] & _)].
Qed.

Lemma build_tools_payload_shape toolkit :
  Forall function_descriptor (_build_tools_payload toolkit).
Proof.
  destruct toolkit as [ts|e]; simpl; [|constructor].
  apply Forall_forall. intros x Hin.
  apply filter_map_In in Hin as (t & _ & Hd).
  now apply descriptor_named in Hd.
Qed.

End Descriptors.

(** X5: the body of the chat request has a [tools] field exactly when
    tools are enabled and the toolkit returned at least one tool with a
    non-empty name (a toolkit that raises counts as none); the field then
    holds a non-empty list of function descriptors with non-empty names.
    The [tool_choice] field is present exactly when [tools] is and the
    automatic choice is switched on, and is then ["auto"]. *)
Theorem tools_field_only_when_enabled_and_named :
  forall (toolkit : result (list CoEModelPickerTools.lc_tool))
         d chat prompt name enable_tools tool_choice_auto,
    exists body,
      chat_payload (CoEModelPickerTools._build_tools_payload toolkit)
        d chat prompt name enable_tools tool_choice_auto = JDict body
      /\ (mem body "tools" = true
          <-> enable_tools = true
              /\ exists ts t, toolkit = Ok ts /\ In t ts
                              /\ CoEModelPickerTools.lc_name t <> "")
      /\ (forall v, get body "tools" = Some v ->
            exists ds, v = JList ds /\ ds <> []
                       /\ Forall function_descriptor ds)
      /\ (mem body "tool_choice" = true
          <-> mem body "tools" = true /\ tool_choice_auto = true)
      /\ (forall v, get body "tool_choice" = Some v -> v = JStr "auto").
Proof.
  intros toolkit d chat prompt name et tca.
  pose proof (build_tools_payload_nonempty toolkit) as Hne.
  pose proof (build_tools_payload_shape toolkit) as Hshape.
  unfold chat_payload.
  destruct et;
    [destruct (CoEModelPickerTools._build_tools_payload toolkit) as [|x l];
     [|destruct tca]|];
    eexists; (split; [reflexivity|]); cbn.
  - repeat split; try discriminate.
    + intros [_ H]. apply Hne in H. congruence.
    + intros [H _]. discriminate H.
  - repeat split; auto; try discriminate.
    + apply Hne. discriminate.
    + intros v [= <-]. exists (x :: l). repeat split; auto. discriminate.
    + intros v [= <-]. reflexivity.
  - repeat split; auto; try discriminate.
    + apply Hne. discriminate.
    + intros v [= <-]. exists (x :: l). repeat split; auto. discriminate.
    + intros [_ H]. discriminate H.
  - repeat split; try discriminate.
    + intros [H _]. discriminate H.
    + intros [H _]. discriminate H.
Qed.

(** *** The substituted host *)

(** X6: the base [_linux_fallback] returns never mentions
    [host.docker.internal]; it is its argument exactly when the argument
    does not mention that host, so a second substitution changes
    nothing. *)
Theorem linux_fallback_removes_container_host :
  forall base,
    contains "host.docker.internal" (_linux_fallback base) = false
    /\ (_linux_fallback base = base
        <-> contains "host.docker.internal" base = false)
    /\ _linux_fallback (_linux_fallback base) = _linux_fallback base.
Proof.
  intros base.
  assert (Hgone : contains "host.docker.internal" (_linux_fallback base)
                  = false).
  { unfold _linux_fallback.
    destruct (contains "host.docker.internal" base) eqn:E;
      [apply replace_host_gone | exact E]. }
  split; [exact Hgone|]. split.
  - split.
    + intros H. now rewrite <- H.
    + intros H. unfold _linux_fallback. now rewrite H.
  - unfold _linux_fallback at 1. now rewrite Hgone.
Qed.

(** *** A configuration without the dropdown *)

Lemma store_names_missing bc cur names :
  mem bc "model_name" = false -> store_names bc cur names = Raise KeyError.
Proof.
  unfold mem, store_names, set_attr.
  destruct (get bc "model_name"); [discriminate | reflexivity].
Qed.

Lemma should_refresh_missing i bc fn :
  mem bc "model_name" = false -> should_refresh i bc fn = true.
Proof.
  unfold mem, should_refresh, current_options, field_attr.
  destruct (get bc "model_name"); [discriminate|]. intros _. simpl.
  now rewrite !orb_true_r.
Qed.

(** X7: for a configuration that lacks the [model_name] field, every
    update whose base can be read is a refresh that ends in a [KeyError]:
    the store into the missing field raises in the [try] block and again
    in its handler.  By then the backend has been asked, the name-to-id
    map has been replaced by the fallback map, and the instance is still
    not marked as fetched if it was not. *)
Theorem missing_dropdown_raises_key_error :
  forall (COE_BACKEND_URL : option string)
         (urlopen : list request -> request -> result json)
         bc field_value field_name i base,
    refresh_base COE_BACKEND_URL bc field_value field_name = Ok base ->
    mem bc "model_name" = false ->
    exists i',
      update_build_config COE_BACKEND_URL urlopen bc field_value field_name i
      = (Raise KeyError, i')
      /\ _name_to_id i' = of_pairs _fallback_pairs
      /\ _did_initial_fetch i' = _did_initial_fetch i
      /\ calls i' = calls (snd (_fetch_models urlopen base i))
      /\ calls i' <> calls i.
Proof.
  intros COE urlopen bc fv fn i base Hbase Hmem.
  unfold update_build_config, bind, lift, gets.
  rewrite Hbase, (should_refresh_missing i bc fn Hmem).
  unfold try_except, bind, use_fallback, bind, modify, lift, gets.
  assert (Hdid : _did_initial_fetch (snd (_fetch_models urlopen base i))
                 = _did_initial_fetch i
                 /\ calls (snd (_fetch_models urlopen base i)) <> calls i).
  { rewrite fetch_models_run. cbv zeta.
    assert (Hgrow : forall (l : list request) r, (l ++ [r])%list <> l).
    { intros l r E. apply (f_equal (@List.length _)) in E.
      rewrite length_app in E. simpl in E. lia. }
    assert (Hgrow2 : forall (l : list request) r r',
               ((l ++ [r]) ++ [r'])%list <> l).
    { intros l r r' E. apply (f_equal (@List.length _)) in E.
      rewrite !length_app in E. simpl in E. lia. }
    destruct (urlopen (calls i) (GET (base ++ "/v1/models"))) as [p|e];
      [|destruct (transport_classes e)]; simpl; split; auto. }
  destruct Hdid as [Hdid Hcalls].
  destruct (_fetch_models urlopen base i) as [[[|p ps]|e] i1];
    cbn [fst snd] in *; cbv beta iota;
    rewrite ?(store_names_missing bc _ _ Hmem); cbn [any_Exception];
    cbv beta iota; rewrite ?(store_names_missing bc _ _ Hmem);
    eexists; (split; [reflexivity|]); simpl; auto.
Qed.

Lemma missing_dropdown_raises_key_error_witness :
  exists i',
    update_build_config None (answering mixed_payload)
      [("backend_url", [("value", JStr "http://h/")])]
      (JStr "be brief") (Some "prompt") idle
    = (Raise KeyError, i')
    /\ _did_initial_fetch i' = false
    /\ calls i' = [GET "http://h/v1/models"].
Proof.
  destruct (missing_dropdown_raises_key_error None (answering mixed_payload)
              [("backend_url", [("value", JStr "http://h/")])]
              (JStr "be brief") (Some "prompt") idle "http://h"
              eq_refl eq_refl) as (i' & Hrun & _ & Hdid & Hcalls & _).
  exists i'. repeat split; assumption.
Defined.
End CoEModelPickerMore.

(** ** More on the tool invoker *)

Module ToolInvokerMore.
Import PyStr PyDict Json Py PyOps PyFacts StrFacts ToolInvoker
  InvokerScenarios MoreInvokerScenarios ToolInvokerSpec.
Local Open Scope py_scope.

Lemma effective_method_known i : In (effective_method i) methods.
Proof.
  unfold effective_method. cbv zeta.
  destruct (force_get_query i); [now left|].
  destruct (existsb _ _) eqn:E; [|right; now left].
  apply existsb_exists in E as (m & Hin & Heq).
  apply String.eqb_eq in Heq. now rewrite Heq.
Qed.

Lemma effective_method_forced i :
  force_get_query i = true -> effective_method i = "GET".
Proof. unfold effective_method. now intros ->. Qed.

Section Core.
Variable json_loads : string -> json + string.
Variable send : list request -> request -> outcome.

(** The two ways [_invoke_core] goes: to its call, with the method, the
    URL and the payload it has made, or back at once. *)
Lemma invoke_core_shape i :
  (exists out,
      _invoke_core json_loads send i = (out, i)
      /\ forall sel base_url url_path, ~ ready json_loads i sel base_url url_path)
  \/ exists sel base_url url_path input_part params_part,
       ready json_loads i sel base_url url_path
       /\ input_part
          = (if String.eqb (strip (user_text i)) "" then []
             else [("input", JStr (user_text i))])
       /\ ((strip (params_json i) = "" /\ params_part = [])
           \/ exists v, strip (params_json i) <> ""
                        /\ json_loads (strip (params_json i)) = inl v
                        /\ params_part = [("params", v)])
       /\ _invoke_core json_loads send i
          = (let run :=
               call_and_report send (effective_method i)
                 (_join_url base_url url_path "/tools")
                 (JDict (input_part ++ params_part)) (tool_of sel) i in
             (match fst run with
              | Ok text => Ok (text, or_else (tool_of sel) (JStr ""))
              | Raise e => Raise e
              end, snd run)).
Proof.
  unfold _invoke_core, bind, gets, lift, ret. cbv beta.
  destruct (_extract_selection json_loads (selection_json i)) as [sel|err]
    eqn:Hsel; cbv beta iota.
  2:{ left. eexists. split; [reflexivity|].
      intros ? ? ? (H & _). congruence. }
  destruct (stripped_field sel "base_url") as [b|e] eqn:Hb; cbv beta iota.
  2:{ left. eexists. split; [reflexivity|].
      intros ? ? ? (H1 & H2 & _). congruence. }
  destruct (stripped_field sel "url_path") as [p|e] eqn:Hp; cbv beta iota.
  2:{ left. eexists. split; [reflexivity|].
      intros ? ? ? (H1 & H2 & H3 & _). congruence. }
  destruct (String.eqb_spec b "") as [Eb|Eb]; cbn [orb]; cbv beta iota.
  { left. eexists. split; [reflexivity|].
    intros ? ? ? (H1 & H2 & H3 & H4 & _). congruence. }
  destruct (String.eqb_spec p "") as [Ep|Ep]; cbv beta iota.
  { left. eexists. split; [reflexivity|].
    intros ? ? ? (H1 & H2 & H3 & H4 & H5 & _). congruence. }
  fold (user_text i). fold (tool_of sel).
  destruct (String.eqb_spec (strip (params_json i)) "") as [Er|Er];
    cbv beta iota.
  - right. exists sel, b, p. eexists _, []. split.
    { repeat split; auto. }
    split; [reflexivity|]. split; [left; auto|].
    rewrite app_nil_r.
    destruct (call_and_report _ _ _ _ _ _) as [[text|e] i']; reflexivity.
  - destruct (json_loads (strip (params_json i))) as [v|e] eqn:Hv;
      cbv beta iota.
    + right. exists sel, b, p. eexists _, [("params", v)]. split.
      { repeat split; eauto. }
      split; [reflexivity|]. split; [right; eauto|].
      assert (Hset : forall d : dict json,
                 d = (if String.eqb (strip (user_text i)) "" then []
                      else [("input", JStr (user_text i))]) ->
                 set d "params" v = (d ++ [("params", v)])%list).
      { intros d ->. destruct (String.eqb _ ""); reflexivity. }
      rewrite (Hset _ eq_refl).
      destruct (call_and_report _ _ _ _ _ _) as [[text|e] i']; reflexivity.
    + left. eexists. split; [reflexivity|].
      intros ? ? ? (H1 & H2 & H3 & H4 & H5 & [H6|[v H6]]); congruence.
Qed.

End Core.


Section Requests.
Variable json_loads : string -> json + string.
Variable send : list request -> request -> outcome.

(** What the closing [try] statement sends. *)
Lemma call_and_report_requests method url payload tool i :
  let first := mk_request method url payload in
  let second := mk_request method (url ++ "/") payload in
  exists text new,
    call_and_report send method url payload tool i
    = (Ok text,
       mk_instance (selection_json i) (user_input i) (params_json i)
         (method_override i) (force_get_query i) (sent i ++ new)%list)
    /\ (new = [first]
        \/ (new = [first; second]
            /\ endswith url "/" = false
            /\ exists r, send (sent i) first = Responded r
                         /\ status_code r = 404%Z)).
Proof.
  intros first second. rewrite call_and_report_run. cbv zeta.
  fold first. fold second. unfold with_sent.
  destruct (send (sent i) first) as [r|detail] eqn:Hsend.
  - destruct (is_error_status (status_code r)); cbn [negb].
    + destruct (Z.eqb_spec (status_code r) 404) as [E|E]; cbn [andb].
      * destruct (endswith url "/") eqn:Hend; cbn [negb].
        -- eexists _, [first]. split; [reflexivity | now left].
        -- eexists _, [first; second]. cbn [sent]. rewrite <- app_assoc.
           split; [reflexivity|]. right. eauto.
      * eexists _, [first]. split; [reflexivity | now left].
    + eexists _, [first]. split; [reflexivity | now left].
  - eexists _, [first]. split; [reflexivity | now left].
Qed.

End Requests.

(** X8: whatever the inputs and the network, [_invoke_core] hands at
    most two requests to the HTTP library and changes nothing else of
    the instance.  Every request carries the effective method, which is
    one of GET, POST, PUT, PATCH and DELETE, and GET when
    [force_get_query] is set.  When there are two, the second repeats the
    first with a slash appended to its URL, the first URL did not end in
    a slash, and the first was answered with status 404. *)
Theorem invoke_core_request_discipline :
  forall (json_loads : string -> json + string)
         (send : list request -> request -> outcome) i,
    exists new,
      snd (_invoke_core json_loads send i)
      = mk_instance (selection_json i) (user_input i) (params_json i)
          (method_override i) (force_get_query i) (sent i ++ new)%list
      /\ List.length new <= 2
      /\ Forall (fun r => req_method r = effective_method i
                          /\ In (req_method r) methods
                          /\ (if force_get_query i
                              then String.eqb (req_method r) "GET"
                              else true) = true) new
      /\ match new with
         | [a; b] =>
             req_url b = req_url a ++ "/"
             /\ req_payload b = req_payload a
             /\ endswith (req_url a) "/" = false
             /\ exists r, send (sent i) a = Responded r
                          /\ status_code r = 404%Z
         | _ => True
         end.
Proof.
  intros json_loads send i.
  assert (Hm : effective_method i = effective_method i
               /\ In (effective_method i) methods
               /\ (if force_get_query i
                   then String.eqb (effective_method i) "GET"
                   else true) = true).
  { split; [reflexivity|]. split; [apply effective_method_known|].
    destruct (force_get_query i) eqn:E; [|reflexivity].
    now rewrite effective_method_forced. }
  destruct (invoke_core_shape json_loads send i)
    as [(out & Hrun & _)
       |(sel & b & p & ip & pp & _ & _ & _ & Hrun)].
  - exists []. rewrite Hrun, app_nil_r. cbn [snd]. destruct i.
    repeat split; simpl; auto.
  - rewrite Hrun. cbv zeta. cbn [snd].
    destruct (call_and_report_requests send (effective_method i)
                (_join_url b p "/tools") (JDict (ip ++ pp)) (tool_of sel) i)
      as (text & new & Hcall & Hnew).
    rewrite Hcall. cbn [snd]. exists new. split; [reflexivity|].
    destruct Hnew as [->|(-> & Hend & r & Hsend & H404)].
    + repeat split; simpl; auto.
    + repeat split; simpl; eauto.
Qed.





(** X11: when the selection is an object that holds under [base_url]
    or [url_path] a value that is not a string (a number, a boolean,
    [null], a list or an object), [_invoke_core] raises [AttributeError]
    at once: no request is made and the instance is left as it was,
    whatever the user's text, the parameters, the method and the network
    are. *)
Theorem non_string_base_or_path_raises :
  forall (json_loads : string -> json + string)
         (send : list request -> request -> outcome) i sel,
    _extract_selection json_loads (selection_json i) = inl sel ->
    (not_a_str sel "base_url" || not_a_str sel "url_path")%bool = true ->
    _invoke_core json_loads send i = (Raise AttributeError, i).
Proof.
  intros json_loads send i sel Hsel Hnot.
  assert (Hs : forall k,
             match stripped_field sel k with
             | Ok _ => not_a_str sel k = false
             | Raise e => e = AttributeError
             end).
  { intros k. unfold stripped_field, not_a_str.
    destruct (get sel k) as [[]|]; auto. }
  unfold _invoke_core, bind, gets, lift, ret. cbv beta.
  rewrite Hsel. cbv beta iota.
  pose proof (Hs "base_url") as Hb. pose proof (Hs "url_path") as Hp.
  destruct (stripped_field sel "base_url") as [b|e]; cbv beta iota;
    [|now rewrite Hb].
  destruct (stripped_field sel "url_path") as [p|e]; cbv beta iota;
    [|now rewrite Hp].
  rewrite Hb, Hp in Hnot. discriminate Hnot.
Qed.

Lemma non_string_base_or_path_raises_witness :
  _invoke_core nothing_to_decode slash_only numeric_base
  = (Raise AttributeError, numeric_base).
Proof.
  exact (non_string_base_or_path_raises nothing_to_decode slash_only
           numeric_base
           [("name", JStr "sub"); ("url_path", JStr "/sub");
            ("base_url", JInt 8000)] eq_refl eq_refl).
Defined.

(** X23: whenever [_invoke_core] returns, with or without having made
    a request, the identifier it returns beside the text is, as a
    string, what [run_model_id] returns for the same inputs. *)
Theorem model_id_agrees_with_invoke_core :
  forall (json_loads : string -> json + string)
         (send : list request -> request -> outcome) i text mid,
    fst (_invoke_core json_loads send i) = Ok (text, mid) ->
    ToolInvokerOutputs.run_model_id json_loads i = py_str mid.
Proof.
  intros json_loads send i text mid.
  unfold ToolInvokerOutputs.run_model_id, _invoke_core, bind, gets, lift, ret.
  cbv beta.
  destruct (_extract_selection json_loads (selection_json i)) as [sel|err];
    cbv beta iota.
  2:{ cbn [fst]. now intros [= _ <-]. }
  destruct (stripped_field sel "base_url") as [b|e]; cbv beta iota;
    [|discriminate].
  destruct (stripped_field sel "url_path") as [p|e]; cbv beta iota;
    [|discriminate].
  destruct (String.eqb b "" || String.eqb p "")%bool; cbv beta iota.
  { cbn [fst]. now intros [= _ <-]. }
  destruct (if String.eqb (strip (params_json i)) "" then _ else _);
    cbv beta iota.
  2:{ cbn [fst]. now intros [= _ <-]. }
  destruct (call_and_report_requests send (effective_method i)
              (_join_url b p "/tools") (JDict d)
              (match get sel "name" with Some v => v | None => JStr "" end) i)
    as (text' & new & Hcall & _).
  rewrite Hcall. cbn [fst]. now intros [= _ <-].
Qed.

Lemma model_id_agrees_with_invoke_core_witness :
  ToolInvokerOutputs.run_model_id nothing_to_decode
    (invoking "http://h/" "/sub") = "sub".
Proof.
  refine (model_id_agrees_with_invoke_core nothing_to_decode slash_only
            (invoking "http://h/" "/sub") _ (JStr "sub") _).
  vm_compute. reflexivity.
Defined.
End ToolInvokerMore.

(** ** More on the router *)

Module ToolPickerRouterMore.
Import PyStr PyDict Json Py PyOps PyFacts ToolPickerRouter
  ToolPickerRouterOutputs RouterScenarios MoreRouterScenarios
  ToolPickerRouterSpec.

Lemma set_same {V} (d : dict V) k v : get d k = Some v -> set d k v = d.
Proof.
  induction d as [|[k' v'] d IH]; simpl; [discriminate|].
  destruct (String.eqb k' k); [now intros [= ->] | intros H; now rewrite IH].
Qed.

(** Storing what is already there changes nothing. *)
Lemma try_set_attr_noop (bc : build_config) f k v :
  field_attr bc f k = Some v -> try_set_attr bc f k v = bc.
Proof.
  unfold field_attr, try_set_attr, set_attr.
  destruct (get bc f) as [d|] eqn:E; [|discriminate].
  intros H. rewrite (set_same d k v H). now rewrite set_same.
Qed.

Lemma try_set_attr_missing (bc : build_config) f k v :
  mem bc f = false -> try_set_attr bc f k v = bc.
Proof.
  unfold mem, try_set_attr, set_attr. now destruct (get bc f).
Qed.

Lemma default_value_In ks : ks <> [] -> In (default_value ks) ks.
Proof.
  intros Hne. unfold default_value.
  destruct (existsb (String.eqb "name") ks) eqn:E.
  - apply existsb_exists in E as (k & Hin & Hk).
    apply String.eqb_eq in Hk. now subst k.
  - destruct ks; [congruence | now left].
Qed.

Lemma in_strs_true v ks : In v ks -> in_strs (JStr v) ks = true.
Proof.
  intros Hin. apply existsb_exists. exists v. split; [exact Hin|].
  apply String.eqb_refl.
Qed.

Lemma in_strs_str v ks :
  in_strs v ks = true -> exists s, v = JStr s /\ In s ks.
Proof.
  unfold in_strs. intros H. apply existsb_exists in H as (s & Hin & Heq).
  destruct v; try discriminate Heq. simpl in Heq.
  apply String.eqb_eq in Heq. subst. eauto.
Qed.

Lemma previous_kept bc :
  truthy (previous bc) = true ->
  field_attr bc "key_for_prompt" "value" = Some (previous bc).
Proof.
  unfold previous, or_else.
  destruct (field_attr bc "key_for_prompt" "value") as [v|]; simpl.
  - destruct (truthy v) eqn:E; [reflexivity | discriminate].
  - discriminate.
Qed.

Section Update.
Variable json_loads : string -> json + string.

Lemma update_build_config_run bc fv fn :
  update_build_config json_loads bc fv fn =
  let ks := shown_keys json_loads (candidate_of bc fv fn) in
  let bc1 := try_set_attr bc "key_for_prompt" "options" (strs ks) in
  if (negb (truthy (previous bc)) || negb (in_strs (previous bc) ks))%bool
  then try_set_attr bc1 "key_for_prompt" "value" (JStr (default_value ks))
  else bc1.
Proof.
  unfold update_build_config. cbv zeta.
  fold (previous (try_set_attr bc "key_for_prompt" "options"
                    (strs (shown_keys json_loads (candidate_of bc fv fn))))).
  assert (Hprev :
    previous (try_set_attr bc "key_for_prompt" "options"
                (strs (shown_keys json_loads (candidate_of bc fv fn))))
    = previous bc).
  { unfold previous. rewrite try_set_attr_other; [reflexivity|].
    right. discriminate. }
  now rewrite Hprev.
Qed.

Lemma candidate_of_update bc fv fn fv' fn' :
  candidate_of (update_build_config json_loads bc fv fn) fv' fn'
  = candidate_of bc fv' fn'.
Proof.
  rewrite update_build_config_run. cbv zeta. unfold candidate_of.
  assert (H : forall bc0 k v,
             field_attr (try_set_attr bc0 "key_for_prompt" k v)
               "tool_message" "value"
             = field_attr bc0 "tool_message" "value").
  { intros. apply try_set_attr_other. left. discriminate. }
  destruct (negb (truthy (previous bc)) || _)%bool; now rewrite !H.
Qed.

(** What an update leaves in the dropdown. *)
Lemma update_build_config_selection bc fv fn :
  mem bc "key_for_prompt" = true ->
  let ks := shown_keys json_loads (candidate_of bc fv fn) in
  let bc' := update_build_config json_loads bc fv fn in
  field_attr bc' "key_for_prompt" "options" = Some (strs ks)
  /\ exists v, field_attr bc' "key_for_prompt" "value" = Some (JStr v)
               /\ In v ks /\ (v = default_value ks \/ v <> "").
Proof.
  intros Hmem ks bc'. subst bc'. rewrite update_build_config_run. fold ks.
  cbv zeta.
  assert (Hmem1 : mem (try_set_attr bc "key_for_prompt" "options" (strs ks))
                    "key_for_prompt" = true) by now apply try_set_attr_mem.
  destruct (truthy (previous bc)) eqn:Ht; cbn [negb orb].
  - destruct (in_strs (previous bc) ks) eqn:Hin; cbn [negb].
    + split; [now apply try_set_attr_same|].
      apply in_strs_str in Hin as (s & Hs & Hin). exists s. split.
      * rewrite try_set_attr_other by (right; discriminate).
        rewrite previous_kept by assumption. now rewrite Hs.
      * split; [exact Hin|]. right. intros ->. rewrite Hs in Ht.
        discriminate Ht.
    + split.
      * rewrite try_set_attr_other by (right; discriminate).
        now apply try_set_attr_same.
      * exists (default_value ks). split; [now apply try_set_attr_same|].
        split; [apply default_value_In, shown_keys_nonempty | now left].
  - split.
    + rewrite try_set_attr_other by (right; discriminate).
      now apply try_set_attr_same.
    + exists (default_value ks). split; [now apply try_set_attr_same|].
      split; [apply default_value_In, shown_keys_nonempty | now left].
Qed.

End Update.

(** X12: the router's [update_build_config] is idempotent: run again
    with the same arguments on the configuration it returned, it
    returns that configuration.  Without the [key_for_prompt] field it
    returns its argument; with it, the selection it leaves is a string
    among the options it leaves. *)
Theorem router_update_idempotent :
  forall (json_loads : string -> json + string) bc field_value field_name,
    let bc' := update_build_config json_loads bc field_value field_name in
    update_build_config json_loads bc' field_value field_name = bc'
    /\ (mem bc "key_for_prompt" = false -> bc' = bc)
    /\ (mem bc "key_for_prompt" = true ->
        exists ks v,
          field_attr bc' "key_for_prompt" "options" = Some (strs ks)
          /\ field_attr bc' "key_for_prompt" "value" = Some (JStr v)
          /\ In v ks).
Proof.
  intros json_loads bc fv fn bc'.
  assert (Hmissing : mem bc "key_for_prompt" = false -> bc' = bc).
  { intros Hm. subst bc'. rewrite update_build_config_run. cbv zeta.
    rewrite !(try_set_attr_missing bc) by assumption.
    destruct (negb _ || _)%bool; reflexivity. }
  split; [|split; [exact Hmissing|]].
  - destruct (mem bc "key_for_prompt") eqn:Hm.
    + destruct (update_build_config_selection json_loads bc fv fn Hm)
        as (Hopts & v & Hval & Hin & Hor).
      fold bc' in Hopts, Hval.
      assert (Hcand : candidate_of bc' fv fn = candidate_of bc fv fn)
        by apply candidate_of_update.
      rewrite update_build_config_run. cbv zeta. rewrite Hcand.
      rewrite (try_set_attr_noop bc' _ _ _ Hopts).
      assert (Hprev : previous bc' = or_else (JStr v) (JStr "")).
      { unfold previous. now rewrite Hval. }
      destruct (negb (truthy (previous bc')) || _)%bool eqn:Hc;
        [|reflexivity].
      assert (Hdv : v = default_value
                          (shown_keys json_loads (candidate_of bc fv fn))).
      { destruct Hor as [Hd|Hv]; [exact Hd|]. exfalso.
        assert (Ht : truthy (JStr v) = true).
        { cbn. destruct (String.eqb_spec v ""); [contradiction | reflexivity]. }
        rewrite Hprev in Hc. unfold or_else in Hc. rewrite !Ht in Hc.
        rewrite in_strs_true in Hc by assumption. discriminate. }
      apply try_set_attr_noop. now rewrite <- Hdv.
    + rewrite (Hmissing eq_refl).
      change (update_build_config json_loads bc fv fn) with bc'.
      now apply Hmissing.
  - intros Hm.
    destruct (update_build_config_selection json_loads bc fv fn Hm)
      as (Hopts & v & Hval & Hin & _).
    eauto.
Qed.


(** *** The outputs *)

Lemma nonblank_str_text txt :
  strip txt <> "" -> nonblank_str (JStr txt) = Some txt.
Proof.
  intros H. unfold nonblank_str.
  destruct (String.eqb_spec (strip txt) ""); [contradiction | reflexivity].
Qed.

Lemma nonblank_not_empty txt : strip txt <> "" -> txt <> "".
Proof. intros H ->. now apply H. Qed.

Lemma coerce_text json_loads txt data :
  strip txt <> "" ->
  _coerce_to_dict json_loads (WMessage (JStr txt) data)
  = loads_or_wrap json_loads txt
  /\ _coerce_to_dict json_loads (WPlain (JStr txt))
     = loads_or_wrap json_loads txt.
Proof.
  intros H. pose proof (nonblank_not_empty txt H) as Hne.
  unfold _coerce_to_dict, or_else. cbn [truthy].
  destruct (String.eqb_spec txt ""); [contradiction|]. cbn [negb].
  now rewrite (nonblank_str_text txt H).
Qed.

(** X13: a non-blank text that does not decode is offered in the
    dropdown under the single key [value], whether it arrives as a
    string or as the text of a serialized message, and the prompt output
    hands the text back unchanged for the key [value] and for an empty
    key, and the empty string for every other key. *)
Theorem undecodable_text_is_the_value :
  forall (json_loads : string -> json + string) txt detail data key,
    strip txt <> "" ->
    json_loads txt = inr detail ->
    _extract_json_keys_from_candidate json_loads (JStr txt) = ["value"]
    /\ (forall c, get_or_null c "text" = JStr txt ->
          _extract_json_keys_from_candidate json_loads (JDict c) = ["value"])
    /\ get_prompt_value_message json_loads
         (mk_instance (WMessage (JStr txt) data) "value") = Ok txt
    /\ get_prompt_value_message json_loads
         (mk_instance (WMessage (JStr txt) data) "") = Ok txt
    /\ (strip key <> "" -> strip key <> "value" ->
        get_prompt_value_message json_loads
          (mk_instance (WMessage (JStr txt) data) key) = Ok "").
Proof.
  intros json_loads txt detail data key Hblank Hloads.
  pose proof (nonblank_str_text txt Hblank) as Hnb.
  destruct (coerce_text json_loads txt data Hblank) as [Hco _].
  assert (Hwrap : loads_or_wrap json_loads txt = JDict [("value", JStr txt)]).
  { unfold loads_or_wrap. now rewrite Hloads. }
  split.
  { unfold _extract_json_keys_from_candidate. rewrite Hnb.
    unfold keys_of_text. now rewrite Hloads. }
  split.
  { intros c Hc. unfold _extract_json_keys_from_candidate. rewrite Hc, Hnb.
    unfold keys_of_text. now rewrite Hloads. }
  unfold get_prompt_value_message, coerced_keys, _field_str. cbn [tool_message
    key_for_prompt]. rewrite Hco, Hwrap.
  split; [reflexivity|]. split; [reflexivity|].
  intros Hk Hv.
  destruct (String.eqb_spec (strip key) ""); [contradiction|].
  cbn [get]. destruct (String.eqb_spec "value" (strip key)); [congruence|].
  reflexivity.
Qed.

Lemma undecodable_text_is_the_value_witness :
  _extract_json_keys_from_candidate scenario_loads (JStr "use the calculator")
  = ["value"]
  /\ get_prompt_value_message scenario_loads
       (wired_text "use the calculator" "") = Ok "use the calculator"
  /\ get_prompt_value_message scenario_loads
       (wired_text "use the calculator" "name") = Ok "".
Proof.
  destruct (undecodable_text_is_the_value scenario_loads "use the calculator"
              "Expecting value" JNull "name")
    as (Hkeys & _ & _ & Hempty & Hother); [discriminate | reflexivity |].
  split; [exact Hkeys|]. split; [exact Hempty|].
  apply Hother; discriminate.
Defined.

(** X14: a non-blank text that decodes to something other than an
    object (a list or a number, say) makes the prompt output raise
    [AttributeError] for every key, while the dropdown, given that text,
    offers the four fixed keys. *)
Theorem non_object_text_raises_in_output :
  forall (json_loads : string -> json + string) txt v data key,
    strip txt <> "" ->
    json_loads txt = inl v ->
    (forall d, v <> JDict d) ->
    get_prompt_value_message json_loads
      (mk_instance (WMessage (JStr txt) data) key) = Raise AttributeError
    /\ get_prompt_value_message json_loads
         (mk_instance (WPlain (JStr txt)) key) = Raise AttributeError
    /\ shown_keys json_loads (JStr txt) = fallback_keys.
Proof.
  intros json_loads txt v data key Hblank Hloads Hnot.
  pose proof (nonblank_str_text txt Hblank) as Hnb.
  destruct (coerce_text json_loads txt data Hblank) as [Hco Hco'].
  assert (Hwrap : loads_or_wrap json_loads txt = v).
  { unfold loads_or_wrap. now rewrite Hloads. }
  unfold get_prompt_value_message, coerced_keys, _field_str. cbn [tool_message
    key_for_prompt]. rewrite Hco, Hco', Hwrap.
  split; [|split].
  - destruct v; try (destruct (String.eqb _ ""); reflexivity).
    now destruct (Hnot fields).
  - destruct v; try (destruct (String.eqb _ ""); reflexivity).
    now destruct (Hnot fields).
  - unfold shown_keys, _extract_json_keys_from_candidate. rewrite Hnb.
    unfold keys_of_text. rewrite Hloads.
    destruct v; try reflexivity. now destruct (Hnot fields).
Qed.

Lemma non_object_text_raises_in_output_witness :
  get_prompt_value_message list_loads (wired_text "[1, 2]" "name")
  = Raise AttributeError
  /\ shown_keys list_loads (JStr "[1, 2]")
     = ["name"; "url_path"; "description"; "base_url"].
Proof.
  destruct (non_object_text_raises_in_output list_loads "[1, 2]"
              (JList [JInt 1; JInt 2]) JNull "name")
    as (Hout & _ & Hkeys); [discriminate | reflexivity | discriminate |].
  split; [exact Hout | exact Hkeys].
Defined.

Lemma field_str_object json_loads i d key :
  _coerce_to_dict json_loads (tool_message i) = JDict d ->
  exists s, _field_str json_loads i key = Ok s.
Proof.
  unfold _field_str. intros ->.
  destruct (get d key) as [[]|]; eauto.
Qed.

(** X20: the prompt output raises only [AttributeError], and only when
    the wired value carries a non-blank text that decodes to something
    other than an object; for every other input, whatever the key, it
    returns a text. *)
Theorem prompt_output_raises_only_for_non_object_text :
  forall (json_loads : string -> json + string) i e,
    get_prompt_value_message json_loads i = Raise e ->
    e = AttributeError
    /\ exists txt v,
         text_to_decode (tool_message i) = Some txt
         /\ json_loads txt = inl v
         /\ forall d, v <> JDict d.
Proof.
  intros json_loads i e Hraise.
  destruct (_coerce_to_dict json_loads (tool_message i)) as [| | | | |d] eqn:Hco.
  6:{ exfalso. revert Hraise. unfold get_prompt_value_message, coerced_keys.
      rewrite Hco. cbn [rbind].
      destruct (String.eqb (strip (key_for_prompt i)) "");
        [destruct (field_str_object json_loads i d (default_value (keys d)) Hco)
           as [s ->]
        |destruct (field_str_object json_loads i d (strip (key_for_prompt i)) Hco)
           as [s ->]]; discriminate. }
  all: assert (He : e = AttributeError)
         by (revert Hraise; unfold get_prompt_value_message, coerced_keys,
               _field_str; rewrite Hco; cbn [rbind];
             destruct (String.eqb (strip (key_for_prompt i)) "");
             now intros [= <-]);
       split; [exact He|];
       revert Hco; unfold _coerce_to_dict, text_to_decode;
       destruct (tool_message i) as [text data|w];
       [destruct (nonblank_str (or_else text (JStr ""))) as [txt|];
        [|destruct data; discriminate]
       |destruct w; try discriminate;
        match goal with
        | |- context [nonblank_str ?x] =>
            destruct (nonblank_str x) as [txt|]; [|discriminate]
        end];
       unfold loads_or_wrap; destruct (json_loads txt) as [v|err] eqn:Hv;
       try discriminate; intros ->; exists txt; eexists;
       (split; [reflexivity|]); (split; [exact Hv|]); discriminate.
Qed.

Lemma prompt_output_raises_only_for_non_object_text_witness :
  exists txt v,
    text_to_decode (tool_message (wired_text "[1, 2]" "name")) = Some txt
    /\ list_loads txt = inl v
    /\ v = JList [JInt 1; JInt 2].
Proof.
  destruct (prompt_output_raises_only_for_non_object_text list_loads
              (wired_text "[1, 2]" "name") AttributeError eq_refl)
    as (_ & txt & v & Htxt & Hv & _).
  exists txt, v. split; [exact Htxt|]. split; [exact Hv|].
  injection Htxt as <-. now injection Hv as <-.
Defined.
End ToolPickerRouterMore.

(** ** The tool picker *)

Module ToolPickerMore.
Import PyStr PyDict Json Py PyOps PyFacts StrFacts ToolPicker PickerScenarios.
Local Open Scope py_scope.

Lemma tool_of_item_inv item t :
  tool_of_item item = Some t ->
  label t <> ""
  /\ strip (tool_name t) = tool_name t
  /\ strip (tool_url_path t) = tool_url_path t
  /\ strip (tool_description t) = tool_description t.
Proof.
  unfold tool_of_item. destruct item as [| | | | |d]; try discriminate.
  destruct (String.eqb_spec (stripped d "name") "") as [En|En];
    destruct (String.eqb_spec (stripped d "url_path") "") as [Ep|Ep];
    cbn [andb]; try discriminate; intros [= <-]; unfold label;
    cbn [tool_name tool_url_path tool_description]; unfold stripped;
    rewrite !strip_idem; fold (stripped d "name"); fold (stripped d "url_path");
    (split; [|auto]).
  - rewrite En. cbn. exact Ep.
  - destruct (String.eqb_spec (stripped d "name") ""); congruence.
  - destruct (String.eqb_spec (stripped d "name") ""); congruence.
Qed.

Section Fetch.
Variable urlopen : list request -> request -> result json.

(** How [_fetch_tools] runs, by the outcome of the first GET. *)
Lemma fetch_tools_run base i :
  _fetch_tools urlopen base i =
  let url := base ++ "/tools" in
  let fb := _linux_fallback base ++ "/tools" in
  match urlopen (calls i) (GET url) with
  | Ok payload => (norm_of_payload payload, with_call (GET url) i)
  | Raise e =>
      if transport_classes e then
        (rbind (urlopen (calls i ++ [GET url])%list (GET fb)) norm_of_payload,
         with_call (GET fb) (with_call (GET url) i))
      else (Raise e, with_call (GET url) i)
  end.
Proof.
  unfold _fetch_tools, bind, try_except, _http_get_json, lift. simpl.
  destruct (urlopen (calls i) (GET (base ++ "/tools"))) as [payload|e].
  - reflexivity.
  - destruct (transport_classes e); [|reflexivity].
    simpl.
    destruct (urlopen _ (GET (_linux_fallback base ++ "/tools")));
      reflexivity.
Qed.

(** What [_fetch_tools] does to the instance: one or two requests,
    nothing else. *)
Lemma fetch_tools_state base i :
  exists new,
    snd (_fetch_tools urlopen base i)
    = mk_instance (_did_initial_fetch i) (_last_tools i) (backend_base_url i)
        (selected_tool i) (force_https i) (calls i ++ new)%list
    /\ (new = [GET (base ++ "/tools")]
        \/ new = [GET (base ++ "/tools");
                  GET (_linux_fallback base ++ "/tools")]).
Proof.
  rewrite fetch_tools_run. cbv zeta. unfold with_call.
  destruct (urlopen (calls i) (GET (base ++ "/tools"))) as [payload|e].
  - eexists. split; [reflexivity | now left].
  - destruct (transport_classes e).
    + eexists. cbn [snd calls]. rewrite <- app_assoc.
      split; [reflexivity | now right].
    + eexists. split; [reflexivity | now left].
Qed.

Lemma fetch_tools_payload base i tools i' :
  _fetch_tools urlopen base i = (Ok tools, i') ->
  exists seen url payload,
    calls i' = (seen ++ [GET url])%list
    /\ urlopen seen (GET url) = Ok payload
    /\ norm_of_payload payload = Ok tools.
Proof.
  rewrite fetch_tools_run. cbv zeta.
  destruct (urlopen (calls i) (GET (base ++ "/tools"))) as [payload|e] eqn:H1.
  - intros [= Hn <-]. exists (calls i), (base ++ "/tools"), payload. auto.
  - destruct (transport_classes e); [|discriminate].
    destruct (urlopen (calls i ++ [GET (base ++ "/tools")])%list
                (GET (_linux_fallback base ++ "/tools")))
      as [payload|e2] eqn:H2; [|discriminate].
    cbn [rbind]. intros [= Hn <-].
    exists (calls i ++ [GET (base ++ "/tools")])%list,
      (_linux_fallback base ++ "/tools"), payload. auto.
Qed.

End Fetch.

(** X15: every tool [_fetch_tools] returns has a non-empty label (its
    name, or its path when it has no name) and stripped fields; the list
    is in ascending order of the lowercased labels and is a
    rearrangement of the entries of the payload that are objects with a
    name or a path, read from the answer to the last request made. *)
Theorem fetch_tools_labelled_and_sorted :
  forall (urlopen : list request -> request -> result json) base i tools i',
    _fetch_tools urlopen base i = (Ok tools, i') ->
    Forall (fun t => label t <> ""
                     /\ strip (tool_name t) = tool_name t
                     /\ strip (tool_url_path t) = tool_url_path t
                     /\ strip (tool_description t) = tool_description t) tools
    /\ StronglySorted (key_le sort_key) tools
    /\ exists seen url payload items,
         calls i' = (seen ++ [GET url])%list
         /\ urlopen seen (GET url) = Ok payload
         /\ py_iter (tools_of_payload payload) = Ok items
         /\ Permutation (filter_map tool_of_item items) tools.
Proof.
  intros urlopen base i tools i' Hrun.
  destruct (fetch_tools_payload urlopen base i tools i' Hrun)
    as (seen & url & payload & Hcalls & Hopen & Hnorm).
  unfold norm_of_payload in Hnorm.
  destruct (py_iter (tools_of_payload payload)) as [items|e] eqn:Hit;
    [|discriminate].
  cbn [rbind] in Hnorm. injection Hnorm as <-.
  split; [|split].
  - apply Forall_forall. intros t Hin.
    eapply Permutation_in in Hin;
      [|apply Permutation_sym, sort_by_perm].
    apply filter_map_In in Hin as (item & _ & Hitem).
    eapply tool_of_item_inv; eauto.
  - apply sort_by_strongly_sorted.
  - exists seen, url, payload, items. repeat split; auto.
    apply sort_by_perm.
Qed.

Lemma fetch_tools_labelled_and_sorted_witness :
  exists tools i',
    _fetch_tools (serving tools_payload) "http://h" (picker "http://h" "")
    = (Ok tools, i')
    /\ map label tools = ["/echo"; "Calc"; "search"]
    /\ Forall (fun t => label t <> "") tools.
Proof.
  eexists _, _. split; [vm_compute; reflexivity|]. split; [reflexivity|].
  destruct (fetch_tools_labelled_and_sorted (serving tools_payload) "http://h"
              (picker "http://h" "") _ _ eq_refl) as [Hall _].
  eapply Forall_impl; [|exact Hall]. now intros t [H _].
Defined.


(** X16: [_pick_match] finds nothing only in an empty list.  What it
    returns is an entry of the list: the first entry that matches the
    trimmed selection by name or path, exactly or without regard to
    case, when the selection is not blank and some entry matches, and
    the first entry of the list otherwise. *)
Theorem pick_match_first_match_or_first :
  forall tools selected,
    let sel := strip selected in
    match _pick_match tools selected with
    | None => tools = []
    | Some t =>
        In t tools
        /\ (sel <> "" ->
            forall t', In t' tools -> matches sel t' = true ->
              matches sel t = true
              /\ exists before after,
                   tools = (before ++ t :: after)%list
                   /\ Forall (fun x => matches sel x = false) before)
        /\ (sel = "" \/ Forall (fun x => matches sel x = false) tools ->
            hd_error tools = Some t)
    end.
Proof.
  intros tools selected sel. unfold _pick_match. fold sel.
  destruct tools as [|first rest]; [reflexivity|].
  destruct (String.eqb_spec sel "") as [Es|Es].
  - split; [now left|]. split; [contradiction | reflexivity].
  - destruct (find (matches sel) (first :: rest)) as [t|] eqn:Hf.
    + pose proof (find_some _ _ Hf) as [Hin Hm].
      split; [exact Hin|]. split.
      * intros _ t' _ _. split; [exact Hm|].
        clear Hin. revert Hf. generalize (first :: rest) as l.
        induction l as [|x l IH]; [discriminate|]. cbn [find].
        destruct (matches sel x) eqn:Hx.
        -- intros [= ->]. exists [], l. split; [reflexivity | constructor].
        -- intros Hf. destruct (IH Hf) as (before & after & -> & Hall).
           exists (x :: before), after. split; [reflexivity|].
           now constructor.
      * intros [E|Hall]; [contradiction|].
        rewrite Forall_forall in Hall. rewrite (Hall t Hin) in Hm.
        discriminate.
    + split; [now left|]. split; [|reflexivity].
      intros _ t' Hin' Hm'.
      pose proof (find_none _ _ Hf t' Hin') as Hn. congruence.
Qed.

Lemma pick_match_first_match_or_first_witness :
  exists t,
    _pick_match [mk_tool "Calc" "/calc" ""; mk_tool "search" "/search" ""]
      " SEARCH " = Some t
    /\ matches "SEARCH" t = true
    /\ tool_url_path t = "/search".
Proof.
  pose proof (pick_match_first_match_or_first
                [mk_tool "Calc" "/calc" ""; mk_tool "search" "/search" ""]
                " SEARCH ") as H.
  cbv zeta in H.
  change (_pick_match
            [mk_tool "Calc" "/calc" ""; mk_tool "search" "/search" ""]
            " SEARCH ")
    with (Some (mk_tool "search" "/search" "")) in H.
  cbv beta iota in H. destruct H as (_ & Hfirst & _).
  exists (mk_tool "search" "/search" ""). split; [reflexivity|].
  split; [|reflexivity].
  apply (Hfirst ltac:(discriminate) (mk_tool "search" "/search" "")
           ltac:(right; now left) eq_refl).
Defined.


Lemma pick_match_member tools selected :
  tools <> [] ->
  exists t, _pick_match tools selected = Some t /\ In t tools.
Proof.
  intros Hne. unfold _pick_match.
  destruct tools as [|first rest]; [congruence|].
  destruct (String.eqb (strip selected) ""); [exists first; split; auto; now left|].
  destruct (find (matches (strip selected)) (first :: rest)) as [t|] eqn:Hf.
  - exists t. split; [reflexivity|]. now apply find_some in Hf.
  - exists first. split; [reflexivity | now left].
Qed.

(** X17: [_run] never raises.  It asks the backend only when the base
    is not empty and the cache of tools is: then with one GET of
    [base/tools], and a second one to the substituted host when the
    first fails in transport.  A cache that is not empty is answered
    from and left as it is; and whenever the base is not empty and the
    cache ends up with a tool, the text returned describes an entry of
    the cache, with [base/tools] as its [base_url]. *)
Theorem run_answers_from_cache :
  forall (urlopen : list request -> request -> result json)
         (exn_text : exn -> string) i,
    let base := run_base i in
    exists text cache new,
      _run urlopen exn_text i
      = (Ok text,
         mk_instance (_did_initial_fetch i) cache (backend_base_url i)
           (selected_tool i) (force_https i) (calls i ++ new)%list)
      /\ (new = []
          \/ new = [GET (base ++ "/tools")]
          \/ new = [GET (base ++ "/tools");
                    GET (_linux_fallback base ++ "/tools")])
      /\ (new <> [] <-> base <> "" /\ _last_tools i = [])
      /\ (_last_tools i <> [] -> cache = _last_tools i)
      /\ (base <> "" -> cache <> [] ->
          exists t, In t cache /\ text = picked_text base t).
Proof.
  intros urlopen exn_text i base.
  unfold _run, bind, gets, ret. cbv beta iota. fold (run_base i). fold base.
  destruct (String.eqb_spec base "") as [Eb|Eb].
  { eexists _, (_last_tools i), []. rewrite app_nil_r. destruct i.
    split; [reflexivity|]. split; [now left|]. split; [|split]; auto.
    - split; [congruence | intros [H _]; contradiction].
    - contradiction. }
  destruct (_last_tools i) as [|t0 ts] eqn:Hcache.
  - unfold try_except, bind, modify, ret. cbv beta iota.
    destruct (fetch_tools_state urlopen base i) as (new & Hstate & Hnew).
    assert (Hne : new <> []) by (destruct Hnew as [->| ->]; discriminate).
    destruct (_fetch_tools urlopen base i) as [[tools|e] i1]; cbn [snd] in Hstate;
      subst i1; cbv beta iota; cbn [any_Exception _last_tools with_last_tools].
    + destruct tools as [|t1 tl].
      * cbn [_pick_match]. eexists _, [], new.
        split; [reflexivity|]. split; [now right|].
        split; [split; auto|]. split; [congruence|]. congruence.
      * destruct (pick_match_member (t1 :: tl) (strip (selected_tool i)))
          as (t & Hpick & Hin); [discriminate|].
        rewrite Hpick. eexists _, (t1 :: tl), new.
        split; [reflexivity|]. split; [now right|].
        split; [split; auto|]. split; [congruence|]. eauto.
    + rewrite Hcache. eexists _, [], new.
      split; [reflexivity|]. split; [now right|].
      split; [split; auto|]. split; congruence.
  - cbv beta iota. rewrite Hcache.
    destruct (pick_match_member (t0 :: ts) (strip (selected_tool i)))
      as (t & Hpick & Hin); [discriminate|].
    rewrite Hpick. eexists _, (t0 :: ts), []. rewrite app_nil_r.
    split; [destruct i; cbn in *; now rewrite Hcache|].
    split; [now left|]. split; [|split]; eauto.
    split; [congruence | intros [_ H]; discriminate].
Qed.

(** *** The dropdown of the picker *)

Lemma picker_value_kept bc :
  truthy (current_value bc) = true ->
  selected_value bc = Some (current_value bc).
Proof.
  unfold current_value, selected_value, attr_or_null, or_else.
  destruct (field_attr bc "selected_tool" "value") as [v|]; simpl.
  - destruct (truthy v) eqn:E; [reflexivity | discriminate].
  - discriminate.
Qed.

Lemma picker_in_strs v names :
  in_strs v names = true -> exists s, v = JStr s /\ In s names.
Proof.
  unfold in_strs. intros H. apply existsb_exists in H as (s & Hin & Heq).
  destruct v; try discriminate Heq. simpl in Heq.
  apply String.eqb_eq in Heq. subst. eauto.
Qed.

Lemma picker_store_names bc names :
  mem bc "selected_tool" = true ->
  exists bc1,
    store_names bc (current_value bc) names = Ok bc1
    /\ shown_options bc1 = Some (strs names)
    /\ (exists v, selected_value bc1 = Some (JStr v)
                  /\ (In v names \/ (names = [] /\ v = "")))
    /\ forall f, mem bc f = true -> mem bc1 f = true.
Proof.
  intros Hmem. unfold store_names, shown_options, selected_value.
  destruct (set_attr_ok bc "selected_tool" "options" (strs names) Hmem)
    as [bc0 H0].
  rewrite H0. cbn [rbind].
  assert (Hmem0 : mem bc0 "selected_tool" = true)
    by (eapply mem_set_attr; eauto).
  destruct (set_attr_ok bc0 "selected_tool" "value"
              (JStr match names with n :: _ => n | [] => "" end) Hmem0)
    as [bc1 H1].
  assert (Hreset :
    exists bc1,
      set_attr bc0 "selected_tool" "value"
        (JStr match names with n :: _ => n | [] => "" end) = Ok bc1
      /\ field_attr bc1 "selected_tool" "options" = Some (strs names)
      /\ (exists v, field_attr bc1 "selected_tool" "value" = Some (JStr v)
                    /\ (In v names \/ (names = [] /\ v = "")))
      /\ forall f, mem bc f = true -> mem bc1 f = true).
  { exists bc1. split; [exact H1|]. split.
    - rewrite (field_attr_set_other _ _ _ _ _ "selected_tool" "options" H1)
        by (right; discriminate).
      eapply field_attr_set_same; eauto.
    - split.
      + eexists. split; [eapply field_attr_set_same; eauto|].
        destruct names; [right; auto | left; now left].
      + intros f Hf. eapply mem_set_attr; [exact H1|].
        eapply mem_set_attr; eauto. }
  destruct (truthy (current_value bc)) eqn:Ht; cbn [negb orb]; [|exact Hreset].
  destruct (in_strs (current_value bc) names) eqn:Hin; cbn [negb];
    [|exact Hreset].
  exists bc0. split; [reflexivity|]. split.
  - eapply field_attr_set_same; eauto.
  - split.
    + apply picker_in_strs in Hin as (s & Hs & Hin). exists s. split; [|now left].
      rewrite (field_attr_set_other _ _ _ _ _ "selected_tool" "value" H0)
        by (right; discriminate).
      fold (selected_value bc). rewrite picker_value_kept by assumption.
      now rewrite Hs.
    + intros f Hf. eapply mem_set_attr; eauto.
Qed.

Lemma picker_clear_names bc :
  mem bc "selected_tool" = true ->
  exists bc1,
    clear_names bc = Ok bc1
    /\ shown_options bc1 = Some (strs [])
    /\ (selected_value bc1
        = match selected_value bc with
          | Some _ => Some (JStr "")
          | None => None
          end)
    /\ forall f, mem bc f = true -> mem bc1 f = true.
Proof.
  intros Hmem. unfold clear_names, shown_options, selected_value.
  destruct (set_attr_ok bc "selected_tool" "options" (strs []) Hmem)
    as [bc0 H0].
  rewrite H0. cbn [rbind].
  assert (Hmem0 : mem bc0 "selected_tool" = true)
    by (eapply mem_set_attr; eauto).
  assert (Hval : field_attr bc0 "selected_tool" "value"
                 = field_attr bc "selected_tool" "value").
  { eapply field_attr_set_other; [exact H0|]. right. discriminate. }
  rewrite Hval.
  destruct (field_attr bc "selected_tool" "value") as [v|] eqn:Hv.
  - destruct (set_attr_ok bc0 "selected_tool" "value" (JStr "") Hmem0)
      as [bc1 H1].
    exists bc1. split; [exact H1|]. split.
    + rewrite (field_attr_set_other _ _ _ _ _ "selected_tool" "options" H1)
        by (right; discriminate).
      eapply field_attr_set_same; eauto.
    + split; [eapply field_attr_set_same; eauto|].
      intros f Hf. eapply mem_set_attr; [exact H1|].
      eapply mem_set_attr; eauto.
  - exists bc0. split; [reflexivity|]. split.
    + eapply field_attr_set_same; eauto.
    + split; [exact Hval|]. intros f Hf. eapply mem_set_attr; eauto.
Qed.

Lemma picker_lower_toggle (bc1 : build_config) :
  exists bc',
    (if mem bc1 "refresh_now"
     then set_attr bc1 "refresh_now" "value" (JBool false)
     else Ok bc1) = Ok bc'
    /\ shown_options bc' = shown_options bc1
    /\ selected_value bc' = selected_value bc1
    /\ (mem bc1 "refresh_now" = true ->
        field_attr bc' "refresh_now" "value" = Some (JBool false)).
Proof.
  unfold shown_options, selected_value.
  destruct (mem bc1 "refresh_now") eqn:Hm.
  - destruct (set_attr_ok bc1 "refresh_now" "value" (JBool false) Hm)
      as [bc' H].
    exists bc'. split; [exact H|].
    split; [eapply field_attr_set_other; [exact H|]; left; discriminate|].
    split; [eapply field_attr_set_other; [exact H|]; left; discriminate|].
    intros _. eapply field_attr_set_same; eauto.
  - exists bc1. repeat split; auto. discriminate.
Qed.

(** X18: a refresh of the tool dropdown, for a base that is not empty
    and a configuration that has the dropdown, always returns and marks
    the instance as fetched, and lowers the refresh toggle when there is
    one.  When the tools were fetched, they become the cache, the
    options are their labels, and the selection is one of the labels, or
    the empty string when there is no tool.  When the fetch raised, the
    options are emptied and a selection, if the dropdown had one, is set
    to the empty string, while the cache keeps the tools it had. *)
Theorem picker_refresh_outcome :
  forall (urlopen : list request -> request -> result json)
         bc field_value field_name i base,
    refresh_base bc field_value field_name = Ok base ->
    base <> "" ->
    should_refresh i bc field_name = true ->
    mem bc "selected_tool" = true ->
    exists bc' i',
      update_build_config urlopen bc field_value field_name i = (Ok bc', i')
      /\ _did_initial_fetch i' = true
      /\ calls i' = calls (snd (_fetch_tools urlopen base i))
      /\ (mem bc "refresh_now" = true ->
          field_attr bc' "refresh_now" "value" = Some (JBool false))
      /\ match fst (_fetch_tools urlopen base i) with
         | Ok tools =>
             _last_tools i' = tools
             /\ shown_options bc' = Some (strs (map label tools))
             /\ exists v, selected_value bc' = Some (JStr v)
                          /\ (In v (map label tools) \/ (tools = [] /\ v = ""))
         | Raise _ =>
             _last_tools i' = _last_tools i
             /\ shown_options bc' = Some (strs [])
             /\ selected_value bc'
                = match selected_value bc with
                  | Some _ => Some (JStr "")
                  | None => None
                  end
         end.
Proof.
  intros urlopen bc fv fn i base Hbase Hne Hrefresh Hmem.
  unfold update_build_config, bind, lift, gets. rewrite Hbase, Hrefresh.
  destruct (String.eqb_spec base ""); [contradiction|]. cbn [andb negb].
  unfold try_except, bind, modify, lift, ret.
  destruct (fetch_tools_state urlopen base i) as (new & Hstate & _).
  destruct (_fetch_tools urlopen base i) as [[tools|e] i1];
    cbn [fst snd] in *; subst i1; cbv beta iota.
  - destruct (picker_store_names bc (map label tools) Hmem)
      as (bc1 & Hstore & Hopts & (v & Hval & Hin) & Hmems).
    rewrite Hstore. cbv beta iota.
    destruct (picker_lower_toggle bc1) as (bc' & Htoggle & Ho & Hv & Hlow).
    exists bc'. eexists.
    split; [destruct (mem bc1 "refresh_now"); rewrite Htoggle; reflexivity|].
    split; [reflexivity|]. split; [reflexivity|].
    split; [intros Hm; apply Hlow, Hmems, Hm|].
    split; [reflexivity|]. split; [now rewrite Ho|].
    exists v. split; [now rewrite Hv|].
    destruct Hin as [Hin|[Hnil ->]]; [now left|right].
    split; [|reflexivity]. now destruct tools.
  - cbn [any_Exception].
    destruct (picker_clear_names bc Hmem)
      as (bc1 & Hclear & Hopts & Hval & Hmems).
    rewrite Hclear. cbv beta iota.
    destruct (picker_lower_toggle bc1) as (bc' & Htoggle & Ho & Hv & Hlow).
    exists bc'. eexists.
    split; [destruct (mem bc1 "refresh_now"); rewrite Htoggle; reflexivity|].
    split; [reflexivity|]. split; [reflexivity|].
    split; [intros Hm; apply Hlow, Hmems, Hm|].
    split; [reflexivity|]. split; [now rewrite Ho|].
    now rewrite Hv.
Qed.

Lemma picker_refresh_outcome_witness :
  (exists bc' i',
      update_build_config (serving tools_payload) (picker_config "calc")
        (JBool true) (Some "refresh_now") (picker "http://h/" "") = (Ok bc', i')
      /\ shown_options bc' = Some (strs ["/echo"; "Calc"; "search"])
      /\ selected_value bc' = Some (JStr "/echo"))
  /\ exists bc' i',
      update_build_config offline (picker_config "Calc")
        (JBool true) (Some "refresh_now")
        (caching [mk_tool "Calc" "/calc" ""] "http://h/" "") = (Ok bc', i')
      /\ shown_options bc' = Some (strs [])
      /\ selected_value bc' = Some (JStr "")
      /\ _last_tools i' = [mk_tool "Calc" "/calc" ""].
Proof.
  split.
  - destruct (picker_refresh_outcome (serving tools_payload)
                (picker_config "calc") (JBool true) (Some "refresh_now")
                (picker "http://h/" "") "http://h" eq_refl
                ltac:(discriminate) eq_refl eq_refl)
      as (bc' & i' & Hrun & _ & _ & _ & Hcase).
    exists bc', i'. split; [exact Hrun|].
    assert (Hc : update_build_config (serving tools_payload)
                   (picker_config "calc") (JBool true) (Some "refresh_now")
                   (picker "http://h/" "")
                 = (Ok (fst (bc', i')), snd (bc', i'))) by exact Hrun.
    vm_compute in Hc. injection Hc as Hbc Hi. rewrite <- Hbc.
    split; reflexivity.
  - destruct (picker_refresh_outcome offline (picker_config "Calc")
                (JBool true) (Some "refresh_now")
                (caching [mk_tool "Calc" "/calc" ""] "http://h/" "")
                "http://h" eq_refl ltac:(discriminate) eq_refl eq_refl)
      as (bc' & i' & Hrun & _ & _ & _ & Hcase).
    exists bc', i'. split; [exact Hrun|].
    change (fst (_fetch_tools offline "http://h"
                   (caching [mk_tool "Calc" "/calc" ""] "http://h/" "")))
      with (@Raise (list tool) URLError) in Hcase.
    cbv beta iota in Hcase. destruct Hcase as (Hcache & Hopts & Hval).
    repeat split; assumption.
Defined.


(** *** The requests of a fetch *)

Lemma picker_fallback_host_gone base :
  contains "host.docker.internal" (_linux_fallback base) = false
  /\ (contains "host.docker.internal" base = false ->
      _linux_fallback base = base).
Proof.
  unfold _linux_fallback.
  destruct (contains "host.docker.internal" base) eqn:E.
  - split; [apply replace_host_gone | discriminate].
  - split; [exact E | reflexivity].
Qed.

(** X21: when the first GET of [_fetch_tools] raises [URLError],
    [OSError], [socket.gaierror] or, being a [URLError], an HTTP error
    status, exactly one more GET follows, to a base that does not
    mention [host.docker.internal], and its outcome is the outcome of
    the fetch; for a base that never mentioned that host the retry goes
    to the very URL that just failed.  An exception of another class is
    raised after the first GET. *)
Theorem fetch_tools_retries_once :
  forall (urlopen : list request -> request -> result json) base i e,
    let url := base ++ "/tools" in
    let fb := _linux_fallback base in
    urlopen (calls i) (GET url) = Raise e ->
    (transport_classes e = true ->
     calls (snd (_fetch_tools urlopen base i))
     = (calls i ++ [GET url; GET (fb ++ "/tools")])%list
     /\ fst (_fetch_tools urlopen base i)
        = rbind (urlopen (calls i ++ [GET url])%list (GET (fb ++ "/tools")))
            norm_of_payload
     /\ contains "host.docker.internal" fb = false
     /\ (contains "host.docker.internal" base = false ->
         GET (fb ++ "/tools") = GET url))
    /\ (transport_classes e = false ->
        calls (snd (_fetch_tools urlopen base i)) = (calls i ++ [GET url])%list
        /\ fst (_fetch_tools urlopen base i) = Raise e).
Proof.
  intros urlopen base i e url fb Hfirst.
  rewrite fetch_tools_run. cbv zeta. fold url. fold fb. rewrite Hfirst.
  destruct (picker_fallback_host_gone base) as [Hgone Hsame].
  split; intros Hclass; rewrite Hclass; cbn [fst snd calls with_call].
  - rewrite <- app_assoc. repeat split; auto.
    intros Hno. unfold fb, url. now rewrite Hsame.
  - split; reflexivity.
Qed.

Lemma fetch_tools_retries_once_witness :
  calls (snd (_fetch_tools offline "http://h" (picker "http://h" "")))
  = [GET "http://h/tools"; GET "http://h/tools"]
  /\ calls (snd (_fetch_tools offline "http://host.docker.internal:8000"
                   (picker "" "")))
     = [GET "http://host.docker.internal:8000/tools";
        GET "http://172.17.0.1:8000/tools"].
Proof.
  destruct (fetch_tools_retries_once offline "http://h" (picker "http://h" "")
              URLError eq_refl) as [Hretry _].
  destruct (Hretry eq_refl) as (Hcalls & _).
  split; [exact Hcalls|].
  destruct (fetch_tools_retries_once offline "http://host.docker.internal:8000"
              (picker "" "") URLError eq_refl) as [Hretry' _].
  destruct (Hretry' eq_refl) as (Hcalls' & _). exact Hcalls'.
Defined.

(** *** The base of the picker *)

(** X22: the base [_normalize_base] returns never ends in a slash and,
    with [force_https] set, never starts with [http://]; it is empty for
    a blank argument; and stripping the argument beforehand, as [_run]
    does, changes nothing, so that [_run] and [update_build_config] work
    with the same base for the same text and flag. *)
Theorem normalize_base_shape :
  forall base force_https,
    endswith (_normalize_base base force_https) "/" = false
    /\ startswith (_normalize_base base true) "http://" = false
    /\ (strip base = "" -> _normalize_base base force_https = "")
    /\ _normalize_base (strip base) force_https
       = _normalize_base base force_https.
Proof.
  intros base fh. split; [|split; [|split]].
  - unfold _normalize_base. cbv zeta.
    destruct (String.eqb (strip base) ""); [reflexivity|].
    apply rstrip_slash_endswith.
  - unfold _normalize_base, startswith. cbv zeta.
    destruct (String.eqb (strip base) ""); [reflexivity|].
    destruct (String.prefix "http://" (rstrip "/" _)) eqn:Hp; [|reflexivity].
    pose proof (prefix_trans _ _ _ Hp (rstrip_by_prefix _ _)) as Hb.
    cbn [andb] in Hb. unfold startswith in Hb.
    destruct (String.prefix "http://" (strip base)) eqn:E; [|congruence].
    discriminate Hb.
  - intros H. unfold _normalize_base. cbv zeta. now rewrite H.
  - unfold _normalize_base. cbv zeta. now rewrite strip_idem.
Qed.
End ToolPickerMore.

(** ** From the picker to the invoker *)

Module PipelineSpec.
Import PyStr PyDict Json Py PyOps PyFacts StrFacts ToolInvoker
  InvokerScenarios MoreInvokerScenarios PipelineScenarios ToolInvokerSpec
  ToolInvokerMore.
Local Open Scope py_scope.





End PipelineSpec.
